(** * VQSyntheticContrast: the vector-quantisation layer and the U-Net builder

    A shallow embedding of
      - [vq_sce/networks/components/layers/vq_layers.py]  (module [vq_layers_py]),
      - [vq_sce/networks/components/layer/layers.py]      (module [layers_py]),
      - [vq_sce/networks/components/unet.py]              (module [unet_py]),
    followed by the properties established about them.

    Numbers.  TensorFlow tensors hold float32 numbers.  The sources are
    embedded twice, for two kinds of statements.
      - In [tf], [vq_layers_py] and [layers_py] a tensor entry is an exact
        rational ([Qc]) paired with a tangent, the derivative of the entry
        along one fixed direction of the trainable parameters and inputs
        (forward-mode differentiation).  The tangent is what makes
        [tf.stop_gradient] observable: it keeps the value and clears the
        tangent.  These modules carry the statements that rounding has no
        part in: shapes, the inputs on which a call fails, which expression
        is recorded as the loss, where gradients flow, and the agreement
        of two computations made of the same operations.
      - In [f32], [tf32] and [vq_layers_f32] a tensor entry is an IEEE 754
        binary32 number and every operation rounds as the standard says
        ([SpecFloat] at precision 24); only forward values are kept.
        What TensorFlow leaves to its kernels (the order of the additions
        of a reduction, the accumulation of a matrix product) is a
        parameter.  These modules carry the statements about the numbers
        computed: which index is selected and what the quantised and
        returned tensors hold. *)

From Stdlib Require Import ZArith QArith Qcanon List Lia String.
From Stdlib Require SpecFloat.
From stdpp Require Import base numbers option list gmap strings pretty.
Import ListNotations.

#[local] Open Scope Qc_scope.

(* ===================================================================== *)
(** ** Tensor primitives used by the sources *)
(* ===================================================================== *)

Module tf.

(** A tensor entry: forward value and tangent. *)
Record scalar : Type := Scalar { value : Qc; tangent : Qc }.

(** A Python constant: no dependence on any parameter. *)
Definition const (c : Qc) : scalar := Scalar c 0.

Definition zero : scalar := const 0.
Definition one : scalar := const 1.

Definition add (a b : scalar) : scalar :=
  Scalar (value a + value b) (tangent a + tangent b).

Definition sub (a b : scalar) : scalar :=
  Scalar (value a - value b) (tangent a - tangent b).

Definition mul (a b : scalar) : scalar :=
  Scalar (value a * value b) (tangent a * value b + value a * tangent b).

(** [tf.square] and [** 2]. *)
Definition square (a : scalar) : scalar := mul a a.

(** [tf.stop_gradient]: the forward value, no gradient. *)
Definition stop_gradient (a : scalar) : scalar := Scalar (value a) 0.

(** Division of a sum by an element count (the last step of a mean). *)
Definition div_count (a : scalar) (n : nat) : scalar :=
  Scalar (value a / Q2Qc (inject_Z (Z.of_nat n)))
         (tangent a / Q2Qc (inject_Z (Z.of_nat n))).

(** A tensor: its shape and its entries in row-major order. *)
Record Tensor : Type := { shape : list nat; data : list scalar }.

Definition numel (dims : list nat) : nat := fold_right Nat.mul 1%nat dims.

(** Matrices (rank-2 tensors) are lists of rows. *)
Definition matrix : Type := list (list scalar).

Fixpoint take_rows {A} (D N : nat) (l : list A) : list (list A) :=
  match N with
  | O => []
  | S N' => firstn D l :: take_rows D N' (skipn D l)
  end.

(** [tf.reshape(x, [-1, D])]: the entries regrouped in rows of [D]; an
    error when the row count cannot be inferred. *)
Definition reshape_rows (x : Tensor) (D : nat) : option matrix :=
  if (D =? 0)%nat then None
  else if (length (data x) mod D =? 0)%nat
       then Some (take_rows D (length (data x) / D) (data x))
       else None.

(** [tf.reshape(t, dims)]: same entries, new shape; an error when the
    element counts differ. *)
Definition reshape (entries : list scalar) (dims : list nat) : option Tensor :=
  if (length entries =? numel dims)%nat
  then Some {| shape := dims; data := entries |}
  else None.

(** [tf.reduce_sum] of a vector. *)
Definition reduce_sum (l : list scalar) : scalar := fold_right add zero l.

(** [tf.reduce_mean] over all entries.  (The mean of no entry is 0 here;
    in float32 it is NaN, see [tf32.reduce_mean].) *)
Definition reduce_mean (l : list scalar) : scalar :=
  div_count (reduce_sum l) (length l).

Definition dot (a b : list scalar) : scalar := reduce_sum (zip_with mul a b).

(** Column [k] of a matrix. *)
Definition column (k : nat) (B : matrix) : list scalar :=
  map (fun row => nth k row zero) B.

(** [tf.matmul(A, B)] where [B] has [K] columns. *)
Definition matmul (K : nat) (A B : matrix) : matrix :=
  map (fun a => map (fun k => dot a (column k B)) (seq 0 K)) A.

(** [tf.matmul(A, B, transpose_b=True)]. *)
Definition matmul_transpose_b (A B : matrix) : matrix :=
  map (fun a => map (fun b => dot a b) B) A.

(** [tf.argmin] along a row: the first index holding the least value. *)
Fixpoint argmin_from (best_i : nat) (best : Qc) (i : nat) (l : list scalar)
  : nat :=
  match l with
  | [] => best_i
  | d :: l' =>
      if Qclt_le_dec (value d) best
      then argmin_from i (value d) (S i) l'
      else argmin_from best_i best (S i) l'
  end.

Definition argmin (l : list scalar) : nat :=
  match l with
  | [] => 0%nat
  | d :: l' => argmin_from 0%nat (value d) 1%nat l'
  end.

(** [tf.one_hot(idx, K)] for one index. *)
Definition one_hot (idx K : nat) : list scalar :=
  map (fun k => if (k =? idx)%nat then one else zero) (seq 0 K).

(** [A * B] with [B] of shape [1, K] broadcast over the rows of [A]. *)
Definition broadcast_mul (A B : matrix) : option matrix :=
  match B with
  | [b] => Some (map (fun a => zip_with mul a b) A)
  | _ => None
  end.

(** Element-wise tensor operations; the operands have the same shape. *)
Definition t_map (f : scalar -> scalar) (x : Tensor) : Tensor :=
  {| shape := shape x; data := map f (data x) |}.

Definition t_zip (f : scalar -> scalar -> scalar) (x y : Tensor) : Tensor :=
  {| shape := shape x; data := zip_with f (data x) (data y) |}.

Definition t_add : Tensor -> Tensor -> Tensor := t_zip add.
Definition t_sub : Tensor -> Tensor -> Tensor := t_zip sub.
Definition t_square : Tensor -> Tensor := t_map square.
Definition t_stop_gradient : Tensor -> Tensor := t_map stop_gradient.
Definition t_reduce_mean (x : Tensor) : scalar := reduce_mean (data x).

(** [tf.nn.relu]: the entry where it is positive, zero (with no gradient)
    elsewhere. *)
Definition relu (a : scalar) : scalar :=
  if Qclt_le_dec 0 (value a) then a else zero.

Definition t_relu : Tensor -> Tensor := t_map relu.

End tf.

(* ===================================================================== *)
(** ** layers/vq_layers.py *)
(* ===================================================================== *)

Module vq_layers_py.
Import tf.

Definition WEIGHT_SCALE : Qc := Q2Qc 0.02.

(** The state of a [VQBlock]; [dictionary] is the weight [VQdict] of shape
    [embedding_dim, num_embeddings], a list of [embedding_dim] rows. *)
Record VQBlock : Type := {
  num_embeddings : nat;
  embedding_dim : nat;
  beta : Qc;
  dictionary : matrix
}.

(** The matrix [distances] of [VQBlock.get_code_indices]: rows of
    [flattened] against columns of the dictionary. *)
Definition distances (self : VQBlock) (flattened : matrix) : matrix :=
  let similarity := matmul (num_embeddings self) flattened (dictionary self) in
  let row_norms := map (fun a => reduce_sum (map square a)) flattened in
  let col_norms :=
    map (fun k => reduce_sum (map square (column k (dictionary self))))
        (seq 0 (num_embeddings self)) in
  zip_with
    (fun rn sim_row =>
       zip_with (fun cn s => sub (add rn cn) (mul (const 2) s))
                col_norms sim_row)
    row_norms similarity.

(** [VQBlock.get_code_indices]: the index of the least distance in each
    row; an empty reduction axis is an error. *)
Definition get_code_indices (self : VQBlock) (flattened : matrix)
  : option (list nat) :=
  if (num_embeddings self =? 0)%nat then None
  else Some (map argmin (distances self flattened)).

(** [VQBlock.call], up to the reshape back to the input dimensions: the
    tensor [q] the losses are computed from. *)
Definition quantized (self : VQBlock) (x : Tensor) : option Tensor :=
  let img_dims := shape x in
  flat ← reshape_rows x (embedding_dim self);
  code_idx ← get_code_indices self flat;
  let idx_one_hot := map (fun i => one_hot i (num_embeddings self)) code_idx in
  quantized ←
    (if (embedding_dim self =? 1)%nat
     then
       prod ← broadcast_mul idx_one_hot (dictionary self);
       let quantized := map reduce_sum prod in
       Some (map (fun v => mul v (const WEIGHT_SCALE)) quantized)
     else
       Some (concat (matmul_transpose_b idx_one_hot (dictionary self))));
  reshape quantized img_dims.

(** [VQBlock.call]: the returned tensor and the loss handed to [add_loss]. *)
Definition call (self : VQBlock) (x : Tensor) : option (Tensor * scalar) :=
  q ← quantized self x;
  let dictionary_loss :=
    t_reduce_mean (t_square (t_sub (t_stop_gradient x) q)) in
  let commitment_loss :=
    t_reduce_mean (t_square (t_sub x (t_stop_gradient q))) in
  let loss := add dictionary_loss (mul (const (beta self)) commitment_loss) in
  let q := t_add x (t_stop_gradient (t_sub q x)) in
  Some (q, loss).

End vq_layers_py.

(* ===================================================================== *)
(** ** float32 numbers *)
(* ===================================================================== *)

Module f32.

(** IEEE 754 binary32: 24 bits of precision, exponents below 128, every
    operation rounded to nearest, ties to even. *)
Definition prec : Z := 24%Z.
Definition emax : Z := 128%Z.

Definition float32 : Type := SpecFloat.spec_float.

Definition add : float32 -> float32 -> float32 := SpecFloat.SFadd prec emax.
Definition sub : float32 -> float32 -> float32 := SpecFloat.SFsub prec emax.
Definition mul : float32 -> float32 -> float32 := SpecFloat.SFmul prec emax.
Definition div : float32 -> float32 -> float32 := SpecFloat.SFdiv prec emax.

(** [<] and [==] of floats: false whenever an operand is NaN. *)
Definition ltb : float32 -> float32 -> bool := SpecFloat.SFltb.

(** The conversion of an integer. *)
Definition of_Z (n : Z) : float32 :=
  SpecFloat.binary_normalize prec emax n 0%Z false.

Definition zero : float32 := SpecFloat.S754_zero false.
Definition one : float32 := SpecFloat.S754_finite false 8388608 (-23)%Z.
Definition two : float32 := SpecFloat.S754_finite false 8388608 (-22)%Z.

(** The conversion of the decimal [num / den]: the nearest float32. *)
Definition of_ratio (num den : Z) : float32 := div (of_Z num) (of_Z den).


Definition is_zero (a : float32) : bool :=
  match a with SpecFloat.S754_zero _ => true | _ => false end.

(** A value a float32 variable can hold that is neither an infinity nor
    NaN. *)
Definition is_finite (a : float32) : bool :=
  match a with
  | SpecFloat.S754_zero _ => true
  | SpecFloat.S754_finite _ m e => SpecFloat.bounded prec emax m e
  | _ => false
  end.

(** Zero, or a number of magnitude from 2^-40 up to 2^40.  The statements
    about computed values are made for such numbers: their products,
    sums and differences, a few at a time, are zeros or normal numbers
    far from overflow.  (TensorFlow runs its kernels with subnormal
    numbers flushed to zero; on normal numbers that makes no
    difference.) *)
Definition moderate (a : float32) : bool :=
  match a with
  | SpecFloat.S754_zero _ => true
  | SpecFloat.S754_finite _ m e =>
      SpecFloat.bounded prec emax m e && (-63 <=? e)%Z && (e <=? 16)%Z
  | _ => false
  end.




End f32.

(* ===================================================================== *)
(** ** Tensor primitives on float32 *)
(* ===================================================================== *)

Module tf32.
Import f32.

(** A float32 tensor: its shape and its entries in row-major order. *)
Record Tensor : Type := { shape : list nat; data : list float32 }.

Definition matrix : Type := list (list float32).

(** [tf.reshape(x, [-1, D])]. *)
Definition reshape_rows (x : Tensor) (D : nat) : option matrix :=
  if (D =? 0)%nat then None
  else if (length (data x) mod D =? 0)%nat
       then Some (tf.take_rows D (length (data x) / D) (data x))
       else None.

(** [tf.reshape(t, dims)]. *)
Definition reshape (entries : list float32) (dims : list nat) : option Tensor :=
  if (length entries =? tf.numel dims)%nat
  then Some {| shape := dims; data := entries |}
  else None.

(** [tf.square]: the product of the number with itself. *)
Definition square (a : float32) : float32 := mul a a.

(** [tf.stop_gradient]: the forward value. *)
Definition stop_gradient (a : float32) : float32 := a.

Definition column (k : nat) (B : matrix) : list float32 :=
  map (fun row => nth k row zero) B.

(** What TensorFlow leaves to its kernels: how the inner product of a
    matrix product accumulates (in which order, with the multiplications
    fused to the additions or not), in which order a reduction adds its
    terms, and how the power [** 2] is computed. *)
Record Kernels : Type := {
  k_dot : list float32 -> list float32 -> float32;
  k_sum : list float32 -> float32;
  k_pow2 : float32 -> float32
}.

(** The kernels that add in index order to an accumulator starting at 0,
    round every product, and square by multiplying. *)
Definition index_order : Kernels :=
  {| k_dot := fun a b => fold_left add (zip_with mul a b) zero;
     k_sum := fun l => fold_left add l zero;
     k_pow2 := fun a => mul a a |}.

Section Kernel.

Variable kernel : Kernels.

(** [tf.reduce_sum] of a vector. *)
Definition reduce_sum (l : list float32) : float32 := k_sum kernel l.

(** [tf.reduce_mean] over all entries: the sum divided by the count; the
    mean of no entry is 0 / 0. *)
Definition reduce_mean (l : list float32) : float32 :=
  div (reduce_sum l) (of_Z (Z.of_nat (length l))).

(** [** 2]. *)
Definition pow2 (a : float32) : float32 := k_pow2 kernel a.

(** One entry of a matrix product. *)
Definition dot (a b : list float32) : float32 := k_dot kernel a b.

(** [tf.matmul(A, B)] where [B] has [K] columns. *)
Definition matmul (K : nat) (A B : matrix) : matrix :=
  map (fun a => map (fun k => dot a (column k B)) (seq 0 K)) A.

(** [tf.matmul(A, B, transpose_b=True)]. *)
Definition matmul_transpose_b (A B : matrix) : matrix :=
  map (fun a => map (fun b => dot a b) B) A.

Definition t_reduce_mean (x : Tensor) : float32 := reduce_mean (data x).

End Kernel.

(** [tf.argmin] along a row, as the kernels compute it: the first index
    holding a value that no earlier value is below. *)
Fixpoint argmin_from (best_i : nat) (best : float32) (i : nat)
    (l : list float32) : nat :=
  match l with
  | [] => best_i
  | d :: l' =>
      if ltb d best
      then argmin_from i d (S i) l'
      else argmin_from best_i best (S i) l'
  end.

Definition argmin (l : list float32) : nat :=
  match l with
  | [] => 0%nat
  | d :: l' => argmin_from 0%nat d 1%nat l'
  end.

(** [tf.one_hot(idx, K)] for one index. *)
Definition one_hot (idx K : nat) : list float32 :=
  map (fun k => if (k =? idx)%nat then one else zero) (seq 0 K).

(** [A * B] with [B] of shape [1, K] broadcast over the rows of [A]. *)
Definition broadcast_mul (A B : matrix) : option matrix :=
  match B with
  | [b] => Some (map (fun a => zip_with mul a b) A)
  | _ => None
  end.

(** Element-wise tensor operations; the operands have the same shape. *)
Definition t_map (f : float32 -> float32) (x : Tensor) : Tensor :=
  {| shape := shape x; data := map f (data x) |}.

Definition t_zip (f : float32 -> float32 -> float32) (x y : Tensor) : Tensor :=
  {| shape := shape x; data := zip_with f (data x) (data y) |}.

Definition t_add : Tensor -> Tensor -> Tensor := t_zip add.
Definition t_sub : Tensor -> Tensor -> Tensor := t_zip sub.
Definition t_square : Tensor -> Tensor := t_map square.
Definition t_stop_gradient : Tensor -> Tensor := t_map stop_gradient.

End tf32.

(* ===================================================================== *)
(** ** layers/vq_layers.py on float32 *)
(* ===================================================================== *)

Module vq_layers_f32.
Import f32 tf32.

(** [WEIGHT_SCALE = 0.02] converted to the float32 of the tensor it
    multiplies: 10737418 * 2^-29. *)
Definition WEIGHT_SCALE : float32 :=
  SpecFloat.S754_finite false 10737418 (-29)%Z.

(** The state of a [VQBlock]; [dictionary] is the weight [VQdict] of shape
    [embedding_dim, num_embeddings], a list of [embedding_dim] rows. *)
Record VQBlock : Type := {
  num_embeddings : nat;
  embedding_dim : nat;
  beta : float32;
  dictionary : matrix
}.

Section Kernel.

Variable kernel : Kernels.

(** The matrix [distances] of [VQBlock.get_code_indices]. *)
Definition distances (self : VQBlock) (flattened : matrix) : matrix :=
  let similarity :=
    matmul kernel (num_embeddings self) flattened (dictionary self) in
  let row_norms :=
    map (fun a => reduce_sum kernel (map (pow2 kernel) a)) flattened in
  let col_norms :=
    map (fun k => reduce_sum kernel
                    (map (pow2 kernel) (column k (dictionary self))))
        (seq 0 (num_embeddings self)) in
  zip_with
    (fun rn sim_row =>
       zip_with (fun cn s => sub (add rn cn) (mul two s))
                col_norms sim_row)
    row_norms similarity.

(** [VQBlock.get_code_indices]. *)
Definition get_code_indices (self : VQBlock) (flattened : matrix)
  : option (list nat) :=
  if (num_embeddings self =? 0)%nat then None
  else Some (map argmin (distances self flattened)).

(** [VQBlock.call], up to the reshape back to the input dimensions. *)
Definition quantized (self : VQBlock) (x : Tensor) : option Tensor :=
  let img_dims := shape x in
  flat ← reshape_rows x (embedding_dim self);
  code_idx ← get_code_indices self flat;
  let idx_one_hot := map (fun i => one_hot i (num_embeddings self)) code_idx in
  quantized ←
    (if (embedding_dim self =? 1)%nat
     then
       prod ← broadcast_mul idx_one_hot (dictionary self);
       let quantized := map (reduce_sum kernel) prod in
       Some (map (fun v => mul v WEIGHT_SCALE) quantized)
     else
       Some (concat (matmul_transpose_b kernel idx_one_hot (dictionary self))));
  reshape quantized img_dims.

(** [VQBlock.call]: the returned tensor and the loss handed to [add_loss]. *)
Definition call (self : VQBlock) (x : Tensor) : option (Tensor * float32) :=
  q ← quantized self x;
  let dictionary_loss :=
    t_reduce_mean kernel (t_square (t_sub (t_stop_gradient x) q)) in
  let commitment_loss :=
    t_reduce_mean kernel (t_square (t_sub x (t_stop_gradient q))) in
  let loss := add dictionary_loss (mul (beta self) commitment_loss) in
  let q := t_add x (t_stop_gradient (t_sub q x)) in
  Some (q, loss).

End Kernel.

End vq_layers_f32.

(* ===================================================================== *)
(** ** Python values, exceptions and loops *)
(* ===================================================================== *)

Module py.

Inductive exception : Type :=
  | AssertionError
  | KeyError (key : string)
  | TypeError
  | AttributeError
  | IndexError
  | UnboundLocalError (name : string)
  | ZeroDivisionError
  | OverflowError
  | ValueError.

Inductive result (A : Type) : Type :=
  | Ok (a : A)
  | Raise (e : exception).
Arguments Ok {A} a.
Arguments Raise {A} e.

#[export] Instance result_ret : MRet result := fun _ a => Ok a.
#[export] Instance result_bind : MBind result := fun _ _ f m =>
  match m with
  | Ok a => f a
  | Raise e => Raise e
  end.

Definition is_ok {A} (r : result A) : bool :=
  match r with Ok _ => true | Raise _ => false end.

(** The values held by the configuration dictionaries. *)
Inductive value : Type :=
  | Int (z : Z)
  | Float (q : Qc)
  | Bool (b : bool).

Abbreviation dict := (gmap string value).
Abbreviation triple := (Z * Z * Z)%type.

(** [d[key]]. *)
Definition getitem {V} (d : gmap string V) (key : string) : result V :=
  match d !! key with
  | Some v => Ok v
  | None => Raise (KeyError key)
  end.

(** [l[i]] for an index that is not negative. *)
Definition index {A} (l : list A) (i : Z) : result A :=
  match l !! Z.to_nat i with
  | Some a => Ok a
  | None => Raise IndexError
  end.

(** Reading a local variable that an earlier statement may not have bound. *)
Definition local {A} (name : string) (v : option A) : result A :=
  match v with
  | Some a => Ok a
  | None => Raise (UnboundLocalError name)
  end.

(** [range(a, b)]. *)
Definition range (a b : Z) : list Z :=
  map (fun k => (a + Z.of_nat k)%Z) (seq 0 (Z.to_nat (b - a))).

(** [for i in l: s = body(s, i)], stopping at the first exception. *)
Fixpoint for_each {S A} (l : list A) (body : S -> A -> result S) (s : S)
  : result S :=
  match l with
  | [] => Ok s
  | i :: l' =>
      match body s i with
      | Ok s' => for_each l' body s'
      | Raise e => Raise e
      end
  end.

(** [range(a, b, -1)]. *)
Definition range_down (a b : Z) : list Z :=
  map (fun k => (a - Z.of_nat k)%Z) (seq 0 (Z.to_nat (a - b))).

(** [a // b] on integers. *)
Definition floordiv (a b : Z) : result Z :=
  if (b =? 0)%Z then Raise ZeroDivisionError else Ok (a / b)%Z.

End py.

(* ===================================================================== *)
(** ** layer/layers.py *)
(* ===================================================================== *)

Module layers_py.
Import tf py.

Definition WEIGHT_SCALE : Qc := Q2Qc 0.02.

(** The state of this file's [VQBlock]. *)
Record VQBlock : Type := {
  num_embeddings : nat;
  embedding_dim : nat;
  beta : Qc;
  dictionary : matrix
}.

(** [VQBlock.get_code_indices]. *)
Definition distances (self : VQBlock) (flattened : matrix) : matrix :=
  let similarity := matmul (num_embeddings self) flattened (dictionary self) in
  let row_norms := map (fun a => reduce_sum (map square a)) flattened in
  let col_norms :=
    map (fun k => reduce_sum (map square (column k (dictionary self))))
        (seq 0 (num_embeddings self)) in
  zip_with
    (fun rn sim_row =>
       zip_with (fun cn s => sub (add rn cn) (mul (const 2) s))
                col_norms sim_row)
    row_norms similarity.

Definition get_code_indices (self : VQBlock) (flattened : matrix)
  : option (list nat) :=
  if (num_embeddings self =? 0)%nat then None
  else Some (map argmin (distances self flattened)).

(** [VQBlock.call(x, t=None)]; the time value [t] is accepted and never
    read. *)
Definition call (self : VQBlock) (x : Tensor) (t : option Tensor)
  : option (Tensor * scalar) :=
  let img_dims := shape x in
  flat ← reshape_rows x (embedding_dim self);
  code_idx ← get_code_indices self flat;
  let idx_one_hot := map (fun i => one_hot i (num_embeddings self)) code_idx in
  quantized ←
    (if (embedding_dim self =? 1)%nat
     then
       prod ← broadcast_mul idx_one_hot (dictionary self);
       let quantized := map reduce_sum prod in
       Some (map (fun v => mul v (const WEIGHT_SCALE)) quantized)
     else
       Some (concat (matmul_transpose_b idx_one_hot (dictionary self))));
  q ← reshape quantized img_dims;
  let dictionary_loss :=
    t_reduce_mean (t_square (t_sub (t_stop_gradient x) q)) in
  let commitment_loss :=
    t_reduce_mean (t_square (t_sub x (t_stop_gradient q))) in
  let loss := add dictionary_loss (mul (const (beta self)) commitment_loss) in
  let q := t_add x (t_stop_gradient (t_sub q x)) in
  Some (q, loss).

(** What a [VQBlock] is constructed from (its weight is drawn at random). *)
Record VQBlock_args : Type := {
  vq_num_embeddings : value;
  vq_embedding_dim : Z;
  vq_beta : value;
  vq_name : string
}.

Record Conv3D : Type := {
  filters : Z;
  kernel_size : triple;
  strides : triple
}.

(** The attributes set by [DownBlock.__init__]. *)
Record DownBlock : Type := {
  down_conv1 : Conv3D;
  down_conv2 : Conv3D;
  down_use_vq : bool;
  down_vq : option VQBlock_args;
  down_vq_time : value
}.

(** [DownBlock.__init__(nc, weights, strides, initialiser, use_vq,
    vq_config, name)]; [vq_config] is [None] or a dictionary.  In this and
    the three constructors below the Keras layers and [VQBlock] are taken
    to accept the arguments they are given (a number of filters, and a
    count of embeddings that is a non-negative integer); what is followed
    is the block's own reading of [vq_config]. *)
Definition DownBlock_init (nc : Z) (weights strides : triple) (use_vq : bool)
    (vq_config : option dict) (name : string) : result DownBlock :=
  let conv1 := {| filters := nc; kernel_size := weights; strides := (1, 1, 1)%Z |} in
  let conv2 := {| filters := nc; kernel_size := weights; strides := strides |} in
  if use_vq then
    match vq_config with
    | None => Raise TypeError
    | Some vq_config =>
        embeddings ← getitem vq_config "embeddings";
        vq_beta ← getitem vq_config "vq_beta";
        let vq := {| vq_num_embeddings := embeddings; vq_embedding_dim := nc;
                     vq_beta := vq_beta; vq_name := name +:+ "_vq" |} in
        vq_time ← getitem vq_config "vq_time";
        Ok {| down_conv1 := conv1; down_conv2 := conv2; down_use_vq := use_vq;
              down_vq := Some vq; down_vq_time := vq_time |}
    end
  else
    Ok {| down_conv1 := conv1; down_conv2 := conv2; down_use_vq := use_vq;
          down_vq := None; down_vq_time := Bool false |}.

(** The attributes set by [UpBlock.__init__]. *)
Record UpBlock : Type := {
  up_tconv : Conv3D;
  up_conv1 : Conv3D;
  up_conv2 : Conv3D;
  up_use_vq : bool;
  up_vq : option VQBlock_args;
  up_vq_time : value
}.

(** [UpBlock.__init__(nc, weights, strides, initialiser, use_vq, vq_config,
    name)]. *)
Definition UpBlock_init (nc : Z) (weights strides : triple) (use_vq : bool)
    (vq_config : option dict) (name : string) : result UpBlock :=
  let tconv := {| filters := nc; kernel_size := weights; strides := strides |} in
  let conv1 := {| filters := nc; kernel_size := weights; strides := (1, 1, 1)%Z |} in
  let conv2 := {| filters := nc; kernel_size := weights; strides := (1, 1, 1)%Z |} in
  if use_vq then
    match vq_config with
    | None => Raise TypeError
    | Some vq_config =>
        embeddings ← getitem vq_config "vq_embeddings";
        vq_beta ← getitem vq_config "vq_beta";
        let vq := {| vq_num_embeddings := embeddings; vq_embedding_dim := nc;
                     vq_beta := vq_beta; vq_name := name +:+ "_vq" |} in
        vq_time ← getitem vq_config "vq_time";
        Ok {| up_tconv := tconv; up_conv1 := conv1; up_conv2 := conv2;
              up_use_vq := use_vq; up_vq := Some vq; up_vq_time := vq_time |}
    end
  else
    Ok {| up_tconv := tconv; up_conv1 := conv1; up_conv2 := conv2;
          up_use_vq := use_vq; up_vq := None; up_vq_time := Bool false |}.

(** The attributes set by [BottomBlock.__init__]. *)
Record BottomBlock : Type := {
  bottom_conv1 : Conv3D;
  bottom_conv2 : Conv3D;
  bottom_use_vq : bool;
  bottom_vq : option VQBlock_args;
  bottom_vq_time : value
}.

(** [BottomBlock.__init__(nc, weights, strides, initialiser, use_vq,
    vq_config, name)]. *)
Definition BottomBlock_init (nc : Z) (weights strides : triple) (use_vq : bool)
    (vq_config : option dict) (name : string) : result BottomBlock :=
  let conv1 := {| filters := nc; kernel_size := weights; strides := strides |} in
  let conv2 := {| filters := nc; kernel_size := weights; strides := strides |} in
  if use_vq then
    match vq_config with
    | None => Raise TypeError
    | Some vq_config =>
        embeddings ← getitem vq_config "embeddings";
        vq_beta ← getitem vq_config "vq_beta";
        let vq := {| vq_num_embeddings := embeddings; vq_embedding_dim := nc;
                     vq_beta := vq_beta; vq_name := name +:+ "_vq" |} in
        vq_time ← getitem vq_config "vq_time";
        Ok {| bottom_conv1 := conv1; bottom_conv2 := conv2;
              bottom_use_vq := use_vq; bottom_vq := Some vq;
              bottom_vq_time := vq_time |}
    end
  else
    Ok {| bottom_conv1 := conv1; bottom_conv2 := conv2; bottom_use_vq := use_vq;
          bottom_vq := None; bottom_vq_time := Bool false |}.

(** The attributes set by [UpBlockNoSkip.__init__]. *)
Record UpBlockNoSkip : Type := {
  noskip_tconv : Conv3D;
  noskip_conv : Conv3D;
  noskip_use_vq : bool;
  noskip_vq : option VQBlock_args;
  noskip_vq_time : value
}.

(** [UpBlockNoSkip.__init__(nc, weights, strides, initialiser, use_vq,
    vq_config, name)]. *)
Definition UpBlockNoSkip_init (nc : Z) (weights strides : triple)
    (use_vq : bool) (vq_config : option dict) (name : string)
  : result UpBlockNoSkip :=
  let tconv := {| filters := nc; kernel_size := weights; strides := strides |} in
  let conv := {| filters := nc; kernel_size := weights; strides := (1, 1, 1)%Z |} in
  if use_vq then
    match vq_config with
    | None => Raise TypeError
    | Some vq_config =>
        embeddings ← getitem vq_config "vq_embeddings";
        vq_beta ← getitem vq_config "vq_beta";
        let vq := {| vq_num_embeddings := embeddings; vq_embedding_dim := nc;
                     vq_beta := vq_beta; vq_name := name +:+ "_vq" |} in
        vq_time ← getitem vq_config "vq_time";
        Ok {| noskip_tconv := tconv; noskip_conv := conv;
              noskip_use_vq := use_vq; noskip_vq := Some vq;
              noskip_vq_time := vq_time |}
    end
  else
    Ok {| noskip_tconv := tconv; noskip_conv := conv; noskip_use_vq := use_vq;
          noskip_vq := None; noskip_vq_time := Bool false |}.

(** [v is False] and [v is True]. *)
Definition is_False (v : value) : bool :=
  match v with Bool false => true | _ => false end.

Definition is_True (v : value) : bool :=
  match v with Bool true => true | _ => false end.

(** What the [call] methods read of a block: the flags, and the quantiser
    with its weight when there is one. *)
Record Quantiser : Type := {
  use_vq : bool;
  vq : option VQBlock;
  vq_time : value
}.

Section BlockCalls.

(** What the convolution and normalisation layers of a block compute for
    the weights they hold, the channel concatenation, and the tiling of the
    time value followed by its concatenation as one more channel, each on
    inputs of the shapes it accepts.
    ([InstanceNorm.call] takes a standard deviation, a square root.) *)
Variables conv1 conv2 tconv conv : Tensor -> Tensor.
Variables inst_norm_1 inst_norm_2 inst_norm_t : Tensor -> Tensor.
Variable concat : Tensor -> Tensor -> Tensor.
Variable time_concat : Tensor -> Tensor -> Tensor.

(** The first statement of each [call]. *)
Definition with_time (self : Quantiser) (x : Tensor) (t : option Tensor)
  : Tensor :=
  match t with
  | Some time =>
      if is_False (vq_time self) then time_concat x time else x
  | None => x
  end.

(** The quantiser step of each [call]: the tensor passed on and the losses
    added. *)
Definition quantise (self : Quantiser) (x : Tensor) (t : option Tensor)
  : option (Tensor * list scalar) :=
  if use_vq self && is_False (vq_time self) then
    layer ← vq self;
    '(q, loss) ← call layer x None;
    Some (q, [loss])
  else if use_vq self && is_True (vq_time self) then
    layer ← vq self;
    '(q, loss) ← call layer x t;
    Some (q, [loss])
  else Some (x, []).

(** [DownBlock.call(x, t=None)]: the output, the skip output and the
    losses added. *)
Definition DownBlock_call (self : Quantiser) (x : Tensor) (t : option Tensor)
  : option (Tensor * Tensor * list scalar) :=
  let x := with_time self x t in
  let x := conv1 x in
  let x := inst_norm_1 x in
  let x := t_relu x in
  let skip := x in
  let x := conv2 x in
  let x := inst_norm_2 x in
  '(x, losses) ← quantise self x t;
  Some (t_relu x, skip, losses).

(** [BottomBlock.call(x, t=None)]. *)
Definition BottomBlock_call (self : Quantiser) (x : Tensor) (t : option Tensor)
  : option (Tensor * list scalar) :=
  let x := with_time self x t in
  let x := conv1 x in
  let x := inst_norm_1 x in
  let x := t_relu x in
  let x := conv2 x in
  let x := inst_norm_2 x in
  '(x, losses) ← quantise self x t;
  Some (t_relu x, losses).

(** [UpBlock.call(x, skip, t=None)]. *)
Definition UpBlock_call (self : Quantiser) (x skip : Tensor) (t : option Tensor)
  : option (Tensor * list scalar) :=
  let x := with_time self x t in
  let x := tconv x in
  let x := inst_norm_t x in
  let x := t_relu x in
  let x := concat x skip in
  let x := conv1 x in
  let x := inst_norm_1 x in
  let x := t_relu x in
  let x := conv2 x in
  let x := inst_norm_2 x in
  '(x, losses) ← quantise self x t;
  Some (t_relu x, losses).

(** [UpBlockNoSkip.call(x, t=None)]. *)
Definition UpBlockNoSkip_call (self : Quantiser) (x : Tensor) (t : option Tensor)
  : option (Tensor * list scalar) :=
  let x := with_time self x t in
  let x := tconv x in
  let x := inst_norm_1 x in
  let x := t_relu x in
  let x := conv x in
  let x := inst_norm_2 x in
  '(x, losses) ← quantise self x t;
  Some (t_relu x, losses).

End BlockCalls.

End layers_py.

(* ===================================================================== *)
(** ** unet.py *)
(* ===================================================================== *)

Module unet_py.
Import py.

Definition MAX_CHANNELS : Z := 512.

(** The configuration dictionary, one field per key read by [UNet]. *)
Record Config : Type := {
  source_dims : triple;
  target_dims : triple;
  nc : Z;
  layers : Z;
  vq_layers : option (gmap string Z);
  vq_beta : Qc;
  upsample_layer : bool;
  residual : bool
}.

(** The arguments [UNet] passes to the block constructors.  The classes
    come from [layers/conv_layers.py]; the builder is parametrised by them.
    [vq_config] is the content of the shared dictionary at the time of
    the call.  (The [initialiser] argument only seeds the weights.) *)
Record DownBlock_args : Type := {
  down_nc : Z;
  down_weights : triple;
  down_strides : triple;
  down_use_vq : bool;
  down_vq_config : option dict;
  down_name : string
}.

Record UpBlock_args : Type := {
  up_nc : Z;
  up_weights : triple;
  up_strides : triple;
  up_upsamp_factor : Z;
  up_use_vq : bool;
  up_vq_config : option dict;
  up_name : string
}.

Record VQBlock_args : Type := {
  vq_num_embeddings : value;
  vq_embedding_dim : Z;
  vq_beta_arg : value;
  vq_name : string
}.

(** The dictionary [cache] of [get_encoder], one field per key. *)
Record Cache : Type := {
  cache_channels : list Z;
  cache_strides : list triple;
  cache_kernels : list triple;
  cache_upsamp_factor : list Z
}.

(** The local variables of [get_encoder] that its first loop assigns;
    [None] is a name not bound yet. *)
Record Locals : Type := {
  channels : option Z;
  source_strides : option triple;
  source_kernel : option triple;
  loc_source_dims : triple;
  loc_target_dims : triple;
  loc_cache : Cache
}.

(** One down-sampling step of a spatial trajectory: strides, kernel and
    the new dimensions (written out twice in the source, for the source and
    for the target dimensions). *)
Definition halve (dims : triple) : triple * triple * triple :=
  let '(d0, d1, d2) := dims in
  if (d0 / 2 <? 2)%Z
  then ((2, 2, 2), (4, 4, 4), (d0 / 2, d1 / 2, d2 / 2))%Z
  else ((1, 2, 2), (2, 4, 4), (d0, d1 / 2, d2 / 2))%Z.

(** Body of the first loop of [get_encoder]. *)
Definition schedule_step (config : Config) (loc : Locals) (i : Z)
  : result Locals :=
  let channels := Z.min (nc config * 2 ^ i) MAX_CHANNELS in
  let '(source_strides, source_kernel, source_dims) := halve (loc_source_dims loc) in
  let '(target_strides, target_kernel, target_dims) := halve (loc_target_dims loc) in
  let c := loc_cache loc in
  upsamp_factor ← floordiv (target_dims.1.1) (source_dims.1.1);
  Ok {| channels := Some channels;
        source_strides := Some source_strides;
        source_kernel := Some source_kernel;
        loc_source_dims := source_dims;
        loc_target_dims := target_dims;
        loc_cache := {| cache_channels := cache_channels c ++ [channels];
                    cache_strides := cache_strides c ++ [target_strides];
                    cache_kernels := cache_kernels c ++ [target_kernel];
                    cache_upsamp_factor := cache_upsamp_factor c ++ [upsamp_factor] |} |}.

(** [self._vq_config["embeddings"] = self._config["vq_layers"][name]]. *)
Definition set_embeddings (config : Config) (vq_config : option dict)
    (name : string) : result (option dict) :=
  match vq_layers config with
  | None => Raise TypeError
  | Some m =>
      n ← getitem m name;
      match vq_config with
      | None => Raise TypeError
      | Some d => Ok (Some (<["embeddings" := Int n]> d))
      end
  end.

(** [int(np.log2(np.min([h, w])))].  [np.log2] is the float64 logarithm of
    a 64-bit integer: for a positive size below 2^32 it lies between two
    integers by far more than its rounding error, so that [int] gives the
    integer logarithm, [Z.log2]; 0 gives minus infinity and a negative size
    NaN, which [int] refuses.  Sizes from 2^32 on are beyond what this
    definition follows (the float64 result can round up to the next
    integer, and integers beyond 64 bits are refused by [np.log2]); the
    statements about the depth bound are made for sizes below 2^32. *)
Definition max_num_layers (dims : triple) : result Z :=
  let m := Z.min (dims.1.2) (dims.2) in
  if (m =? 0)%Z then Raise OverflowError
  else if (m <? 0)%Z then Raise ValueError
  else Ok (Z.log2 m).

Section UNet.

Context {DownBlockT UpBlockT VQBlockT : Type}.
Variable DownBlock : DownBlock_args -> result DownBlockT.
Variable UpBlock : UpBlock_args -> result UpBlockT.
Variable VQBlock : VQBlock_args -> result VQBlockT.

(** A constructed [UNet]. *)
Record UNet : Type := {
  _source_dims : triple;
  _target_dims : triple;
  _config : Config;
  _upsample_layer : bool;
  _residual : bool;
  _vq_layers : gset string;
  _vq_config : option dict;
  encoder : list DownBlockT;
  bottom_layer : DownBlockT;
  decoder : list UpBlockT;
  upsample_out : option UpBlockT;
  output_vq : option VQBlockT
}.

(** Body of the second loop of [get_encoder]; the state is the shared
    dictionary and [self.encoder]. *)
Definition encoder_step (config : Config) (vq_layers : gset string)
    (loc : Locals) (s : option dict * list DownBlockT) (i : Z)
  : result (option dict * list DownBlockT) :=
  let '(vq_config, encoder) := s in
  let use_vq := bool_decide ("down_" +:+ pretty i ∈ vq_layers) in
  vq_config ← (if use_vq
               then set_embeddings config vq_config ("down_" +:+ pretty i)
               else Ok vq_config);
  channels ← local "channels" (channels loc);
  source_kernel ← local "source_kernel" (source_kernel loc);
  source_strides ← local "source_strides" (source_strides loc);
  block ← DownBlock {| down_nc := channels;
                       down_weights := source_kernel;
                       down_strides := source_strides;
                       down_use_vq := use_vq;
                       down_vq_config := vq_config;
                       down_name := "down_" +:+ pretty i |};
  Ok (vq_config, encoder ++ [block]).

(** [UNet.get_encoder]: the shared dictionary afterwards, [self.encoder],
    [self.bottom_layer] and the returned cache. *)
Definition get_encoder (config : Config) (vq_layers : gset string)
    (vq_config : option dict)
  : result (option dict * list DownBlockT * DownBlockT * Cache) :=
  let cache := {| cache_channels := []; cache_strides := [];
                  cache_kernels := []; cache_upsamp_factor := [] |} in
  loc ← for_each (range 0 (layers config)) (schedule_step config)
        {| channels := None; source_strides := None; source_kernel := None;
           loc_source_dims := source_dims config;
           loc_target_dims := target_dims config;
           loc_cache := cache |};
  '(vq_config, encoder) ←
     for_each (range 0 (layers config)) (encoder_step config vq_layers loc)
              (vq_config, []);
  let use_vq := bool_decide ("bottom" ∈ vq_layers) in
  vq_config ← (if use_vq
               then set_embeddings config vq_config "bottom"
               else Ok vq_config);
  channels ← local "channels" (channels loc);
  source_kernel ← local "source_kernel" (source_kernel loc);
  bottom_layer ← DownBlock {| down_nc := channels;
                              down_weights := source_kernel;
                              down_strides := (1, 1, 1)%Z;
                              down_use_vq := use_vq;
                              down_vq_config := vq_config;
                              down_name := "bottom" |};
  Ok (vq_config, encoder, bottom_layer, loc_cache loc).

(** Body of the loop of [get_decoder]; the state is the shared dictionary,
    [self.decoder] and the local [channels]. *)
Definition decoder_step (config : Config) (vq_layers : gset string)
    (cache : Cache) (s : option dict * list UpBlockT * option Z) (i : Z)
  : result (option dict * list UpBlockT * option Z) :=
  let '(vq_config, decoder, _) := s in
  channels ← index (cache_channels cache) i;
  strides ← index (cache_strides cache) i;
  kernel ← index (cache_kernels cache) i;
  upsamp_factor ← index (cache_upsamp_factor cache) i;
  let use_vq := bool_decide ("up_" +:+ pretty i ∈ vq_layers) in
  vq_config ← (if use_vq
               then set_embeddings config vq_config ("up_" +:+ pretty i)
               else Ok vq_config);
  block ← UpBlock {| up_nc := channels;
                     up_weights := kernel;
                     up_strides := strides;
                     up_upsamp_factor := upsamp_factor;
                     up_use_vq := use_vq;
                     up_vq_config := vq_config;
                     up_name := "up_" +:+ pretty i |};
  Ok (vq_config, decoder ++ [block], Some channels).

(** [UNet.get_decoder]: the shared dictionary afterwards, [self.decoder],
    [self.upsample_out] when there is one, and [self.output_vq]. *)
Definition get_decoder (config : Config) (vq_layers : gset string)
    (vq_config : option dict) (cache : Cache)
  : result (option dict * list UpBlockT * option UpBlockT * option VQBlockT) :=
  '(vq_config, decoder, channels) ←
     for_each (range_down (layers config - 1) (-1))
              (decoder_step config vq_layers cache) (vq_config, [], None);
  '(vq_config, upsample_out) ←
     (if upsample_layer config then
        let use_vq := bool_decide ("upsamp" ∈ vq_layers) in
        vq_config ← (if use_vq
                     then set_embeddings config vq_config "upsamp"
                     else Ok vq_config);
        channels ← local "channels" channels;
        block ← UpBlock {| up_nc := channels;
                           up_weights := (2, 4, 4)%Z;
                           up_strides := (1, 2, 2)%Z;
                           up_upsamp_factor := 1;
                           up_use_vq := use_vq;
                           up_vq_config := vq_config;
                           up_name := "upsamp" |};
        Ok (vq_config, Some block)
      else Ok (vq_config, None));
  output_vq ←
    (if bool_decide ("final" ∈ vq_layers) then
       match vq_config with
       | None => Raise TypeError
       | Some d =>
           embeddings ← getitem d "embeddings";
           beta ← getitem d "vq_beta";
           vq ← VQBlock {| vq_num_embeddings := embeddings;
                           vq_embedding_dim := 1;
                           vq_beta_arg := beta;
                           vq_name := "output_vq" |};
           Ok (Some vq)
       end
     else Ok None);
  Ok (vq_config, decoder, upsample_out, output_vq).

(** [UNet.__init__]. *)
Definition UNet_init (config : Config) : result UNet :=
  let vq_layers_keys : gset string :=
    match vq_layers config with
    | Some m => dom m
    | None => ∅
    end in
  let vq_config : option dict :=
    match vq_layers config with
    | Some _ => Some {[ "vq_beta" := Float (vq_beta config) ]}
    | None => None
    end in
  max_num_layers ← max_num_layers (source_dims config);
  if negb ((layers config <=? max_num_layers)%Z && (layers config >=? 0)%Z)
  then Raise AssertionError
  else
    '(vq_config, encoder, bottom_layer, cache) ←
       get_encoder config vq_layers_keys vq_config;
    '(vq_config, decoder, upsample_out, output_vq) ←
       get_decoder config vq_layers_keys vq_config cache;
    Ok {| _source_dims := source_dims config;
          _target_dims := target_dims config;
          _config := config;
          _upsample_layer := upsample_layer config;
          _residual := residual config;
          _vq_layers := vq_layers_keys;
          _vq_config := vq_config;
          encoder := encoder;
          bottom_layer := bottom_layer;
          decoder := decoder;
          upsample_out := upsample_out;
          output_vq := output_vq |}.

End UNet.

Arguments UNet : clear implicits.

(** Constructors that keep the arguments they were called with. *)
Definition recorded {A} (args : A) : result A := Ok args.

Definition UNet_init_recorded (config : Config)
  : result (UNet DownBlock_args UpBlock_args VQBlock_args) :=
  UNet_init recorded recorded recorded config.

Section Forward.

(** Tensors with their addition, and what calling each layer computes for
    the weights it holds. *)
Context {tensor DownBlockT UpBlockT VQBlockT : Type}.
Variable t_add : tensor -> tensor -> tensor.
Variable call_down : DownBlockT -> tensor -> tensor * tensor.
Variable call_up : UpBlockT -> tensor -> tensor -> tensor.
Variable call_vq : VQBlockT -> tensor -> tensor.
Variable upsample_in : tensor -> tensor.
Variable final_layer : tensor -> tensor.

Abbreviation UNetT := (UNet DownBlockT UpBlockT VQBlockT).

(** [upsampled_x] of [UNet.call]. *)
Definition upsampled (self : UNetT) (x : tensor) : tensor :=
  if _upsample_layer self then upsample_in x else x.

(** [UNet.call] up to and including [self.final_layer]. *)
Definition final_projection (self : UNetT) (x : tensor) : result tensor :=
  let upsampled_x := upsampled self x in
  let '(x, skip_layers) :=
    fold_left (fun '(x, skip_layers) layer =>
                 let '(x, skip) := call_down layer x in
                 (x, skip_layers ++ [skip]))
              (encoder self) (x, []) in
  let '(x, _) := call_down (bottom_layer self) x in
  let skip_layers := rev skip_layers in
  let x :=
    fold_left (fun x '(skip, tconv) => call_up tconv x skip)
              (zip skip_layers (decoder self)) x in
  x ← (if _upsample_layer self then
         match upsample_out self with
         | Some upsample_out => Ok (call_up upsample_out x upsampled_x)
         | None => Raise AttributeError
         end
       else Ok x);
  Ok (final_layer x).

(** [UNet.call]. *)
Definition call (self : UNetT) (x : tensor) : result (tensor * option tensor) :=
  let upsampled_x := upsampled self x in
  x ← final_projection self x;
  match output_vq self with
  | None =>
      if negb (_residual self) then Ok (x, None)
      else Ok (t_add x upsampled_x, None)
  | Some output_vq =>
      if negb (_residual self)
      then Ok (x, Some (t_add (call_vq output_vq x) upsampled_x))
      else Ok (t_add x upsampled_x, Some (t_add (call_vq output_vq x) upsampled_x))
  end.

End Forward.

End unet_py.

(* ===================================================================== *)
(** ** Specification-side notions *)
(* ===================================================================== *)

Module spec.
Import tf.

(** [mean((detach(x) - quantized)^2)]. *)
Definition dictionary_loss (x q : Tensor) : scalar :=
  reduce_mean
    (zip_with (fun xi qi => square (sub (stop_gradient xi) qi)) (data x) (data q)).

(** [mean((x - detach(quantized))^2)]. *)
Definition commitment_loss (x q : Tensor) : scalar :=
  reduce_mean
    (zip_with (fun xi qi => square (sub xi (stop_gradient qi))) (data x) (data q)).

(** The mean of the squared differences of the forward values. *)
Definition mean_sq_error (x q : Tensor) : Qc :=
  value (reduce_mean (zip_with (fun xi qi => square (sub xi qi)) (data x) (data q))).

(** A tensor holds as many entries as its shape says. *)
Definition wf_tensor (x : Tensor) : Prop :=
  length (data x) = numel (shape x).

(** The weight [VQdict] has the shape it was created with. *)
Definition wf_dictionary (D K : nat) (dictionary : matrix) : Prop :=
  length dictionary = D /\ Forall (fun row => length row = K) dictionary.

Import vq_layers_py.

(** The distances from one row to every dictionary column. *)
Definition distance_row (self : VQBlock) (a : list scalar) : list scalar :=
  map (fun k =>
         sub (add (reduce_sum (map square a))
                  (reduce_sum (map square (column k (dictionary self)))))
             (mul (const 2) (dot a (column k (dictionary self)))))
      (seq 0 (num_embeddings self)).

(** What [quantized] holds: the selected dictionary entries, scaled when the
    dictionary is scalar. *)
Definition selected (self : VQBlock) (code_idx : list nat) : list scalar :=
  if (embedding_dim self =? 1)%nat
  then map (fun idx => mul (nth idx (nth 0 (dictionary self) []) zero)
                           (const WEIGHT_SCALE)) code_idx
  else concat (map (fun idx => column idx (dictionary self)) code_idx).

(** The code indices of a tensor, row by row. *)
Definition code_indices (self : VQBlock) (x : Tensor) : list nat :=
  map (fun a => argmin (distance_row self a))
      (take_rows (embedding_dim self)
                 (length (data x) / embedding_dim self) (data x)).

(** The conditions under which the layer is applied: the dictionary has
    its declared shape, there is at least one embedding, and the input
    splits in rows of [embedding_dim] entries. *)
Definition applicable (self : VQBlock) (x : Tensor) : Prop :=
  wf_dictionary (embedding_dim self) (num_embeddings self) (dictionary self) /\
  (0 < num_embeddings self)%nat /\
  (0 < embedding_dim self)%nat /\
  wf_tensor x /\
  (length (data x) mod embedding_dim self = 0)%nat.

(** The one-dimensional codebook {-1, 1}. *)
Definition codebook_pm1 : VQBlock :=
  {| num_embeddings := 2; embedding_dim := 1; beta := Q2Qc 0.25;
     dictionary := [[const (-1); const 1]] |}.

(** A two-dimensional codebook with the entries (0,0), (1,0) and (1,1). *)
Definition codebook_2d : VQBlock :=
  {| num_embeddings := 3; embedding_dim := 2; beta := Q2Qc 0.25;
     dictionary := [[const 0; const 1; const 1]; [const 0; const 0; const 1]] |}.

Definition tensor_of (dims : list nat) (entries : list Qc) : Tensor :=
  {| shape := dims; data := map const entries |}.

(** The codebook {-1, 1} held by the layer of [layer/layers.py]. *)
Definition codebook_pm1_timed : layers_py.VQBlock :=
  {| layers_py.num_embeddings := 2; layers_py.embedding_dim := 1;
     layers_py.beta := Q2Qc 0.25;
     layers_py.dictionary := [[const (-1); const 1]] |}.

Import py unet_py.

(** One stage, a quantiser configured for the output only. *)
Definition config_final_only : Config :=
  {| source_dims := (4, 4, 4)%Z; target_dims := (4, 4, 4)%Z; nc := 4;
     layers := 1; vq_layers := Some {[ "final" := 4%Z ]};
     vq_beta := Q2Qc 0.25; upsample_layer := false; residual := false |}.

(** One stage, quantisers for the first encoder stage (8 embeddings) and
    for the output (4 embeddings). *)
Definition config_down_final : Config :=
  {| source_dims := (4, 4, 4)%Z; target_dims := (4, 4, 4)%Z; nc := 4;
     layers := 1;
     vq_layers := Some (<[ "final" := 4%Z ]> {[ "down_0" := 8%Z ]});
     vq_beta := Q2Qc 0.25; upsample_layer := false; residual := false |}.

(** Two stages, four base channels, no quantiser. *)
Definition config_two_layers : Config :=
  {| source_dims := (4, 8, 8)%Z; target_dims := (4, 8, 8)%Z; nc := 4;
     layers := 2; vq_layers := None;
     vq_beta := Q2Qc 0.25; upsample_layer := false; residual := false |}.

(** No stage at all. *)
Definition config_no_layers : Config :=
  {| source_dims := (4, 4, 4)%Z; target_dims := (4, 4, 4)%Z; nc := 4;
     layers := 0; vq_layers := None;
     vq_beta := Q2Qc 0.25; upsample_layer := false; residual := false |}.

(** A volume of two slices of 4 x 4, at the greatest depth allowed. *)
Definition config_two_slices : Config :=
  {| source_dims := (2, 4, 4)%Z; target_dims := (2, 4, 4)%Z; nc := 4;
     layers := 2; vq_layers := None;
     vq_beta := Q2Qc 0.25; upsample_layer := false; residual := false |}.

(** One stage with the extra up-sampling stage, an output quantiser and
    residual learning. *)
Definition config_upsample : Config :=
  {| source_dims := (4, 4, 4)%Z; target_dims := (4, 8, 8)%Z; nc := 4;
     layers := 1;
     vq_layers := Some (<[ "final" := 4%Z ]> {[ "upsamp" := 4%Z ]});
     vq_beta := Q2Qc 0.25; upsample_layer := true; residual := true |}.

(** [DownBlock] of [layer/layers.py] called with the arguments [UNet]
    passes. *)
Definition layers_DownBlock (args : DownBlock_args) : result layers_py.DownBlock :=
  layers_py.DownBlock_init (down_nc args) (down_weights args) (down_strides args)
    (down_use_vq args) (down_vq_config args) (down_name args).

(** A tensor given by forward values and tangents. *)
Definition tensor_with_tangents (dims : list nat) (entries : list (Qc * Qc))
  : Tensor :=
  {| shape := dims; data := map (fun e => Scalar e.1 e.2) entries |}.

(** Two feature vectors of two channels with tangents 1, 2, 3, 4. *)
Definition tensor_2x2 : Tensor :=
  tensor_with_tangents [1; 2; 2]%nat
    [(Q2Qc 1, Q2Qc 1); (Q2Qc 0.4, Q2Qc 2); (Q2Qc 0.5, Q2Qc 3); (Q2Qc 0, Q2Qc 4)].

(** Three entries, which do not split in feature vectors of two. *)
Definition tensor_3 : Tensor := tensor_of [3]%nat [Q2Qc 0.6; Q2Qc (-0.9); Q2Qc 0].

(** Two feature vectors that are the entries (1,0) and (1,1) of
    [codebook_2d]. *)
Definition tensor_entries : Tensor :=
  tensor_of [1; 2; 2]%nat [Q2Qc 1; Q2Qc 0; Q2Qc 1; Q2Qc 1].

Section UShape.

Context {tensor DownBlockT UpBlockT : Type}.
Variable call_down : DownBlockT -> tensor -> tensor * tensor.
Variable call_up : UpBlockT -> tensor -> tensor -> tensor.

(** The U shape: each stage pairs an encoder block with the decoder block
    that takes its skip output; the inner stages and, innermost, the bottom
    block run in between. *)
Fixpoint u_shape (bottom : DownBlockT) (stages : list (DownBlockT * UpBlockT))
    (x : tensor) : tensor :=
  match stages with
  | [] => (call_down bottom x).1
  | (down, up) :: inner =>
      let '(x1, skip) := call_down down x in
      call_up up (u_shape bottom inner x1) skip
  end.

End UShape.

(** A network of two stages over integers, with layers that keep their
    inputs apart. *)
Definition toy_unet : UNet Z Z Z :=
  {| _source_dims := (4, 8, 8)%Z; _target_dims := (4, 8, 8)%Z;
     _config := config_two_layers;
     _upsample_layer := false; _residual := false;
     _vq_layers := ∅; _vq_config := None;
     encoder := [2; 3]%Z; bottom_layer := 5%Z; decoder := [7; 11]%Z;
     upsample_out := None; output_vq := None |}.

(** The channel count of stage [i]. *)
Definition stage_channels (config : Config) (i : Z) : Z :=
  Z.min (nc config * 2 ^ i) MAX_CHANNELS.

(** The dimensions after [n] down-sampling steps. *)
Fixpoint dims_after (n : nat) (dims : triple) : triple :=
  match n with
  | O => dims
  | S n' => (halve (dims_after n' dims)).2
  end.

(** Strides and kernel of down-sampling step [i] (counted from 0). *)
Definition stage_strides (dims : triple) (i : nat) : triple :=
  (halve (dims_after i dims)).1.1.

Definition stage_kernel (dims : triple) (i : nat) : triple :=
  (halve (dims_after i dims)).1.2.

(** The up-sampling factor cached for step [i]. *)
Definition stage_upsamp_factor (config : Config) (i : nat) : Z :=
  ((dims_after (S i) (target_dims config)).1.1
   / (dims_after (S i) (source_dims config)).1.1)%Z.

(** The stage names that have a quantiser configured. *)
Definition vq_keys (config : Config) : gset string :=
  match vq_layers config with
  | Some m => dom m
  | None => ∅
  end.

(** The embedding count configured for a stage name. *)
Definition configured (config : Config) (name : string) : option Z :=
  vq_layers config ≫= (fun m => m !! name).

(** A block built for the stage [name] is wired as configured: it has a
    quantiser exactly when the stage is a key of the mapping, and then the
    dictionary it is given holds the count configured for the stage and
    the commitment weight. *)
Definition wired (config : Config) (name : string) (use_vq : bool)
    (vq_config : option dict) : Prop :=
  use_vq = bool_decide (name ∈ vq_keys config) /\
  (use_vq = true ->
   exists n d, configured config name = Some n /\
               vq_config = Some d /\
               d !! "embeddings" = Some (Int n) /\
               d !! "vq_beta" = Some (Float (vq_beta config))).

(** The names of the stages built by the block constructors. *)
Definition block_stage (name : string) : Prop :=
  (exists i : Z, name = "down_" +:+ pretty i) \/ name = "bottom" \/
  (exists i : Z, name = "up_" +:+ pretty i) \/ name = "upsamp".

(** What the shared dictionary holds during construction: nothing when no
    mapping is configured; otherwise the commitment weight and, once a
    block stage with a quantiser has been built, the count configured for
    one such stage, and no other key. *)
Definition vq_config_state (config : Config) (vq_config : option dict) : Prop :=
  match vq_layers config with
  | None => vq_config = None
  | Some m =>
      exists d, vq_config = Some d /\
        d !! "vq_beta" = Some (Float (vq_beta config)) /\
        (forall k v, d !! k = Some v -> k = "vq_beta" \/ k = "embeddings") /\
        (forall v, d !! "embeddings" = Some v ->
           exists name n, block_stage name /\ m !! name = Some n /\ v = Int n)
  end.

(** The local variables of [get_encoder] after [n] rounds of its first
    loop. *)
Definition scheduled (config : Config) (n : nat) (loc : Locals) : Prop :=
  loc_source_dims loc = dims_after n (source_dims config) /\
  loc_target_dims loc = dims_after n (target_dims config) /\
  cache_channels (loc_cache loc)
  = map (fun i => stage_channels config (Z.of_nat i)) (seq 0 n) /\
  cache_strides (loc_cache loc)
  = map (stage_strides (target_dims config)) (seq 0 n) /\
  cache_kernels (loc_cache loc)
  = map (stage_kernel (target_dims config)) (seq 0 n) /\
  cache_upsamp_factor (loc_cache loc)
  = map (stage_upsamp_factor config) (seq 0 n) /\
  match n with
  | O => channels loc = None /\ source_strides loc = None /\
         source_kernel loc = None
  | S m => channels loc = Some (stage_channels config (Z.of_nat m)) /\
           source_strides loc = Some (stage_strides (source_dims config) m) /\
           source_kernel loc = Some (stage_kernel (source_dims config) m)
  end.

(** The encoder block at position [i] as [get_encoder] builds it: named
    for its stage, with the channels, kernel and strides of the last
    stage. *)
Definition encoder_block_of (config : Config) (i : nat) (b : DownBlock_args)
  : Prop :=
  down_name b = "down_" +:+ pretty (Z.of_nat i) /\
  down_nc b = stage_channels config (layers config - 1) /\
  down_weights b
  = stage_kernel (source_dims config) (Z.to_nat (layers config) - 1) /\
  down_strides b
  = stage_strides (source_dims config) (Z.to_nat (layers config) - 1).

(** The bottom block. *)
Definition bottom_block_of (config : Config) (b : DownBlock_args) : Prop :=
  down_name b = "bottom" /\
  down_nc b = stage_channels config (layers config - 1) /\
  down_weights b
  = stage_kernel (source_dims config) (Z.to_nat (layers config) - 1) /\
  down_strides b = (1, 1, 1)%Z.

(** The decoder block at position [j] as [get_decoder] builds it: the
    block of stage [layers - 1 - j], with the channels of that stage and
    the kernel, strides and up-sampling factor of that step of the target
    trajectory. *)
Definition decoder_block_of (config : Config) (j : nat) (b : UpBlock_args)
  : Prop :=
  let i := (Z.to_nat (layers config) - 1 - j)%nat in
  up_name b = "up_" +:+ pretty (Z.of_nat i) /\
  up_nc b = stage_channels config (Z.of_nat i) /\
  up_weights b = stage_kernel (target_dims config) i /\
  up_strides b = stage_strides (target_dims config) i /\
  up_upsamp_factor b = stage_upsamp_factor config i.

(** The block of the extra up-sampling stage. *)
Definition upsample_block_of (config : Config) (b : UpBlock_args) : Prop :=
  up_name b = "upsamp" /\
  up_nc b = stage_channels config 0 /\
  up_weights b = (2, 4, 4)%Z /\
  up_strides b = (1, 2, 2)%Z /\
  up_upsamp_factor b = 1%Z.

(** The in-plane sizes of the source are at least one pixel and below
    2^32, where [max_num_layers] is the bound that [UNet.__init__]
    computes. *)
Definition plane_in_range (config : Config) : Prop :=
  (0 < (source_dims config).1.2 < 2 ^ 32)%Z /\
  (0 < (source_dims config).2 < 2 ^ 32)%Z.

(** A block with the strides and kernel that leave the slice axis alone. *)
Definition in_plane (strides kernel : triple) : Prop :=
  strides = (1, 2, 2)%Z /\ kernel = (2, 4, 4)%Z.

(** A single slice of 64 x 64, at a valid depth. *)
Definition config_one_slice : Config :=
  {| source_dims := (1, 64, 64)%Z; target_dims := (1, 64, 64)%Z; nc := 32;
     layers := 3; vq_layers := None;
     vq_beta := Q2Qc 0.25; upsample_layer := false; residual := false |}.

(** The shared dictionary holds an embedding count. *)
Definition has_embeddings (vq_config : option dict) : Prop :=
  exists d, vq_config = Some d /\ is_Some (d !! "embeddings").

(** Quantisers at the bottom and at the output, with the extra up-sampling
    stage. *)
Definition config_bottom_final : Config :=
  {| source_dims := (12, 32, 32)%Z; target_dims := (12, 64, 64)%Z; nc := 16;
     layers := 4;
     vq_layers := Some (<[ "final" := 4%Z ]> {[ "bottom" := 128%Z ]});
     vq_beta := Q2Qc 0.25; upsample_layer := true; residual := true |}.

(** The state of a quantiser of [layer/layers.py] as a state of the
    quantiser of [layers/vq_layers.py]. *)
Definition to_plain (layer : layers_py.VQBlock) : VQBlock :=
  {| num_embeddings := layers_py.num_embeddings layer;
     embedding_dim := layers_py.embedding_dim layer;
     beta := layers_py.beta layer;
     dictionary := layers_py.dictionary layer |}.

(** [codebook_2d] held by the layer of [layer/layers.py]. *)
Definition codebook_2d_timed : layers_py.VQBlock :=
  {| layers_py.num_embeddings := 3; layers_py.embedding_dim := 2;
     layers_py.beta := Q2Qc 0.25;
     layers_py.dictionary :=
       [[const 0; const 1; const 1]; [const 0; const 0; const 1]] |}.

(** A block with a quantiser that is given the time value. *)
Definition timed_block : layers_py.Quantiser :=
  {| layers_py.use_vq := true; layers_py.vq := Some codebook_2d_timed;
     layers_py.vq_time := Bool true |}.

(** A block with a quantiser that is not given the time value. *)
Definition quantised_block : layers_py.Quantiser :=
  {| layers_py.use_vq := true; layers_py.vq := Some codebook_2d_timed;
     layers_py.vq_time := Bool false |}.

(** A block whose [vq_time] was configured as the number 1. *)
Definition block_vq_time_1 : layers_py.Quantiser :=
  {| layers_py.use_vq := true; layers_py.vq := Some codebook_2d_timed;
     layers_py.vq_time := Int 1 |}.

(** Layers for the examples: the first convolution of a block subtracts
    one half from every entry, the other layers pass their input on, the
    concatenations keep their first operand. *)
Definition shift_half (x : Tensor) : Tensor :=
  t_map (fun a => sub a (const (Q2Qc 0.5))) x.

(** No entry of the tensor is negative. *)
Definition nonnegative (x : Tensor) : Prop :=
  Forall (fun a => 0 <= tf.value a) (data x).

(** The block applies its quantiser: [use_vq] holds and [vq_time] is one
    of the objects [False] and [True]. *)
Definition quantiser_runs (self : layers_py.Quantiser) : bool :=
  layers_py.use_vq self &&
  (layers_py.is_False (layers_py.vq_time self)
   || layers_py.is_True (layers_py.vq_time self)).

(** A valid depth for a source of 64 x 64 with 8 slices. *)
Definition config_deep : Config :=
  {| source_dims := (8, 64, 64)%Z; target_dims := (8, 64, 64)%Z; nc := 32;
     layers := 6;
     vq_layers := Some (<[ "up_1" := 16%Z ]> (<[ "bottom" := 64%Z ]>
                          {[ "down_2" := 32%Z ]}));
     vq_beta := Q2Qc 0.25; upsample_layer := false; residual := true |}.

(** A depth above the bound for the same source. *)
Definition config_too_deep : Config :=
  {| source_dims := (8, 64, 64)%Z; target_dims := (8, 64, 64)%Z; nc := 32;
     layers := 7; vq_layers := None;
     vq_beta := Q2Qc 0.25; upsample_layer := false; residual := true |}.

End spec.

(* ===================================================================== *)
(** ** Vocabulary of the statements on float32 *)
(* ===================================================================== *)

Module spec32.
Import f32 tf32 vq_layers_f32.


(** The same number: equal, or two zeros. *)
Definition same (a b : float32) : Prop :=
  a = b \/ (is_zero a = true /\ is_zero b = true).

(** The entries of a tensor fill its shape. *)
Definition wf_tensor (x : Tensor) : Prop :=
  length (data x) = tf.numel (shape x).

(** The weight [VQdict] has the shape it was created with and holds
    numbers of moderate magnitude. *)
Definition wf_dictionary (D K : nat) (dictionary : matrix) : Prop :=
  length dictionary = D /\
  Forall (fun row => length row = K /\
                     Forall (fun v => moderate v = true) row) dictionary.


(** [call] applies to [x]: the dictionary has its declared shape, there
    is at least one embedding, the input splits in rows of
    [embedding_dim] entries, and the numbers are of moderate magnitude. *)
Definition applicable (self : VQBlock) (x : Tensor) : Prop :=
  wf_dictionary (embedding_dim self) (num_embeddings self) (dictionary self) /\
  (0 < num_embeddings self)%nat /\
  (0 < embedding_dim self)%nat /\
  wf_tensor x /\
  (length (data x) mod embedding_dim self = 0)%nat /\
  Forall (fun v => moderate v = true) (data x).

(** The feature vectors of a tensor. *)
Definition feature_vectors (self : VQBlock) (x : Tensor) : matrix :=
  tf.take_rows (embedding_dim self)
               (length (data x) / embedding_dim self) (data x).



(** The distances computed for one row: entry [k] is
    [(|a|^2 + |b_k|^2) - 2 * (a . b_k)] in float32 arithmetic, [b_k] being
    column [k] of the dictionary. *)
Definition distance_row (kernel : Kernels) (self : VQBlock)
    (a : list float32) : list float32 :=
  map (fun k =>
         sub (add (reduce_sum kernel (map (pow2 kernel) a))
                  (reduce_sum kernel
                     (map (pow2 kernel) (column k (dictionary self)))))
             (mul two (dot kernel a (column k (dictionary self)))))
      (seq 0 (num_embeddings self)).

(** The kernels select with a one-hot vector and sum nothing to 0.  So
    does every kernel, in whatever order it adds and whether or not it
    fuses the products with the sums: the products with 0 and with 1 are
    exact, and so is the sum of a number and zeros. *)
Definition exact_on_one_hot (kernel : Kernels) : Prop :=
  reduce_sum kernel [] = zero /\
  forall (row : list float32) (idx : nat),
    Forall (fun v => moderate v = true) row ->
    (idx < length row)%nat ->
    same (dot kernel (one_hot idx (length row)) row) (nth idx row zero) /\
    same (reduce_sum kernel (zip_with mul (one_hot idx (length row)) row))
         (nth idx row zero).








(** The one-dimensional codebook {-1, 1}. *)
Definition codebook_pm1 : VQBlock :=
  {| num_embeddings := 2; embedding_dim := 1; beta := of_ratio 1 4;
     dictionary := [[of_Z (-1); of_Z 1]] |}.

(** The entries (0, 0), (1, 0), (1, 1) of a two-dimensional codebook. *)
Definition codebook_2d : VQBlock :=
  {| num_embeddings := 3; embedding_dim := 2; beta := of_ratio 1 4;
     dictionary := [[zero; one; one]; [zero; zero; one]] |}.

(** Two feature vectors (1, 0.4) and (0.5, 0). *)
Definition tensor_2x2 : Tensor :=
  {| shape := [1; 2; 2]%nat;
     data := [one; of_ratio 4 10; of_ratio 1 2; zero] |}.

(** Three scalars 0.6, -0.9 and 0. *)
Definition tensor_3 : Tensor :=
  {| shape := [3]%nat; data := [of_ratio 6 10; of_ratio (-9) 10; zero] |}.

(** A batch of no feature vector. *)
Definition tensor_empty : Tensor := {| shape := [0; 2]%nat; data := [] |}.

End spec32.

(* ===================================================================== *)
(** ** Properties of the tensor primitives *)
(* ===================================================================== *)

Import tf spec.

Lemma scalar_eq (a b : scalar) :
  value a = value b -> tangent a = tangent b -> a = b.
Proof. destruct a, b; simpl; congruence. Qed.

Lemma mul_one_l (a : scalar) : mul one a = a.
Proof. apply scalar_eq; simpl; ring. Qed.

Lemma mul_zero_l (a : scalar) : mul zero a = zero.
Proof. apply scalar_eq; simpl; ring. Qed.

Lemma add_zero_l (a : scalar) : add zero a = a.
Proof. apply scalar_eq; simpl; ring. Qed.

Lemma add_zero_r (a : scalar) : add a zero = a.
Proof. apply scalar_eq; simpl; ring. Qed.

Lemma value_stop_gradient (a : scalar) : value (stop_gradient a) = value a.
Proof. reflexivity. Qed.

Lemma tangent_stop_gradient (a : scalar) : tangent (stop_gradient a) = 0.
Proof. reflexivity. Qed.

(** Selecting with a one-hot vector. *)
Lemma dot_one_hot_from (row : list scalar) (s idx : nat) :
  dot (map (fun k => if (k =? idx)%nat then one else zero) (seq s (length row))) row
  = if (s <=? idx)%nat && (idx <? s + length row)%nat
    then nth (idx - s) row zero else zero.
Proof.
  revert s; induction row as [|r row IH]; intros s; simpl.
  - destruct (s <=? idx)%nat eqn:E1; simpl; [|reflexivity].
    destruct (idx <? s + 0)%nat eqn:E2; [|reflexivity].
    apply Nat.leb_le in E1. apply Nat.ltb_lt in E2. lia.
  - unfold dot in *. simpl. rewrite IH. clear IH.
    destruct (Nat.eqb_spec s idx) as [->|Hne].
    + rewrite mul_one_l, Nat.sub_diag.
      replace (S idx <=? idx)%nat with false by (symmetry; apply Nat.leb_gt; lia).
      rewrite Nat.leb_refl. simpl.
      replace (idx <? idx + S (length row))%nat with true
        by (symmetry; apply Nat.ltb_lt; lia).
      apply add_zero_r.
    + rewrite mul_zero_l, add_zero_l.
      destruct (Nat.leb_spec (S s) idx) as [Hle|Hgt],
               (Nat.leb_spec s idx) as [Hle'|Hgt']; try lia; simpl; [|reflexivity].
      destruct (Nat.ltb_spec idx (S (s + length row))) as [Hlt|Hge],
               (Nat.ltb_spec idx (s + S (length row))) as [Hlt'|Hge'];
        try lia; [|reflexivity].
      replace (idx - s)%nat with (S (idx - S s)) by lia. reflexivity.
Qed.

Lemma dot_one_hot (row : list scalar) (idx : nat) :
  (idx < length row)%nat ->
  dot (one_hot idx (length row)) row = nth idx row zero.
Proof.
  intros H. unfold one_hot. rewrite dot_one_hot_from. simpl.
  replace (idx <? length row)%nat with true by (symmetry; apply Nat.ltb_lt; lia).
  rewrite Nat.sub_0_r. reflexivity.
Qed.

(** [argmin_from] extends a first minimum of the entries already seen to a
    first minimum of the whole row. *)
Lemma argmin_from_spec (l pre : list scalar) (bi : nat) :
  (bi < length pre)%nat ->
  (forall j, (j < length pre)%nat ->
             value (nth bi pre zero) <= value (nth j pre zero)) ->
  (forall j, (j < bi)%nat -> value (nth bi pre zero) < value (nth j pre zero)) ->
  let r := argmin_from bi (value (nth bi pre zero)) (length pre) l in
  (r < length (pre ++ l))%nat /\
  (forall j, (j < length (pre ++ l))%nat ->
             value (nth r (pre ++ l) zero) <= value (nth j (pre ++ l) zero)) /\
  (forall j, (j < r)%nat ->
             value (nth r (pre ++ l) zero) < value (nth j (pre ++ l) zero)).
Proof.
  revert pre bi; induction l as [|d l IH]; intros pre bi Hbi Hmin Hfirst; simpl.
  - rewrite app_nil_r. auto.
  - assert (Hlen : length (pre ++ [d]) = S (length pre))
      by (rewrite length_app; simpl; lia).
    assert (Hd : nth (length pre) (pre ++ [d]) zero = d)
      by (rewrite app_nth2, Nat.sub_diag by lia; reflexivity).
    assert (Hold : forall j, (j < length pre)%nat ->
                             nth j (pre ++ [d]) zero = nth j pre zero)
      by (intros j Hj; apply app_nth1; exact Hj).
    replace (pre ++ d :: l) with ((pre ++ [d]) ++ l)
      by (rewrite <- app_assoc; reflexivity).
    destruct (Qclt_le_dec (value d) (value (nth bi pre zero))) as [Hlt|Hge].
    + specialize (IH (pre ++ [d]) (length pre)).
      rewrite Hlen, Hd in IH. apply IH.
      * lia.
      * intros j Hj. destruct (Nat.eq_dec j (length pre)) as [->|Hne].
        -- rewrite Hd. apply Qcle_refl.
        -- rewrite Hold by lia. apply Qclt_le_weak.
           eapply Qclt_le_trans; [exact Hlt|]. apply Hmin. lia.
      * intros j Hj. rewrite Hold by lia.
        eapply Qclt_le_trans; [exact Hlt|]. apply Hmin. lia.
    + specialize (IH (pre ++ [d]) bi).
      rewrite Hlen, (Hold bi Hbi) in IH. apply IH.
      * lia.
      * intros j Hj. destruct (Nat.eq_dec j (length pre)) as [->|Hne].
        -- rewrite Hd. exact Hge.
        -- rewrite Hold by lia. apply Hmin. lia.
      * intros j Hj. rewrite Hold by lia. apply Hfirst. exact Hj.
Qed.

(** [argmin] returns the lowest index among those holding the least value. *)
Lemma argmin_spec (l : list scalar) :
  l <> [] ->
  (argmin l < length l)%nat /\
  (forall j, (j < length l)%nat ->
             value (nth (argmin l) l zero) <= value (nth j l zero)) /\
  (forall j, (j < argmin l)%nat ->
             value (nth (argmin l) l zero) < value (nth j l zero)).
Proof.
  destruct l as [|d l]; [congruence|]. intros _.
  apply (argmin_from_spec l [d] 0%nat); simpl.
  - lia.
  - intros j Hj. replace j with 0%nat by lia. apply Qcle_refl.
  - intros j Hj. lia.
Qed.

(** Regrouping in rows. *)
Lemma take_rows_length {A} (D N : nat) (l : list A) :
  length (take_rows D N l) = N.
Proof. revert l; induction N; intros l; simpl; [reflexivity|]. rewrite IHN. reflexivity. Qed.

Lemma take_rows_concat {A} (D : nat) (rows : list (list A)) :
  Forall (fun r => length r = D) rows ->
  take_rows D (length rows) (concat rows) = rows.
Proof.
  induction 1 as [|r rows Hr _ IH]; simpl; [reflexivity|].
  rewrite firstn_app, skipn_app, Hr, Nat.sub_diag. simpl.
  rewrite firstn_all2, skipn_all2 by lia. simpl.
  rewrite app_nil_r. f_equal. exact IH.
Qed.

Lemma concat_length_rows {A} (D : nat) (rows : list (list A)) :
  Forall (fun r => length r = D) rows ->
  length (concat rows) = (length rows * D)%nat.
Proof.
  induction 1 as [|r rows Hr _ IH]; simpl; [reflexivity|].
  rewrite length_app, IH, Hr. reflexivity.
Qed.

Lemma zip_with_map_map {A B C E} (f : B -> C -> E) (g : A -> B) (h : A -> C)
    (l : list A) :
  zip_with f (map g l) (map h l) = map (fun x => f (g x) (h x)) l.
Proof. induction l as [|x l IH]; simpl; [reflexivity|]. rewrite IH. reflexivity. Qed.

Lemma column_length (k : nat) (B : matrix) : length (column k B) = length B.
Proof. apply length_map. Qed.

(* ===================================================================== *)
(** ** Properties of [vq_layers.py] *)
(* ===================================================================== *)

Import vq_layers_py.

Lemma distances_rows (self : VQBlock) (flattened : matrix) :
  distances self flattened = map (distance_row self) flattened.
Proof.
  unfold distances, matmul, distance_row.
  rewrite zip_with_map_map. apply map_ext. intros a.
  rewrite zip_with_map_map. reflexivity.
Qed.

Lemma distance_row_length (self : VQBlock) (a : list scalar) :
  length (distance_row self a) = num_embeddings self.
Proof. unfold distance_row. rewrite length_map, length_seq. reflexivity. Qed.

Lemma argmin_distance_row_lt (self : VQBlock) (a : list scalar) :
  (0 < num_embeddings self)%nat ->
  (argmin (distance_row self a) < num_embeddings self)%nat.
Proof.
  intros HK. destruct (argmin_spec (distance_row self a)) as (Hlt & _).
  { intros E. apply (f_equal (@length _)) in E.
    rewrite distance_row_length in E. simpl in E. lia. }
  rewrite distance_row_length in Hlt. exact Hlt.
Qed.

Lemma applicable_rows (self : VQBlock) (x : Tensor) :
  applicable self x ->
  reshape_rows x (embedding_dim self)
  = Some (take_rows (embedding_dim self)
                    (length (data x) / embedding_dim self) (data x)) /\
  length (data x)
  = (length (data x) / embedding_dim self * embedding_dim self)%nat.
Proof.
  intros (_ & _ & HD & _ & Hmod). unfold reshape_rows.
  replace (embedding_dim self =? 0)%nat with false
    by (symmetry; apply Nat.eqb_neq; lia).
  rewrite Hmod. simpl. split; [reflexivity|].
  rewrite Nat.mul_comm. apply Nat.Div0.div_exact. exact Hmod.
Qed.

Lemma applicable_code_indices (self : VQBlock) (x : Tensor) :
  applicable self x ->
  (reshape_rows x (embedding_dim self) ≫= get_code_indices self)
  = Some (code_indices self x).
Proof.
  intros Happ. destruct (applicable_rows self x Happ) as [-> _].
  destruct Happ as (_ & HK & _). simpl. unfold get_code_indices.
  replace (num_embeddings self =? 0)%nat with false
    by (symmetry; apply Nat.eqb_neq; lia).
  rewrite distances_rows, map_map. reflexivity.
Qed.

Lemma code_indices_length (self : VQBlock) (x : Tensor) :
  length (code_indices self x) = (length (data x) / embedding_dim self)%nat.
Proof. unfold code_indices. rewrite length_map, take_rows_length. reflexivity. Qed.

Lemma code_indices_lt (self : VQBlock) (x : Tensor) :
  (0 < num_embeddings self)%nat ->
  Forall (fun idx => (idx < num_embeddings self)%nat) (code_indices self x).
Proof.
  intros HK. unfold code_indices. apply Forall_map, Forall_forall.
  intros a _. apply argmin_distance_row_lt, HK.
Qed.

Lemma selected_length (self : VQBlock) (x : Tensor) :
  applicable self x ->
  length (selected self (code_indices self x)) = length (data x).
Proof.
  intros Happ. destruct (applicable_rows self x Happ) as [_ Hlen].
  destruct Happ as ((Hrows & _) & _). unfold selected.
  destruct (Nat.eqb_spec (embedding_dim self) 1) as [HD|HD].
  - rewrite length_map, code_indices_length, HD, Nat.div_1_r. reflexivity.
  - rewrite (concat_length_rows (embedding_dim self)).
    + rewrite length_map, code_indices_length. symmetry. exact Hlen.
    + apply Forall_map, Forall_forall. intros idx _.
      rewrite column_length. exact Hrows.
Qed.

(** The tensor [q] of [VQBlock.call] before the straight-through step. *)
Lemma quantized_selected (self : VQBlock) (x : Tensor) :
  applicable self x ->
  quantized self x
  = Some {| shape := shape x; data := selected self (code_indices self x) |}.
Proof.
  intros Happ.
  pose proof (selected_length self x Happ) as Hsel.
  pose proof (applicable_code_indices self x Happ) as Hidx.
  destruct (applicable_rows self x Happ) as [Hrows _].
  destruct Happ as ((Hdict & Hcols) & HK & HD & Hx & Hmod).
  pose proof (code_indices_lt self x HK) as Hlt.
  unfold quantized. rewrite Hrows in *. simpl in *. rewrite Hidx. simpl.
  assert (Hq :
    (if (embedding_dim self =? 1)%nat
     then broadcast_mul (map (fun i => one_hot i (num_embeddings self))
                             (code_indices self x)) (dictionary self)
          ≫= (fun prod => Some (map (fun v => mul v (const WEIGHT_SCALE))
                                    (map reduce_sum prod)))
     else Some (concat (matmul_transpose_b
                          (map (fun i => one_hot i (num_embeddings self))
                               (code_indices self x)) (dictionary self))))
    = Some (selected self (code_indices self x))).
  { unfold selected. destruct (Nat.eqb_spec (embedding_dim self) 1) as [E|E].
    - destruct (dictionary self) as [|b [|b' rest]] eqn:Edict;
        simpl in Hdict; try lia.
      inversion Hcols as [|? ? Hb _]; subst. simpl.
      rewrite !map_map. f_equal. apply map_ext_Forall.
      eapply Forall_impl; [exact Hlt|]. intros idx Hidx'. simpl in *.
      rewrite <- Hb in Hidx' |- *. f_equal. apply dot_one_hot. exact Hidx'.
    - f_equal. f_equal. unfold matmul_transpose_b. rewrite map_map.
      apply map_ext_Forall. eapply Forall_impl; [exact Hlt|].
      intros idx Hidx'. simpl in *. unfold column. apply map_ext_Forall.
      eapply Forall_impl; [exact Hcols|]. intros row Hrow. simpl in *.
      rewrite <- Hrow in Hidx' |- *. apply dot_one_hot. exact Hidx'. }
  rewrite Hq. simpl. unfold reshape. rewrite Hsel, Hx, Nat.eqb_refl. reflexivity.
Qed.

(** The straight-through estimator passes the tangent of the input. *)
Lemma straight_through_tangents (xs qs : list scalar) :
  length qs = length xs ->
  map tangent (zip_with add xs (map stop_gradient (zip_with sub qs xs)))
  = map tangent xs.
Proof.
  revert qs; induction xs as [|x xs IH]; intros [|q qs] Hlen;
    simpl in Hlen; try discriminate; [reflexivity|].
  injection Hlen as Hlen. simpl. rewrite (IH qs Hlen). f_equal. ring.
Qed.

Lemma straight_through_length (xs qs : list scalar) :
  length qs = length xs ->
  length (zip_with add xs (map stop_gradient (zip_with sub qs xs))) = length xs.
Proof.
  intros Hlen. rewrite length_zip_with, length_map, length_zip_with. lia.
Qed.

(** The returned tensor of [call], given the tensor [q]. *)
Lemma call_from_quantized (self : VQBlock) (x q : Tensor) :
  quantized self x = Some q ->
  call self x
  = Some (t_add x (t_stop_gradient (t_sub q x)),
          add (t_reduce_mean (t_square (t_sub (t_stop_gradient x) q)))
              (mul (const (beta self))
                   (t_reduce_mean (t_square (t_sub x (t_stop_gradient q)))))).
Proof. intros Hq. unfold call. rewrite Hq. reflexivity. Qed.

Lemma zip_with_map_l {A B C E} (f : B -> C -> E) (g : A -> B)
    (l : list A) (k : list C) :
  zip_with f (map g l) k = zip_with (fun a c => f (g a) c) l k.
Proof.
  revert k; induction l as [|a l IH]; intros [|c k]; simpl; try reflexivity.
  rewrite IH. reflexivity.
Qed.

Lemma zip_with_map_r {A B C E} (f : A -> C -> E) (g : B -> C)
    (l : list A) (k : list B) :
  zip_with f l (map g k) = zip_with (fun a b => f a (g b)) l k.
Proof.
  revert k; induction l as [|a l IH]; intros [|c k]; simpl; try reflexivity.
  rewrite IH. reflexivity.
Qed.

Lemma map_zip_with {A B C E} (f : C -> E) (g : A -> B -> C)
    (l : list A) (k : list B) :
  map f (zip_with g l k) = zip_with (fun a b => f (g a b)) l k.
Proof.
  revert k; induction l as [|a l IH]; intros [|c k]; simpl; try reflexivity.
  rewrite IH. reflexivity.
Qed.

Lemma stop_gradient_values (l l' : list scalar) :
  map value l = map value l' -> map stop_gradient l = map stop_gradient l'.
Proof.
  revert l'; induction l as [|a l IH]; intros [|b l'] H; simpl in H;
    try discriminate; [reflexivity|].
  injection H as Hab H. simpl. rewrite (IH l' H).
  unfold stop_gradient. rewrite Hab. reflexivity.
Qed.

Lemma reduce_sum_value (l l' : list scalar) :
  map value l = map value l' -> value (reduce_sum l) = value (reduce_sum l').
Proof.
  revert l'; induction l as [|a l IH]; intros [|b l'] H; simpl in H;
    try discriminate; [reflexivity|].
  injection H as Hab H. simpl. rewrite (IH l' H), Hab. reflexivity.
Qed.

Lemma reduce_mean_value (l l' : list scalar) :
  map value l = map value l' -> value (reduce_mean l) = value (reduce_mean l').
Proof.
  intros H. unfold reduce_mean. simpl. rewrite (reduce_sum_value l l' H).
  apply (f_equal (@length _)) in H. rewrite !length_map in H. rewrite H.
  reflexivity.
Qed.

(** C2.  The loss handed to [add_loss] is
    [dictionary_loss + beta * commitment_loss], with
    [dictionary_loss = mean((detach(x) - q)^2)] and
    [commitment_loss = mean((x - detach(q))^2)] for the quantised tensor
    [q].  [detach] keeps the forward value and has no tangent: both losses
    have the forward value of the mean squared difference of [x] and [q],
    the dictionary loss does not change with the tangent of [x], and the
    commitment loss does not change with the tangent of [q]. *)
Theorem call_records_loss (self : VQBlock) (x : Tensor) :
  applicable self x ->
  exists q out loss,
    quantized self x = Some q /\
    call self x = Some (out, loss) /\
    loss = add (dictionary_loss x q)
               (mul (const (beta self)) (commitment_loss x q)) /\
    value loss = mean_sq_error x q + beta self * mean_sq_error x q /\
    (forall s, value (stop_gradient s) = value s /\ tangent (stop_gradient s) = 0) /\
    (forall x', map value (data x') = map value (data x) ->
                dictionary_loss x' q = dictionary_loss x q) /\
    (forall q', map value (data q') = map value (data q) ->
                commitment_loss x q' = commitment_loss x q).
Proof.
  intros Happ. pose proof (quantized_selected self x Happ) as Hq.
  eexists _, _, _. split; [exact Hq|]. split; [apply call_from_quantized, Hq|].
  set (q := {| shape := shape x; data := selected self (code_indices self x) |}).
  assert (Hdict : t_reduce_mean (t_square (t_sub (t_stop_gradient x) q))
                  = dictionary_loss x q).
  { unfold t_reduce_mean, t_square, t_sub, t_stop_gradient, t_map, t_zip,
      dictionary_loss. simpl.
    rewrite zip_with_map_l, map_zip_with. reflexivity. }
  assert (Hcommit : t_reduce_mean (t_square (t_sub x (t_stop_gradient q)))
                    = commitment_loss x q).
  { unfold t_reduce_mean, t_square, t_sub, t_stop_gradient, t_map, t_zip,
      commitment_loss. simpl.
    rewrite zip_with_map_r, map_zip_with. reflexivity. }
  rewrite Hdict, Hcommit. split; [reflexivity|]. split; [|split; [|split]].
  - assert (Hd : value (dictionary_loss x q) = mean_sq_error x q).
    { apply reduce_mean_value. rewrite !map_zip_with. reflexivity. }
    assert (Hc : value (commitment_loss x q) = mean_sq_error x q).
    { apply reduce_mean_value. rewrite !map_zip_with. reflexivity. }
    simpl. change (value (dictionary_loss x q) + beta self * value (commitment_loss x q)
                   = mean_sq_error x q + beta self * mean_sq_error x q).
    rewrite Hd, Hc. reflexivity.
  - intros s. split; reflexivity.
  - intros x' Hx'. unfold dictionary_loss.
    rewrite <- !(zip_with_map_l (fun s qi => square (sub s qi)) stop_gradient).
    rewrite (stop_gradient_values _ _ Hx'). reflexivity.
  - intros q' Hq'. unfold commitment_loss.
    rewrite <- !(zip_with_map_r (fun xi s => square (sub xi s)) stop_gradient).
    rewrite (stop_gradient_values _ _ Hq'). reflexivity.
Qed.

Lemma call_records_loss_witness :
  exists q out loss,
    quantized codebook_pm1 (tensor_of [3]%nat [Q2Qc 0.6; Q2Qc (-0.9); 0]) = Some q /\
    call codebook_pm1 (tensor_of [3]%nat [Q2Qc 0.6; Q2Qc (-0.9); 0])
    = Some (out, loss) /\
    loss = add (dictionary_loss (tensor_of [3]%nat [Q2Qc 0.6; Q2Qc (-0.9); 0]) q)
               (mul (const (Q2Qc 0.25))
                    (commitment_loss (tensor_of [3]%nat [Q2Qc 0.6; Q2Qc (-0.9); 0]) q)) /\
    value loss
    = mean_sq_error (tensor_of [3]%nat [Q2Qc 0.6; Q2Qc (-0.9); 0]) q
      + Q2Qc 0.25 * mean_sq_error (tensor_of [3]%nat [Q2Qc 0.6; Q2Qc (-0.9); 0]) q /\
    (forall s, value (stop_gradient s) = value s /\ tangent (stop_gradient s) = 0) /\
    (forall x', map value (data x') = [Q2Qc 0.6; Q2Qc (-0.9); 0] ->
                dictionary_loss x' q
                = dictionary_loss (tensor_of [3]%nat [Q2Qc 0.6; Q2Qc (-0.9); 0]) q) /\
    (forall q', map value (data q') = map value (data q) ->
                commitment_loss (tensor_of [3]%nat [Q2Qc 0.6; Q2Qc (-0.9); 0]) q'
                = commitment_loss (tensor_of [3]%nat [Q2Qc 0.6; Q2Qc (-0.9); 0]) q).
Proof.
  apply (call_records_loss codebook_pm1
           (tensor_of [3]%nat [Q2Qc 0.6; Q2Qc (-0.9); 0])).
  repeat split; try (simpl; lia); repeat constructor.
Defined.

(* ===================================================================== *)
(** ** The two vector-quantisation layers *)
(* ===================================================================== *)

(** C10.  The layer of [layer/layers.py], whose [call] accepts a time value,
    and the layer of [layers/vq_layers.py] compute the same: with the same
    dictionary, [num_embeddings], [embedding_dim] and [beta], on every input
    [x] and for every time value [t] they select the same code indices,
    return the same tensor and record the same loss (or both fail); so the
    result of the time-accepting layer does not depend on [t]. *)
Theorem time_variant_agrees (timed : layers_py.VQBlock) (plain : VQBlock)
    (x : Tensor) (t : option Tensor) :
  layers_py.num_embeddings timed = num_embeddings plain ->
  layers_py.embedding_dim timed = embedding_dim plain ->
  layers_py.beta timed = beta plain ->
  layers_py.dictionary timed = dictionary plain ->
  layers_py.call timed x t = call plain x /\
  (forall flattened,
      layers_py.get_code_indices timed flattened
      = get_code_indices plain flattened) /\
  (forall t', layers_py.call timed x t' = layers_py.call timed x t).
Proof.
  destruct timed as [K D b dict], plain as [K' D' b' dict']. simpl.
  intros -> -> -> ->. split; [|split].
  - unfold layers_py.call, call, quantized. simpl.
    destruct (reshape_rows x D') as [flat|]; [|reflexivity]. simpl.
    change (layers_py.get_code_indices
              {| layers_py.num_embeddings := K'; layers_py.embedding_dim := D';
                 layers_py.beta := b'; layers_py.dictionary := dict' |} flat)
      with (get_code_indices
              {| num_embeddings := K'; embedding_dim := D'; beta := b';
                 dictionary := dict' |} flat).
    destruct (get_code_indices _ flat) as [code_idx|]; [|reflexivity]. simpl.
    change layers_py.WEIGHT_SCALE with WEIGHT_SCALE.
    destruct (if (D' =? 1)%nat then _ else _) as [quantized|]; [|reflexivity].
    simpl. destruct (reshape quantized (shape x)) as [q|]; reflexivity.
  - intros flattened. reflexivity.
  - intros t'. reflexivity.
Qed.

Lemma time_variant_agrees_witness :
  layers_py.call codebook_pm1_timed
    (tensor_of [3]%nat [Q2Qc 0.6; Q2Qc (-0.9); 0]) (Some (tensor_of [1]%nat [Q2Qc 0.5]))
  = call codebook_pm1 (tensor_of [3]%nat [Q2Qc 0.6; Q2Qc (-0.9); 0]) /\
  (forall flattened,
      layers_py.get_code_indices codebook_pm1_timed flattened
      = get_code_indices codebook_pm1 flattened) /\
  (forall t',
      layers_py.call codebook_pm1_timed
        (tensor_of [3]%nat [Q2Qc 0.6; Q2Qc (-0.9); 0]) t'
      = layers_py.call codebook_pm1_timed
          (tensor_of [3]%nat [Q2Qc 0.6; Q2Qc (-0.9); 0])
          (Some (tensor_of [1]%nat [Q2Qc 0.5]))).
Proof.
  apply (time_variant_agrees codebook_pm1_timed codebook_pm1
           (tensor_of [3]%nat [Q2Qc 0.6; Q2Qc (-0.9); 0])
           (Some (tensor_of [1]%nat [Q2Qc 0.5]))); reflexivity.
Defined.

(* ===================================================================== *)
(** ** Properties of [unet.py] *)
(* ===================================================================== *)

Import py unet_py.

(** A network built by [UNet.__init__] has its up-sampling block whenever
    the up-sampling stage is configured. *)
Lemma UNet_init_upsample_out {DownBlockT UpBlockT VQBlockT : Type}
    (DownBlock : DownBlock_args -> result DownBlockT)
    (UpBlock : UpBlock_args -> result UpBlockT)
    (VQBlock : VQBlock_args -> result VQBlockT)
    (config : Config) (self : UNet DownBlockT UpBlockT VQBlockT) :
  UNet_init DownBlock UpBlock VQBlock config = Ok self ->
  _upsample_layer self = true -> upsample_out self <> None.
Proof.
  unfold UNet_init, get_decoder, mbind, result_bind. intros H Hup.
  repeat case_match; simplify_eq; simpl in *; congruence.
Qed.

(** C1.  [UNet.call] combines its outputs in four ways.  With [y] the
    output of the final projection and [upsampled_x] the input (up-sampled
    when the extra up-sampling stage is configured):
      - no output VQ, no residual:  [(y, None)];
      - no output VQ, residual:     [(y + upsampled_x, None)];
      - output VQ, no residual:     [(y, VQ(y) + upsampled_x)];
      - output VQ and residual:     [(y + upsampled_x, VQ(y) + upsampled_x)];
    for every input and whatever the layers compute, on every network that
    has its up-sampling block when the up-sampling stage is configured (as
    the networks built by [UNet.__init__] have). *)
Theorem call_output_combination
    {tensor DownBlockT UpBlockT VQBlockT : Type}
    (t_add : tensor -> tensor -> tensor)
    (call_down : DownBlockT -> tensor -> tensor * tensor)
    (call_up : UpBlockT -> tensor -> tensor -> tensor)
    (call_vq : VQBlockT -> tensor -> tensor)
    (upsample_in final_layer : tensor -> tensor)
    (self : UNet DownBlockT UpBlockT VQBlockT) (x : tensor) :
  (_upsample_layer self = true -> upsample_out self <> None) ->
  let upsampled_x := if _upsample_layer self then upsample_in x else x in
  exists y,
    final_projection call_down call_up upsample_in final_layer self x = Ok y /\
    unet_py.call t_add call_down call_up call_vq upsample_in final_layer self x
    = Ok (match output_vq self, _residual self with
          | None, false => (y, None)
          | None, true => (t_add y upsampled_x, None)
          | Some vq, false => (y, Some (t_add (call_vq vq y) upsampled_x))
          | Some vq, true =>
              (t_add y upsampled_x, Some (t_add (call_vq vq y) upsampled_x))
          end).
Proof.
  intros Hbuilt upsampled_x.
  assert (Hy : exists y,
    final_projection call_down call_up upsample_in final_layer self x = Ok y).
  { unfold final_projection.
    destruct (fold_left _ (encoder self) (x, [])) as [x1 skip_layers].
    destruct (call_down (bottom_layer self) x1) as [x2 _skip].
    destruct (_upsample_layer self); [|eexists; reflexivity].
    destruct (upsample_out self); [eexists; reflexivity|].
    exfalso. apply Hbuilt; reflexivity. }
  destruct Hy as [y Hy]. exists y. split; [exact Hy|].
  unfold unet_py.call. rewrite Hy. simpl. fold upsampled_x.
  unfold upsampled. fold upsampled_x.
  destruct (output_vq self), (_residual self); reflexivity.
Qed.

Lemma call_output_combination_witness :
  exists self,
    UNet_init_recorded config_upsample = Ok self /\
    exists y,
      final_projection (fun _ x => (x + 1, x)%Z) (fun _ x skip => (x * skip)%Z)
                       (fun x => (2 * x)%Z) (fun x => (x - 1)%Z) self 3%Z = Ok y /\
      unet_py.call Z.add (fun _ x => (x + 1, x)%Z) (fun _ x skip => (x * skip)%Z)
                   (fun _ x => (x / 2)%Z) (fun x => (2 * x)%Z) (fun x => (x - 1)%Z)
                   self 3%Z
      = Ok (match output_vq self, _residual self with
            | None, false => (y, None)
            | None, true => ((y + 6)%Z, None)
            | Some vq, false => (y, Some (y / 2 + 6)%Z)
            | Some vq, true => ((y + 6)%Z, Some (y / 2 + 6)%Z)
            end).
Proof.
  destruct (UNet_init_recorded config_upsample) as [self|e] eqn:Hinit;
    [|vm_compute in Hinit; discriminate].
  exists self. split; [reflexivity|].
  assert (Hup : _upsample_layer self = true)
    by (vm_compute in Hinit; injection Hinit as <-; reflexivity).
  pose proof (call_output_combination Z.add (fun _ x => (x + 1, x)%Z)
                (fun _ x skip => (x * skip)%Z) (fun _ x => (x / 2)%Z)
                (fun x => (2 * x)%Z) (fun x => (x - 1)%Z) self 3%Z
                (UNet_init_upsample_out recorded recorded recorded
                   config_upsample self Hinit)) as H.
  simpl in H. rewrite Hup in H. exact H.
Defined.

(** Loops over the stages. *)
Lemma for_each_app {S A} (l l' : list A) (body : S -> A -> result S) (s : S) :
  for_each (l ++ l') body s
  = match for_each l body s with
    | Ok s' => for_each l' body s'
    | Raise e => Raise e
    end.
Proof.
  revert s; induction l as [|i l IH]; intros s; simpl; [reflexivity|].
  destruct (body s i); [apply IH|reflexivity].
Qed.

Lemma range_last (L : Z) :
  (0 < L)%Z -> range 0 L = range 0 (L - 1) ++ [(L - 1)%Z].
Proof.
  intros HL. unfold range.
  replace (Z.to_nat (L - 0)) with (S (Z.to_nat (L - 1 - 0))) by lia.
  rewrite seq_S, map_app. simpl. f_equal. f_equal. lia.
Qed.

Lemma schedule_channels (config : Config) (loc0 loc : Locals) :
  (0 < layers config)%Z ->
  for_each (range 0 (layers config)) (schedule_step config) loc0 = Ok loc ->
  channels loc = Some (Z.min (nc config * 2 ^ (layers config - 1)) MAX_CHANNELS).
Proof.
  intros HL. rewrite (range_last _ HL), for_each_app.
  destruct (for_each _ _ loc0) as [loc1|e]; [|discriminate]. simpl.
  unfold schedule_step.
  destruct (halve (loc_source_dims loc1)) as [[ss sk] sd].
  destruct (halve (loc_target_dims loc1)) as [[ts tk] td].
  destruct (floordiv _ _); simpl; [|discriminate].
  intros [= <-]. reflexivity.
Qed.

Lemma encoder_step_channels (config : Config) (keys : gset string)
    (loc : Locals) (c : Z) (l : list Z)
    (vq vq' : option dict) (enc enc' : list DownBlock_args) :
  channels loc = Some c ->
  for_each l (encoder_step recorded config keys loc) (vq, enc) = Ok (vq', enc') ->
  Forall (fun b => down_nc b = c) enc ->
  Forall (fun b => down_nc b = c) enc' /\
  length enc' = (length enc + length l)%nat.
Proof.
  intros Hc. revert vq enc; induction l as [|i l IH]; intros vq enc;
    cbn [for_each].
  - intros [= <- <-] Henc. split; [exact Henc|simpl; lia].
  - destruct (encoder_step recorded config keys loc (vq, enc) i)
      as [[vq1 enc1]|e] eqn:Hstep; [|discriminate].
    intros Hrest Henc. unfold encoder_step in Hstep. rewrite Hc in Hstep.
    unfold mbind, result_bind, recorded, local in Hstep.
    repeat case_match; simplify_eq.
    all: destruct (IH _ _ Hrest) as [IH1 IH2];
      [apply Forall_app; split; [exact Henc|repeat constructor]|];
      split; [exact IH1|rewrite IH2, length_app; simpl; lia].
Qed.

(** Every encoder block is built with the channel count of the last stage. *)
Lemma encoder_channels_of_last_stage (config : Config)
    (self : UNet DownBlock_args UpBlock_args VQBlock_args) :
  UNet_init_recorded config = Ok self ->
  (0 < layers config)%Z /\
  length (encoder self) = Z.to_nat (layers config) /\
  Forall (fun b => down_nc b
                   = Z.min (nc config * 2 ^ (layers config - 1)) MAX_CHANNELS)
         (encoder self).
Proof.
  unfold UNet_init_recorded, UNet_init. unfold mbind at 1, result_bind at 1.
  destruct (max_num_layers (source_dims config)) as [bound|e]; [|discriminate].
  destruct (negb _) eqn:Hassert; [discriminate|].
  apply negb_false_iff, andb_true_iff in Hassert as [_ Hge].
  apply Z.geb_le in Hge.
  unfold mbind at 1, result_bind at 1.
  destruct (get_encoder _ _ _ _) as [[[[vq enc] bottom] cache]|e] eqn:Henc;
    [|discriminate].
  unfold mbind at 1, result_bind at 1.
  destruct (get_decoder _ _ _ _ _ _) as [[[[vq' dec] up] out]|e]; [|discriminate].
  intros [= <-]. simpl.
  unfold get_encoder in Henc. unfold mbind at 1, result_bind at 1 in Henc.
  destruct (for_each _ (schedule_step config) _) as [loc|e] eqn:Hloc;
    [|discriminate].
  assert (HL : (0 < layers config)%Z).
  { destruct (Z.eq_dec (layers config) 0%Z) as [E|E]; [|lia].
    rewrite E in Hloc, Henc. simpl in Hloc. injection Hloc as <-.
    simpl in Henc. unfold mbind, result_bind in Henc.
    repeat case_match; simplify_eq. }
  split; [exact HL|].
  pose proof (schedule_channels config _ loc HL Hloc) as Hc.
  unfold mbind at 1, result_bind at 1 in Henc.
  destruct (for_each _ (encoder_step _ _ _ _) _) as [[vq1 enc1]|e] eqn:Hblocks;
    [|discriminate].
  destruct (encoder_step_channels config _ loc _ _ _ _ _ _ Hc Hblocks ltac:(constructor))
    as [Hall Hlen].
  assert (enc = enc1).
  { unfold mbind, result_bind in Henc. repeat case_match; simplify_eq; reflexivity. }
  subst enc1. split; [|exact Hall].
  rewrite Hlen. unfold range. rewrite length_map, length_seq. simpl. f_equal. lia.
Qed.

Lemma for_each_raise {S A} (l : list A) (body : S -> A -> result S) (s : S)
    (e : exception) :
  for_each l body s = Raise e -> exists s' i, body s' i = Raise e.
Proof.
  revert s; induction l as [|i l IH]; intros s; simpl; [discriminate|].
  destruct (body s i) as [s1|e1] eqn:Hbody.
  - apply IH.
  - intros [= <-]. exists s, i. exact Hbody.
Qed.

Ltac raise_cases :=
  repeat (unfold mbind, result_bind, set_embeddings, getitem, local, index,
            floordiv, recorded in *;
          first [case_match | progress simplify_eq]);
  try discriminate.

Lemma get_encoder_no_assertion (config : Config) (keys : gset string)
    (vq : option dict) (e : exception) :
  get_encoder recorded config keys vq = Raise e -> e <> AssertionError.
Proof.
  unfold get_encoder. unfold mbind at 1, result_bind at 1.
  destruct (for_each _ (schedule_step config) _) as [loc|e1] eqn:Hloc.
  - unfold mbind at 1, result_bind at 1.
    destruct (for_each _ (encoder_step _ _ _ _) _) as [[vq1 enc]|e1] eqn:Hblocks.
    + intros H. raise_cases.
    + intros [= <-]. apply for_each_raise in Hblocks as ([vq1 enc] & i & Hstep).
      unfold encoder_step in Hstep. raise_cases.
  - intros [= <-]. apply for_each_raise in Hloc as (loc & i & Hstep).
    unfold schedule_step in Hstep. raise_cases.
Qed.

Lemma get_decoder_no_assertion (config : Config) (keys : gset string)
    (vq : option dict) (cache : Cache) (e : exception) :
  get_decoder recorded recorded config keys vq cache = Raise e ->
  e <> AssertionError.
Proof.
  unfold get_decoder. unfold mbind at 1, result_bind at 1.
  destruct (for_each _ (decoder_step _ _ _ _) _) as [[[vq1 dec] ch]|e1] eqn:Hblocks.
  - intros H. raise_cases.
  - intros [= <-]. apply for_each_raise in Hblocks as ([[vq1 dec] ch] & i & Hstep).
    unfold decoder_step in Hstep. raise_cases.
Qed.

(** X11.  The depth check of [UNet.__init__]: for a source at least one
    pixel and less than 2^32 pixels high and wide, construction raises
    AssertionError exactly when the depth is above
    [floor(log2(min(height, width)))] or below 0. *)
Lemma depth_check (config : Config) :
  plane_in_range config ->
  UNet_init_recorded config = Raise AssertionError
  <-> (Z.log2 (Z.min (source_dims config).1.2 (source_dims config).2)
       < layers config \/ layers config < 0)%Z.
Proof.
  intros [Hh Hw].
  assert (Hmin : (0 < Z.min (source_dims config).1.2 (source_dims config).2)%Z)
    by lia.
  unfold UNet_init_recorded, UNet_init, max_num_layers.
  destruct (Z.eqb_spec (Z.min (source_dims config).1.2 (source_dims config).2) 0);
    [lia|].
  destruct (Z.ltb_spec (Z.min (source_dims config).1.2 (source_dims config).2) 0);
    [lia|].
  unfold mbind at 1, result_bind at 1.
  destruct (Z.leb_spec (layers config)
              (Z.log2 (Z.min (source_dims config).1.2 (source_dims config).2)))
    as [Hle|Hgt];
    destruct (Z.geb_spec (layers config) 0) as [Hge|Hlt]; simpl;
    try (split; [intros _; lia|reflexivity]).
  split; [|lia]. intros Hraise. exfalso.
  unfold mbind at 1, result_bind at 1 in Hraise.
  destruct (get_encoder _ _ _ _) as [[[[vq enc] bottom] cache]|e] eqn:Henc.
  - unfold mbind at 1, result_bind at 1 in Hraise.
    destruct (get_decoder _ _ _ _ _ _) as [[[[vq' dec] up] out]|e] eqn:Hdec;
      [discriminate|].
    injection Hraise as ->.
    exact (get_decoder_no_assertion _ _ _ _ _ Hdec eq_refl).
  - injection Hraise as ->.
    exact (get_encoder_no_assertion _ _ _ _ Henc eq_refl).
Qed.

(** C6.  The claim is that a quantiser configured for a stage is attached
    with the embedding count configured for that stage.  For the stage
    "final" the builder reads the count left in the shared dictionary by the
    last stage that had a quantiser.  With only "final" configured (4
    embeddings) no constructors make the construction succeed, and with
    recording constructors it raises KeyError "embeddings".  With "down_0"
    (8 embeddings) and "final" (4 embeddings) the output quantiser is built
    with 8 embeddings.  With [DownBlock] of [layer/layers.py] the same
    configuration raises KeyError "vq_time", and [UpBlock] of that file
    looks up "vq_embeddings", a key the builder never sets. *)
Theorem final_stage_embeddings_stale :
  (forall (DownBlockT UpBlockT VQBlockT : Type)
          (DownBlock : DownBlock_args -> result DownBlockT)
          (UpBlock : UpBlock_args -> result UpBlockT)
          (VQBlock : VQBlock_args -> result VQBlockT),
      is_ok (UNet_init DownBlock UpBlock VQBlock config_final_only) = false) /\
  UNet_init_recorded config_final_only = Raise (KeyError "embeddings") /\
  (exists self vq,
      UNet_init_recorded config_down_final = Ok self /\
      output_vq self = Some vq /\
      vq_num_embeddings vq = Int 8 /\
      (vq_layers config_down_final ≫= (fun m => m !! "final")) = Some 4%Z /\
      map down_use_vq (encoder self) = [true] /\
      map (fun b => down_vq_config b ≫= (fun d => d !! "embeddings"))
          (encoder self) = [Some (Int 8)] /\
      down_use_vq (bottom_layer self) = false /\
      map up_use_vq (decoder self) = [false]) /\
  UNet_init layers_DownBlock recorded recorded config_down_final
  = Raise (KeyError "vq_time") /\
  layers_py.UpBlock_init 4 (2, 4, 4)%Z (1, 2, 2)%Z true
    (Some (<[ "embeddings" := Int 8 ]> {[ "vq_beta" := Float (Q2Qc 0.25) ]})) "up_0"
  = Raise (KeyError "vq_embeddings").
Proof.
  split; [|split; [|split; [|split]]].
  - intros. vm_compute.
    repeat match goal with
           | |- context [DownBlock ?args] => destruct (DownBlock args)
           | |- context [UpBlock ?args] => destruct (UpBlock args)
           end; reflexivity.
  - vm_compute. reflexivity.
  - destruct (UNet_init_recorded config_down_final) as [self|e] eqn:Hinit;
      [|vm_compute in Hinit; discriminate].
    vm_compute in Hinit. injection Hinit as <-.
    eexists _, _. split; [reflexivity|]. split; [reflexivity|].
    repeat split; vm_compute; reflexivity.
  - vm_compute. reflexivity.
  - vm_compute. reflexivity.
Qed.

(** C7.  The claim is that the encoder block of stage [i] has
    [min(nc * 2^i, 512)] channels.  The blocks are built in a second loop,
    after the loop that computes the schedule, from the values the last
    stage left in [channels], [source_kernel] and [source_strides]: with two
    stages and [nc = 4] both encoder blocks have 8 channels, where the
    schedule is 4 then 8; the decoder blocks, built from the cache, have 8
    and 4. *)
Theorem encoder_blocks_share_last_channels :
  exists self,
    UNet_init_recorded config_two_layers = Ok self /\
    map down_nc (encoder self) = [8; 8]%Z /\
    map (fun i => Z.min (nc config_two_layers * 2 ^ i) MAX_CHANNELS)
        (range 0 (layers config_two_layers)) = [4; 8]%Z /\
    map up_nc (decoder self) = [8; 4]%Z.
Proof.
  destruct (UNet_init_recorded config_two_layers) as [self|e] eqn:Hinit;
    [|vm_compute in Hinit; discriminate].
  vm_compute in Hinit. injection Hinit as <-.
  eexists. split; [reflexivity|]. repeat split; vm_compute; reflexivity.
Qed.

(** C8.  The claim is that a network with [layers = 0] is built and runs
    the bottleneck only.  With [layers = 0] the loops of [get_encoder] never
    bind [channels], which the construction of the bottom block then reads:
    whatever the block constructors and the rest of the configuration (the
    source being at least one pixel high and wide), construction raises
    UnboundLocalError. *)
Theorem no_layers_unbound_channels
    {DownBlockT UpBlockT VQBlockT : Type}
    (DownBlock : DownBlock_args -> result DownBlockT)
    (UpBlock : UpBlock_args -> result UpBlockT)
    (VQBlock : VQBlock_args -> result VQBlockT)
    (config : Config) :
  layers config = 0%Z ->
  (0 < Z.min (source_dims config).1.2 (source_dims config).2)%Z ->
  UNet_init DownBlock UpBlock VQBlock config
  = Raise (UnboundLocalError "channels").
Proof.
  intros Hlayers Hmin. unfold UNet_init, max_num_layers.
  destruct (Z.eqb_spec (Z.min (source_dims config).1.2 (source_dims config).2) 0);
    [lia|].
  destruct (Z.ltb_spec (Z.min (source_dims config).1.2 (source_dims config).2) 0);
    [lia|].
  simpl. rewrite Hlayers.
  pose proof (Z.log2_nonneg (Z.min (source_dims config).1.2 (source_dims config).2)).
  replace (0 <=? Z.log2 _)%Z with true by (symmetry; apply Z.leb_le; lia).
  simpl. unfold get_encoder. rewrite Hlayers. simpl.
  destruct (vq_layers config) as [m|] eqn:Hvq.
  - case_bool_decide as Hin; simpl; [|reflexivity].
    apply elem_of_dom in Hin as [count Hcount]. unfold set_embeddings, getitem.
    rewrite Hvq, Hcount. reflexivity.
  - case_bool_decide as Hin; simpl; [|reflexivity].
    apply not_elem_of_empty in Hin. destruct Hin.
Qed.

Lemma no_layers_unbound_channels_witness :
  UNet_init_recorded config_no_layers = Raise (UnboundLocalError "channels").
Proof.
  apply (no_layers_unbound_channels recorded recorded recorded config_no_layers).
  - reflexivity.
  - simpl. lia.
Defined.

(** C9.  The claim is that construction fails exactly when the depth is
    above [floor(log2(min(height, width)))] or below 0, and succeeds at the
    bound.  For a source of two slices of 4 x 4 the bound is 2; at depth 2
    the check passes, the second down-sampling step brings the slice axis
    to 0, and the up-sampling factor divides by it: whatever the block
    constructors, construction raises ZeroDivisionError. *)
Theorem depth_at_bound_divides_by_zero :
  max_num_layers (source_dims config_two_slices) = Ok 2%Z /\
  layers config_two_slices = 2%Z /\
  (forall (DownBlockT UpBlockT VQBlockT : Type)
          (DownBlock : DownBlock_args -> result DownBlockT)
          (UpBlock : UpBlock_args -> result UpBlockT)
          (VQBlock : VQBlock_args -> result VQBlockT),
      UNet_init DownBlock UpBlock VQBlock config_two_slices
      = Raise ZeroDivisionError).
Proof.
  split; [reflexivity|]. split; [reflexivity|]. intros. vm_compute. reflexivity.
Qed.

(* ===================================================================== *)
(** ** Further properties of [vq_layers.py] *)
(* ===================================================================== *)

Import tf vq_layers_py.

(** What [call] returns on an input it applies to. *)
Lemma call_values (self : VQBlock) (x : Tensor) :
  applicable self x ->
  exists out loss,
    call self x = Some (out, loss) /\
    shape out = shape x /\
    length (data out) = length (data x) /\
    map tangent (data out) = map tangent (data x).
Proof.
  intros Happ.
  pose proof (quantized_selected self x Happ) as Hq.
  pose proof (selected_length self x Happ) as Hsel.
  pose proof (straight_through_tangents
                (data x) (selected self (code_indices self x)) Hsel) as Htan.
  pose proof (straight_through_length
                (data x) (selected self (code_indices self x)) Hsel) as Hlen.
  eexists _, _. split; [apply call_from_quantized, Hq|].
  split; [reflexivity|]. split; [exact Hlen|]. exact Htan.
Qed.

(** X1.  On every input it applies to, [call] returns a tensor of the shape
    of the input, with as many entries, and the tangent of every returned
    entry is the tangent of the input entry: the quantisation passes
    gradients through unchanged, whichever entries were selected. *)
Theorem call_shape_straight_through (self : VQBlock) (x : Tensor) :
  applicable self x ->
  exists out loss,
    call self x = Some (out, loss) /\
    shape out = shape x /\
    wf_tensor out /\
    map tangent (data out) = map tangent (data x).
Proof.
  intros Happ. destruct (call_values self x Happ)
    as (out & loss & Hcall & Hshape & Hlen & Htan).
  exists out, loss. repeat split; try assumption.
  unfold wf_tensor. rewrite Hlen, Hshape. apply Happ.
Qed.

Lemma call_shape_straight_through_witness :
  exists out loss,
    call codebook_2d tensor_2x2 = Some (out, loss) /\
    shape out = [1; 2; 2]%nat /\
    wf_tensor out /\
    map tangent (data out) = [Q2Qc 1; Q2Qc 2; Q2Qc 3; Q2Qc 4].
Proof.
  apply (call_shape_straight_through codebook_2d tensor_2x2).
  repeat split; try (simpl; lia); repeat constructor.
Defined.

(** X2.  For a dictionary and an input of the declared shapes, [call] fails
    exactly when [embedding_dim] is 0, or the entries of the input do not
    split in rows of [embedding_dim], or there is no embedding to choose
    from. *)
Theorem call_fails_iff (self : VQBlock) (x : Tensor) :
  wf_dictionary (embedding_dim self) (num_embeddings self) (dictionary self) ->
  wf_tensor x ->
  call self x = None
  <-> (embedding_dim self = 0%nat \/
       (length (data x) mod embedding_dim self)%nat <> 0%nat \/
       num_embeddings self = 0%nat).
Proof.
  intros Hdict Hx.
  destruct (Nat.eq_dec (embedding_dim self) 0%nat) as [HD|HD].
  { split; [auto|]. intros _. unfold call, quantized, reshape_rows.
    rewrite HD. reflexivity. }
  destruct (Nat.eq_dec (length (data x) mod embedding_dim self)%nat 0%nat)
    as [Hmod|Hmod].
  2:{ split; [auto|]. intros _. unfold call, quantized, reshape_rows.
      replace (embedding_dim self =? 0)%nat with false
        by (symmetry; apply Nat.eqb_neq; exact HD).
      replace (length (data x) mod embedding_dim self =? 0)%nat with false
        by (symmetry; apply Nat.eqb_neq; exact Hmod).
      reflexivity. }
  destruct (Nat.eq_dec (num_embeddings self) 0%nat) as [HK|HK].
  { split; [auto|]. intros _. unfold call, quantized, reshape_rows.
    replace (embedding_dim self =? 0)%nat with false
      by (symmetry; apply Nat.eqb_neq; exact HD).
    rewrite Hmod. simpl. unfold get_code_indices. rewrite HK. reflexivity. }
  assert (Happ : applicable self x).
  { repeat split; try apply Hdict; try assumption; lia. }
  destruct (call_values self x Happ) as (out & loss & Hcall & _).
  rewrite Hcall. split; [discriminate|]. intros [H|[H|H]]; contradiction.
Qed.

Lemma call_fails_iff_witness :
  call codebook_2d tensor_3 = None
  <-> (2 = 0 \/ 3 mod 2 <> 0 \/ 3 = 0)%nat.
Proof.
  apply (call_fails_iff codebook_2d tensor_3).
  - split; [reflexivity|repeat constructor].
  - reflexivity.
Defined.

(* ===================================================================== *)
(** ** Further properties of [unet.py] *)
(* ===================================================================== *)

Import py unet_py.

Section UShapeProofs.

Context {tensor DownBlockT UpBlockT VQBlockT : Type}.
Variable call_down : DownBlockT -> tensor -> tensor * tensor.
Variable call_up : UpBlockT -> tensor -> tensor -> tensor.

(** The two loops of [UNet.call], with the skip outputs and decoder blocks
    of the stages outside the ones still to run. *)
Lemma encoder_decoder_loops (bottom : DownBlockT)
    (enc : list DownBlockT) (dec_rev outer : list UpBlockT)
    (acc : list tensor) (x : tensor) :
  length enc = length dec_rev ->
  let '(xn, skip_layers) :=
    fold_left (fun '(x, skip_layers) layer =>
                 let '(x, skip) := call_down layer x in
                 (x, skip_layers ++ [skip]))
              enc (x, acc) in
  fold_left (fun x '(skip, tconv) => call_up tconv x skip)
            (zip (rev skip_layers) (rev dec_rev ++ outer))
            (call_down bottom xn).1
  = fold_left (fun x '(skip, tconv) => call_up tconv x skip)
              (zip (rev acc) outer)
              (u_shape call_down call_up bottom (zip enc dec_rev) x).
Proof.
  revert dec_rev outer acc x; induction enc as [|e enc IH];
    intros [|d dec_rev] outer acc x Hlen; simpl in Hlen; try discriminate.
  - reflexivity.
  - injection Hlen as Hlen. simpl.
    destruct (call_down e x) as [x1 skip] eqn:He.
    specialize (IH dec_rev (d :: outer) (acc ++ [skip]) x1 Hlen).
    destruct (fold_left _ enc (x1, acc ++ [skip])) as [xn skip_layers].
    rewrite <- app_assoc. simpl. rewrite IH.
    rewrite rev_app_distr. reflexivity.
Qed.

End UShapeProofs.

(** The loops of [UNet.call] as a nested composition. *)
Lemma final_projection_nested
    {tensor DownBlockT UpBlockT VQBlockT : Type}
    (call_down : DownBlockT -> tensor -> tensor * tensor)
    (call_up : UpBlockT -> tensor -> tensor -> tensor)
    (upsample_in final_layer : tensor -> tensor)
    (self : UNet DownBlockT UpBlockT VQBlockT) (x : tensor) :
  length (encoder self) = length (decoder self) ->
  final_projection call_down call_up upsample_in final_layer self x
  = let u := u_shape call_down call_up (bottom_layer self)
                     (zip (encoder self) (rev (decoder self))) x in
    if _upsample_layer self then
      match upsample_out self with
      | Some up => Ok (final_layer (call_up up u (upsample_in x)))
      | None => Raise AttributeError
      end
    else Ok (final_layer u).
Proof.
  intros Hlen. unfold final_projection, upsampled.
  pose proof (encoder_decoder_loops call_down call_up (bottom_layer self)
                (encoder self) (rev (decoder self)) [] [] x) as Hloops.
  rewrite length_rev in Hloops. specialize (Hloops Hlen).
  destruct (fold_left _ (encoder self) (x, [])) as [xn skip_layers].
  rewrite rev_involutive, app_nil_r in Hloops. simpl in Hloops.
  destruct (call_down (bottom_layer self) xn) as [xb ignored] eqn:Hbottom.
  simpl in Hloops. rewrite Hloops.
  destruct (_upsample_layer self); [|reflexivity].
  destruct (upsample_out self); reflexivity.
Qed.

(** X6.  [UNet.call] runs the blocks in a U: when there are as many decoder
    blocks as encoder blocks, the loops that collect the skip outputs,
    reverse them and pair them with the decoder give the nested composition
    in which encoder block [i] hands its skip output to the decoder block at
    position [n - 1 - i], with the deeper stages and the bottom block in
    between; the result then goes through the optional up-sampling block
    and the final layer. *)
Theorem final_projection_u_shape
    {tensor DownBlockT UpBlockT VQBlockT : Type}
    (call_down : DownBlockT -> tensor -> tensor * tensor)
    (call_up : UpBlockT -> tensor -> tensor -> tensor)
    (upsample_in final_layer : tensor -> tensor)
    (self : UNet DownBlockT UpBlockT VQBlockT) (x : tensor) :
  length (encoder self) = length (decoder self) ->
  final_projection call_down call_up upsample_in final_layer self x
  = let u := u_shape call_down call_up (bottom_layer self)
                     (zip (encoder self) (rev (decoder self))) x in
    if _upsample_layer self then
      match upsample_out self with
      | Some up => Ok (final_layer (call_up up u (upsample_in x)))
      | None => Raise AttributeError
      end
    else Ok (final_layer u).
Proof. apply final_projection_nested. Qed.

Lemma final_projection_u_shape_witness :
  final_projection (fun k x => (x + k, 100 * k + x)%Z)
                   (fun k x skip => (k * x + skip)%Z)
                   (fun x => x) (fun x => (- x)%Z) toy_unet 1%Z
  = Ok (- (11 * (7 * (1 + 2 + 3 + 5) + (300 + (1 + 2))) + (200 + 1)))%Z.
Proof.
  rewrite (final_projection_u_shape (fun k x => (x + k, 100 * k + x)%Z)
             (fun k x skip => (k * x + skip)%Z)
             (fun x => x) (fun x => (- x)%Z) toy_unet 1%Z); reflexivity.
Defined.

(** Loops with the position of each round. *)
Lemma for_each_indexed {St A} (P : nat -> St -> Prop) (l : list A)
    (body : St -> A -> result St) (s0 s' : St) :
  P 0%nat s0 ->
  (forall n i s s1, l !! n = Some i -> P n s -> body s i = Ok s1 -> P (S n) s1) ->
  for_each l body s0 = Ok s' -> P (length l) s'.
Proof.
  revert P s0; induction l as [|a l IH]; intros P s0 H0 Hstep; simpl.
  - intros [= <-]. exact H0.
  - destruct (body s0 a) as [s1|e] eqn:Hbody; [|discriminate].
    apply (IH (fun n => P (S n))).
    + apply (Hstep 0%nat a s0 s1); [reflexivity|exact H0|exact Hbody].
    + intros n i s s2 Hi. apply (Hstep (S n) i s s2). exact Hi.
Qed.

Lemma map_fmap {A B} (f : A -> B) (l : list A) : map f l = f <$> l.
Proof. reflexivity. Qed.

Lemma range_length (L : Z) : length (range 0 L) = Z.to_nat L.
Proof. unfold range. rewrite length_map, length_seq. f_equal. lia. Qed.

Lemma range_lookup_inv (L : Z) (n : nat) (i : Z) :
  range 0 L !! n = Some i -> i = Z.of_nat n /\ (n < Z.to_nat L)%nat.
Proof.
  unfold range. rewrite map_fmap, list_lookup_fmap.
  destruct (seq 0 (Z.to_nat (L - 0)) !! n) as [k|] eqn:Hk; [|discriminate].
  apply lookup_seq in Hk as [-> Hlt]. simpl. intros [= <-]. split; lia.
Qed.

Lemma range_down_length (L : Z) : length (range_down (L - 1) (-1)) = Z.to_nat L.
Proof. unfold range_down. rewrite length_map, length_seq. f_equal. lia. Qed.

Lemma range_down_lookup_inv (L : Z) (n : nat) (i : Z) :
  range_down (L - 1) (-1) !! n = Some i ->
  i = (L - 1 - Z.of_nat n)%Z /\ (n < Z.to_nat L)%nat.
Proof.
  unfold range_down. rewrite map_fmap, list_lookup_fmap.
  destruct (seq 0 (Z.to_nat (L - 1 - -1)) !! n) as [k|] eqn:Hk; [|discriminate].
  apply lookup_seq in Hk as [-> Hlt]. simpl. intros [= <-]. split; lia.
Qed.

(** The first loop of [get_encoder]. *)
Lemma schedule_step_scheduled (config : Config) (n : nat) (loc loc' : Locals) :
  scheduled config n loc ->
  schedule_step config loc (Z.of_nat n) = Ok loc' ->
  scheduled config (S n) loc'.
Proof.
  intros (Hs & Ht & Hc & Hst & Hk & Hu & _). unfold schedule_step.
  rewrite Hs, Ht.
  destruct (halve (dims_after n (source_dims config))) as [[ss sk] sd] eqn:Hhs.
  destruct (halve (dims_after n (target_dims config))) as [[ts tk] td] eqn:Hht.
  unfold floordiv. destruct (sd.1.1 =? 0)%Z; simpl; [discriminate|].
  intros [= <-]. unfold scheduled.
  cbn [loc_source_dims loc_target_dims loc_cache cache_channels cache_strides
       cache_kernels cache_upsamp_factor channels source_strides source_kernel
       dims_after].
  rewrite !seq_S, !map_app, Hc, Hst, Hk, Hu.
  unfold stage_strides, stage_kernel, stage_upsamp_factor.
  cbn [dims_after map Nat.add]. rewrite Hhs, Hht. repeat split; reflexivity.
Qed.

Lemma schedule_loop_scheduled (config : Config) (loc : Locals) :
  for_each (range 0 (layers config)) (schedule_step config)
    {| channels := None; source_strides := None; source_kernel := None;
       loc_source_dims := source_dims config;
       loc_target_dims := target_dims config;
       loc_cache := {| cache_channels := []; cache_strides := [];
                       cache_kernels := []; cache_upsamp_factor := [] |} |}
  = Ok loc ->
  scheduled config (Z.to_nat (layers config)) loc.
Proof.
  intros Hloop. rewrite <- range_length.
  eapply (for_each_indexed (scheduled config)); [| |exact Hloop].
  - repeat split.
  - intros n i s s1 Hi Hn Hstep. apply range_lookup_inv in Hi as [-> _].
    exact (schedule_step_scheduled config n s s1 Hn Hstep).
Qed.

(** Stage names. *)
Lemma block_stage_not_final (name : string) : block_stage name -> name <> "final".
Proof.
  intros [[i ->]|[->|[[i ->]| ->]]]; discriminate.
Qed.

(** Storing the count of a stage in the shared dictionary. *)
Lemma set_embeddings_state (config : Config) (vq vq' : option dict)
    (name : string) :
  block_stage name ->
  vq_config_state config vq ->
  set_embeddings config vq name = Ok vq' ->
  vq_config_state config vq' /\
  exists n d, configured config name = Some n /\
              vq' = Some d /\
              d !! "embeddings" = Some (Int n) /\
              d !! "vq_beta" = Some (Float (vq_beta config)).
Proof.
  intros Hname. unfold vq_config_state, set_embeddings, configured, getitem.
  destruct (vq_layers config) as [m|]; [|discriminate].
  intros (d & -> & Hbeta & Hkeys & Hemb). simpl.
  destruct (m !! name) as [n|] eqn:Hn; [|discriminate]. simpl.
  intros [= <-]. split.
  - exists (<["embeddings" := Int n]> d). split; [reflexivity|].
    split; [rewrite lookup_insert_ne by discriminate; exact Hbeta|]. split.
    + intros k v. destruct (decide (k = "embeddings")) as [->|Hk]; [auto|].
      rewrite lookup_insert_ne by congruence. apply Hkeys.
    + intros v. rewrite lookup_insert_eq. intros [= <-].
      exists name, n. auto.
  - exists n, (<["embeddings" := Int n]> d). split; [reflexivity|].
    split; [reflexivity|]. split; [apply lookup_insert_eq|].
    rewrite lookup_insert_ne by discriminate. exact Hbeta.
Qed.

Lemma stage_wired (config : Config) (vq vq' : option dict) (name : string) :
  block_stage name ->
  vq_config_state config vq ->
  (if bool_decide (name ∈ vq_keys config)
   then set_embeddings config vq name else Ok vq) = Ok vq' ->
  vq_config_state config vq' /\
  wired config name (bool_decide (name ∈ vq_keys config)) vq'.
Proof.
  intros Hname Hstate. unfold wired. case_bool_decide as Hin.
  - intros Hset.
    destruct (set_embeddings_state config vq vq' name Hname Hstate Hset)
      as [Hstate' Hcount].
    split; [exact Hstate'|]. split; [reflexivity|]. intros _. exact Hcount.
  - intros [= <-]. split; [exact Hstate|]. split; [reflexivity|discriminate].
Qed.

Lemma vq_config_state_init (config : Config) :
  vq_config_state config
    match vq_layers config with
    | Some _ => Some {[ "vq_beta" := Float (vq_beta config) ]}
    | None => None
    end.
Proof.
  unfold vq_config_state. destruct (vq_layers config) as [m|]; [|reflexivity].
  eexists. split; [reflexivity|]. split; [apply lookup_singleton_eq|]. split.
  - intros k v Hk. apply lookup_singleton_Some in Hk as [<- _]. auto.
  - intros v Hv. apply lookup_singleton_Some in Hv as [Hne _]. discriminate.
Qed.

Section Builder.

Context {DownBlockT UpBlockT VQBlockT : Type}.
Variable DownBlock : DownBlock_args -> result DownBlockT.
Variable UpBlock : UpBlock_args -> result UpBlockT.
Variable VQBlock : VQBlock_args -> result VQBlockT.

(** One round of the second loop of [get_encoder]. *)
Lemma encoder_step_inv (config : Config) (keys : gset string) (loc : Locals)
    (vq vq' : option dict) (enc enc' : list DownBlockT) (i : Z) :
  encoder_step DownBlock config keys loc (vq, enc) i = Ok (vq', enc') ->
  exists c k s b,
    channels loc = Some c /\ source_kernel loc = Some k /\
    source_strides loc = Some s /\
    (if bool_decide ("down_" +:+ pretty i ∈ keys)
     then set_embeddings config vq ("down_" +:+ pretty i) else Ok vq) = Ok vq' /\
    DownBlock {| down_nc := c; down_weights := k; down_strides := s;
                 down_use_vq := bool_decide ("down_" +:+ pretty i ∈ keys);
                 down_vq_config := vq';
                 down_name := "down_" +:+ pretty i |} = Ok b /\
    enc' = enc ++ [b].
Proof.
  unfold encoder_step. unfold mbind at 1, result_bind at 1.
  destruct (if bool_decide _ then _ else _) as [vq1|e]; [|discriminate].
  destruct (channels loc) as [c|]; [|discriminate].
  destruct (source_kernel loc) as [k|]; [|discriminate].
  destruct (source_strides loc) as [s|]; [|discriminate]. simpl.
  unfold mbind, result_bind.
  destruct (DownBlock _) as [b|e] eqn:Hb; [|discriminate].
  intros [= <- <-]. exists c, k, s, b. repeat split; try reflexivity. exact Hb.
Qed.

(** One round of the loop of [get_decoder]. *)
Lemma decoder_step_inv (config : Config) (keys : gset string) (cache : Cache)
    (vq vq' : option dict) (dec dec' : list UpBlockT) (ch ch' : option Z)
    (i : Z) :
  decoder_step UpBlock config keys cache (vq, dec, ch) i = Ok (vq', dec', ch') ->
  exists c s k u b,
    cache_channels cache !! Z.to_nat i = Some c /\
    cache_strides cache !! Z.to_nat i = Some s /\
    cache_kernels cache !! Z.to_nat i = Some k /\
    cache_upsamp_factor cache !! Z.to_nat i = Some u /\
    (if bool_decide ("up_" +:+ pretty i ∈ keys)
     then set_embeddings config vq ("up_" +:+ pretty i) else Ok vq) = Ok vq' /\
    UpBlock {| up_nc := c; up_weights := k; up_strides := s;
               up_upsamp_factor := u;
               up_use_vq := bool_decide ("up_" +:+ pretty i ∈ keys);
               up_vq_config := vq';
               up_name := "up_" +:+ pretty i |} = Ok b /\
    dec' = dec ++ [b] /\ ch' = Some c.
Proof.
  unfold decoder_step, index.
  destruct (cache_channels cache !! Z.to_nat i) as [c|]; [|discriminate].
  destruct (cache_strides cache !! Z.to_nat i) as [s|]; [|discriminate].
  destruct (cache_kernels cache !! Z.to_nat i) as [k|]; [|discriminate].
  destruct (cache_upsamp_factor cache !! Z.to_nat i) as [u|]; [|discriminate].
  simpl. unfold mbind at 1, result_bind at 1.
  destruct (if bool_decide _ then _ else _) as [vq1|e]; [|discriminate].
  unfold mbind, result_bind.
  destruct (UpBlock _) as [b|e] eqn:Hb; [|discriminate].
  intros [= <- <- <-]. exists c, s, k, u, b.
  repeat split; try reflexivity. exact Hb.
Qed.

End Builder.

Section BuilderSteps.

Context {DownBlockT UpBlockT VQBlockT : Type}.
Variable DownBlock : DownBlock_args -> result DownBlockT.
Variable UpBlock : UpBlock_args -> result UpBlockT.
Variable VQBlock : VQBlock_args -> result VQBlockT.

(** The steps of a [get_encoder] that returns. *)
Lemma get_encoder_inv (config : Config) (keys : gset string)
    (vq vq' : option dict) (enc : list DownBlockT) (bottom : DownBlockT)
    (cache : Cache) :
  get_encoder DownBlock config keys vq = Ok (vq', enc, bottom, cache) ->
  exists loc vq1 c k,
    for_each (range 0 (layers config)) (schedule_step config)
      {| channels := None; source_strides := None; source_kernel := None;
         loc_source_dims := source_dims config;
         loc_target_dims := target_dims config;
         loc_cache := {| cache_channels := []; cache_strides := [];
                         cache_kernels := []; cache_upsamp_factor := [] |} |}
    = Ok loc /\
    for_each (range 0 (layers config)) (encoder_step DownBlock config keys loc)
             (vq, []) = Ok (vq1, enc) /\
    (if bool_decide ("bottom" ∈ keys)
     then set_embeddings config vq1 "bottom" else Ok vq1) = Ok vq' /\
    channels loc = Some c /\ source_kernel loc = Some k /\
    DownBlock {| down_nc := c; down_weights := k; down_strides := (1, 1, 1)%Z;
                 down_use_vq := bool_decide ("bottom" ∈ keys);
                 down_vq_config := vq'; down_name := "bottom" |} = Ok bottom /\
    cache = loc_cache loc.
Proof.
  unfold get_encoder. unfold mbind at 1, result_bind at 1.
  destruct (for_each _ (schedule_step config) _) as [loc|e]; [|discriminate].
  unfold mbind at 1, result_bind at 1.
  destruct (for_each _ (encoder_step _ _ _ _) _) as [[vq1 enc1]|e] eqn:Henc;
    [|discriminate].
  unfold mbind at 1, result_bind at 1.
  destruct (if bool_decide _ then _ else _) as [vq2|e] eqn:Hvq; [|discriminate].
  destruct (channels loc) as [c|] eqn:Hc; [|discriminate].
  destruct (source_kernel loc) as [k|] eqn:Hk; [|discriminate]. simpl.
  unfold mbind, result_bind.
  destruct (DownBlock _) as [b|e] eqn:Hb; [|discriminate].
  intros [= <- <- <- <-]. exists loc, vq1, c, k. auto 10.
Qed.

(** The steps of a [get_decoder] that returns. *)
Lemma get_decoder_inv (config : Config) (keys : gset string)
    (vq vq' : option dict) (cache : Cache) (dec : list UpBlockT)
    (up : option UpBlockT) (out : option VQBlockT) :
  get_decoder UpBlock VQBlock config keys vq cache = Ok (vq', dec, up, out) ->
  exists vq1 ch,
    for_each (range_down (layers config - 1) (-1))
             (decoder_step UpBlock config keys cache) (vq, [], None)
    = Ok (vq1, dec, ch) /\
    (if upsample_layer config
     then exists c b,
         (if bool_decide ("upsamp" ∈ keys)
          then set_embeddings config vq1 "upsamp" else Ok vq1) = Ok vq' /\
         ch = Some c /\
         UpBlock {| up_nc := c; up_weights := (2, 4, 4)%Z;
                    up_strides := (1, 2, 2)%Z; up_upsamp_factor := 1;
                    up_use_vq := bool_decide ("upsamp" ∈ keys);
                    up_vq_config := vq'; up_name := "upsamp" |} = Ok b /\
         up = Some b
     else vq' = vq1 /\ up = None) /\
    (if bool_decide ("final" ∈ keys)
     then exists d embeddings beta v,
         vq' = Some d /\ d !! "embeddings" = Some embeddings /\
         d !! "vq_beta" = Some beta /\
         VQBlock {| vq_num_embeddings := embeddings; vq_embedding_dim := 1;
                    vq_beta_arg := beta; vq_name := "output_vq" |} = Ok v /\
         out = Some v
     else out = None).
Proof.
  unfold get_decoder. unfold mbind at 1, result_bind at 1.
  destruct (for_each _ (decoder_step _ _ _ _) _) as [[[vq1 dec1] ch]|e];
    [|discriminate].
  unfold mbind at 1, result_bind at 1. intros H.
  exists vq1, ch.
  destruct (upsample_layer config).
  - unfold mbind at 1, result_bind at 1 in H.
    destruct (if bool_decide ("upsamp" ∈ keys) then _ else _) as [vq2|e] eqn:Hvq;
      [|discriminate].
    destruct ch as [c|]; [|discriminate]. simpl in H.
    unfold mbind at 1, result_bind at 1 in H.
    destruct (UpBlock _) as [b|e] eqn:Hb; [|discriminate]. simpl in H.
    unfold mbind at 1, result_bind at 1 in H.
    destruct (bool_decide ("final" ∈ keys)).
    + destruct vq2 as [d|]; [|discriminate]. unfold getitem in H.
      destruct (d !! "embeddings") as [em|] eqn:Hem; [|discriminate].
      destruct (d !! "vq_beta") as [be|] eqn:Hbe; [|discriminate]. simpl in H.
      unfold mbind, result_bind in H.
      destruct (VQBlock _) as [v|e] eqn:Hv; [|discriminate].
      injection H as <- <- <- <-. split; [reflexivity|]. split.
      * exists c, b. auto.
      * exists d, em, be, v. auto.
    + injection H as <- <- <- <-. split; [reflexivity|]. split; [|reflexivity].
      exists c, b. auto.
  - simpl in H. unfold mbind at 1, result_bind at 1 in H.
    destruct (bool_decide ("final" ∈ keys)).
    + destruct vq1 as [d|]; [|discriminate]. unfold getitem in H.
      destruct (d !! "embeddings") as [em|] eqn:Hem; [|discriminate].
      destruct (d !! "vq_beta") as [be|] eqn:Hbe; [|discriminate]. simpl in H.
      unfold mbind, result_bind in H.
      destruct (VQBlock _) as [v|e] eqn:Hv; [|discriminate].
      injection H as <- <- <- <-. split; [reflexivity|]. split; [auto|].
      exists d, em, be, v. auto.
    + injection H as <- <- <- <-. auto.
Qed.

(** The steps of a [UNet.__init__] that returns. *)
Lemma UNet_init_inv (config : Config) (self : UNet DownBlockT UpBlockT VQBlockT) :
  UNet_init DownBlock UpBlock VQBlock config = Ok self ->
  exists bound vq1 cache,
    max_num_layers (source_dims config) = Ok bound /\
    (0 <= layers config <= bound)%Z /\
    get_encoder DownBlock config (vq_keys config)
      match vq_layers config with
      | Some _ => Some {[ "vq_beta" := Float (vq_beta config) ]}
      | None => None
      end
    = Ok (vq1, encoder self, bottom_layer self, cache) /\
    get_decoder UpBlock VQBlock config (vq_keys config) vq1 cache
    = Ok (_vq_config self, decoder self, upsample_out self, output_vq self) /\
    _upsample_layer self = upsample_layer config /\
    _residual self = residual config /\
    _vq_layers self = vq_keys config.
Proof.
  unfold UNet_init. fold (vq_keys config).
  unfold mbind at 1, result_bind at 1.
  destruct (max_num_layers (source_dims config)) as [bound|e]; [|discriminate].
  destruct (negb _) eqn:Hassert; [discriminate|].
  apply negb_false_iff, andb_true_iff in Hassert as [Hle Hge].
  apply Z.leb_le in Hle. apply Z.geb_le in Hge.
  unfold mbind at 1, result_bind at 1.
  destruct (get_encoder _ _ _ _) as [[[[vq1 enc] bottom] cache]|e];
    [|discriminate].
  unfold mbind at 1, result_bind at 1.
  destruct (get_decoder _ _ _ _ _ _) as [[[[vq2 dec] up] out]|e] eqn:Hdec;
    [|discriminate].
  intros [= <-]. exists bound, vq1, cache. simpl.
  repeat split; try reflexivity; try lia. exact Hdec.
Qed.

End BuilderSteps.

Lemma map_seq_lookup {A} (f : nat -> A) (N k : nat) (a : A) :
  map f (seq 0 N) !! k = Some a -> a = f k /\ (k < N)%nat.
Proof.
  rewrite map_fmap, list_lookup_fmap.
  destruct (seq 0 N !! k) as [k'|] eqn:Hk; [|discriminate].
  apply lookup_seq in Hk as [-> Hlt]. simpl. intros [= <-]. auto.
Qed.

(** The second loop of [get_encoder], with constructors that record their
    arguments. *)
Lemma encoder_loop_built (config : Config) (loc : Locals)
    (vq vq' : option dict) (enc : list DownBlock_args) :
  vq_config_state config vq ->
  for_each (range 0 (layers config))
           (encoder_step recorded config (vq_keys config) loc) (vq, [])
  = Ok (vq', enc) ->
  vq_config_state config vq' /\
  length enc = Z.to_nat (layers config) /\
  forall i b, enc !! i = Some b ->
    down_name b = "down_" +:+ pretty (Z.of_nat i) /\
    channels loc = Some (down_nc b) /\
    source_kernel loc = Some (down_weights b) /\
    source_strides loc = Some (down_strides b) /\
    wired config (down_name b) (down_use_vq b) (down_vq_config b).
Proof.
  intros Hstate Hloop. rewrite <- range_length.
  eapply (for_each_indexed
           (fun n (s : option dict * list DownBlock_args) =>
              vq_config_state config s.1 /\
              length s.2 = n /\
              forall i b, s.2 !! i = Some b ->
                down_name b = "down_" +:+ pretty (Z.of_nat i) /\
                channels loc = Some (down_nc b) /\
                source_kernel loc = Some (down_weights b) /\
                source_strides loc = Some (down_strides b) /\
                wired config (down_name b) (down_use_vq b) (down_vq_config b))
           _ _ (vq, []) (vq', enc)); [| |exact Hloop].
  - simpl. split; [exact Hstate|]. split; [reflexivity|].
    intros i b Hi. discriminate.
  - intros n i [vq1 enc1] [vq2 enc2] Hi (Hst & Hlen & Hblocks) Hstep.
    apply range_lookup_inv in Hi as [-> _].
    apply encoder_step_inv in Hstep
      as (c & k & s & b & Hc & Hk & Hs & Hvq & Hb & ->).
    injection Hb as <-. simpl in Hst, Hlen, Hblocks |- *.
    destruct (stage_wired config vq1 vq2 ("down_" +:+ pretty (Z.of_nat n))
                ltac:(left; eexists; reflexivity) Hst Hvq) as [Hst' Hwired].
    split; [exact Hst'|]. split; [rewrite length_app; simpl; lia|].
    intros j b Hj. apply lookup_app_Some in Hj as [Hj|[Hge Hj]].
    + apply Hblocks, Hj.
    + rewrite Hlen in Hj, Hge. destruct (j - n)%nat as [|m] eqn:Hm;
        [|destruct m; discriminate].
      injection Hj as <-. simpl. replace j with n by lia. auto.
Qed.

(** The loop of [get_decoder], with constructors that record their
    arguments, on the cache left by the first loop of [get_encoder]. *)
Lemma decoder_loop_built (config : Config) (loc : Locals)
    (vq vq' : option dict) (dec : list UpBlock_args) (ch : option Z) :
  scheduled config (Z.to_nat (layers config)) loc ->
  vq_config_state config vq ->
  for_each (range_down (layers config - 1) (-1))
           (decoder_step recorded config (vq_keys config) (loc_cache loc))
           (vq, [], None)
  = Ok (vq', dec, ch) ->
  vq_config_state config vq' /\
  length dec = Z.to_nat (layers config) /\
  (forall j b, dec !! j = Some b ->
     decoder_block_of config j b /\
     wired config (up_name b) (up_use_vq b) (up_vq_config b)) /\
  ((0 < layers config)%Z -> ch = Some (stage_channels config 0)).
Proof.
  intros (_ & _ & Hcc & Hcs & Hck & Hcu & _) Hstate Hloop.
  rewrite <- (range_down_length (layers config)).
  eapply (for_each_indexed
            (fun n (s : option dict * list UpBlock_args * option Z) =>
               vq_config_state config s.1.1 /\
               length s.1.2 = n /\
               (forall j b, s.1.2 !! j = Some b ->
                  decoder_block_of config j b /\
                  wired config (up_name b) (up_use_vq b) (up_vq_config b)) /\
               ((0 < n)%nat ->
                s.2 = Some (stage_channels config
                              (layers config - Z.of_nat n))))
            _ _ (vq, [], None) (vq', dec, ch)) in Hloop.
  - destruct Hloop as (Hst & Hlen & Hblocks & Hch). simpl in *.
    split; [exact Hst|]. split; [exact Hlen|]. split; [exact Hblocks|].
    intros HL. rewrite Hch by (rewrite range_down_length; lia).
    f_equal. f_equal. rewrite range_down_length. lia.
  - simpl. split; [exact Hstate|]. split; [reflexivity|].
    split; [intros j b Hj; discriminate|lia].
  - intros n i [[vq1 dec1] ch1] [[vq2 dec2] ch2] Hi (Hst & Hlen & Hblocks & _)
      Hstep.
    apply range_down_lookup_inv in Hi as [-> Hn].
    apply decoder_step_inv in Hstep
      as (c & s & k & u & b & Hc & Hs & Hk & Hu & Hvq & Hb & -> & ->).
    injection Hb as <-. simpl in Hst, Hlen, Hblocks |- *.
    rewrite Hcc in Hc. rewrite Hcs in Hs. rewrite Hck in Hk. rewrite Hcu in Hu.
    apply map_seq_lookup in Hc as [-> _]. apply map_seq_lookup in Hs as [-> _].
    apply map_seq_lookup in Hk as [-> _]. apply map_seq_lookup in Hu as [-> _].
    destruct (stage_wired config vq1 vq2
                ("up_" +:+ pretty (layers config - 1 - Z.of_nat n)%Z)
                ltac:(right; right; left; eexists; reflexivity) Hst Hvq)
      as [Hst' Hwired].
    assert (Hidx : Z.to_nat (layers config - 1 - Z.of_nat n)
                   = (Z.to_nat (layers config) - 1 - n)%nat) by lia.
    assert (Hidx' : Z.of_nat (Z.to_nat (layers config) - 1 - n)
                    = (layers config - 1 - Z.of_nat n)%Z) by lia.
    split; [exact Hst'|]. split; [rewrite length_app; simpl; lia|]. split.
    + intros j b Hj. apply lookup_app_Some in Hj as [Hj|[Hge Hj]].
      * apply Hblocks, Hj.
      * rewrite Hlen in Hj, Hge. destruct (j - n)%nat as [|m] eqn:Hm;
          [|destruct m; discriminate].
        injection Hj as <-. replace j with n by lia.
        unfold decoder_block_of. simpl. rewrite Hidx, Hidx'.
        repeat split; try reflexivity; apply Hwired.
    + intros _. f_equal. rewrite Hidx. f_equal. lia.
Qed.

(** Everything [UNet.__init__] builds, with constructors that record their
    arguments. *)
Lemma UNet_built (config : Config)
    (self : UNet DownBlock_args UpBlock_args VQBlock_args) :
  UNet_init_recorded config = Ok self ->
  (exists bound, max_num_layers (source_dims config) = Ok bound /\
                 (1 <= layers config <= bound)%Z) /\
  length (encoder self) = Z.to_nat (layers config) /\
  (forall i b, encoder self !! i = Some b ->
     encoder_block_of config i b /\
     wired config (down_name b) (down_use_vq b) (down_vq_config b)) /\
  bottom_block_of config (bottom_layer self) /\
  wired config "bottom" (down_use_vq (bottom_layer self))
        (down_vq_config (bottom_layer self)) /\
  length (decoder self) = Z.to_nat (layers config) /\
  (forall j b, decoder self !! j = Some b ->
     decoder_block_of config j b /\
     wired config (up_name b) (up_use_vq b) (up_vq_config b)) /\
  (if upsample_layer config
   then exists b, upsample_out self = Some b /\
                  upsample_block_of config b /\
                  wired config "upsamp" (up_use_vq b) (up_vq_config b)
   else upsample_out self = None) /\
  (if bool_decide ("final" ∈ vq_keys config)
   then exists v name n,
       output_vq self = Some v /\
       block_stage name /\ configured config name = Some n /\
       vq_num_embeddings v = Int n /\ vq_embedding_dim v = 1%Z /\
       vq_beta_arg v = Float (vq_beta config) /\ vq_name v = "output_vq"
   else output_vq self = None) /\
  vq_config_state config (_vq_config self).
Proof.
  intros Hinit. unfold UNet_init_recorded in Hinit.
  apply UNet_init_inv in Hinit
    as (bound & vq1 & cache & Hbound & Hdepth & Henc & Hdec & _).
  apply get_encoder_inv in Henc
    as (loc & vq0 & c & k & Hsched & Hloop & Hbvq & Hc & Hk & Hbottom & ->).
  apply schedule_loop_scheduled in Hsched.
  pose proof Hsched as Hsched'.
  destruct Hsched' as (_ & _ & _ & _ & _ & _ & Hlast).
  destruct (Z.to_nat (layers config)) as [|m] eqn:HN;
    [destruct Hlast as (Hnone & _); congruence|].
  destruct Hlast as (Hlc & Hls & Hlk).
  assert (Hm : Z.of_nat m = (layers config - 1)%Z) by lia.
  destruct (encoder_loop_built config loc _ vq0 (encoder self)
              (vq_config_state_init config) Hloop) as (Hst0 & Hlen & Hblocks).
  destruct (stage_wired config vq0 vq1 "bottom"
              ltac:(right; left; reflexivity) Hst0 Hbvq) as [Hst1 Hbw].
  injection Hbottom as Hbottom.
  apply get_decoder_inv in Hdec as (vq2 & ch & Hdloop & Hup & Hfinal).
  rewrite <- HN in Hsched.
  destruct (decoder_loop_built config loc vq1 vq2 (decoder self) ch
              Hsched Hst1 Hdloop) as (Hst2 & Hdlen & Hdblocks & Hch).
  assert (Hst3 : vq_config_state config (_vq_config self) /\
                 if upsample_layer config
                 then exists b, upsample_out self = Some b /\
                                upsample_block_of config b /\
                                wired config "upsamp" (up_use_vq b) (up_vq_config b)
                 else upsample_out self = None).
  { destruct (upsample_layer config).
    - destruct Hup as (c' & b & Hvq & -> & Hb & Hout).
      injection Hb as <-.
      destruct (stage_wired config vq2 (_vq_config self) "upsamp"
                  ltac:(right; right; right; reflexivity) Hst2 Hvq)
        as [Hst3 Huw].
      split; [exact Hst3|]. eexists. split; [exact Hout|].
      split; [|exact Huw]. unfold upsample_block_of. simpl.
      specialize (Hch ltac:(lia)). injection Hch as ->. auto.
    - destruct Hup as [<- ->]. auto. }
  destruct Hst3 as [Hst3 Hupsample].
  split; [exists bound; split; [exact Hbound|lia]|].
  split; [rewrite Hlen; exact HN|]. split.
  { intros i b Hi. destruct (Hblocks i b Hi) as (Hn & Hbc & Hbk & Hbs & Hw).
    split; [|exact Hw]. unfold encoder_block_of.
    rewrite HN, <- Hm. replace (S m - 1)%nat with m by lia.
    repeat split; congruence. }
  split.
  { rewrite <- Hbottom. unfold bottom_block_of. simpl.
    rewrite HN, <- Hm. replace (S m - 1)%nat with m by lia.
    repeat split; congruence. }
  split; [rewrite <- Hbottom; exact Hbw|].
  split; [rewrite Hdlen; exact HN|].
  split; [exact Hdblocks|].
  split; [exact Hupsample|]. split; [|exact Hst3].
  destruct (bool_decide ("final" ∈ vq_keys config)); [|exact Hfinal].
  destruct Hfinal as (d & em & be & v & Hvq & Hem & Hbe & Hv & Hout).
  injection Hv as <-. unfold vq_config_state in Hst3. unfold configured.
  destruct (vq_layers config) as [mp|]; [|congruence].
  destruct Hst3 as (d' & Hd' & Hbeta & _ & Hcount).
  rewrite Hvq in Hd'. injection Hd' as <-.
  destruct (Hcount em Hem) as (name & n & Hname & Hn & ->).
  eexists. exists name, n. split; [exact Hout|]. simpl.
  repeat split; try assumption; congruence.
Qed.

(** X7.  In every network built (with constructors that record their
    arguments) there is one encoder block per stage, named [down_i] in
    order, and every one of them, like the bottom block, has the channel
    count of the last stage, [min(nc * 2^(layers - 1), 512)], and the
    kernel of the last step of the source trajectory; the encoder blocks
    have the strides of that step and the bottom block strides (1, 1, 1). *)
Theorem encoder_blocks_of_last_stage (config : Config)
    (self : UNet DownBlock_args UpBlock_args VQBlock_args) :
  UNet_init_recorded config = Ok self ->
  length (encoder self) = Z.to_nat (layers config) /\
  (forall i b, encoder self !! i = Some b -> encoder_block_of config i b) /\
  bottom_block_of config (bottom_layer self).
Proof.
  intros Hinit.
  destruct (UNet_built config self Hinit) as (_ & Hlen & Hblocks & Hbottom & _).
  split; [exact Hlen|]. split; [|exact Hbottom].
  intros i b Hi. apply (Hblocks i b Hi).
Qed.

Lemma encoder_blocks_of_last_stage_witness :
  exists self,
    UNet_init_recorded config_deep = Ok self /\
    length (encoder self) = 6%nat /\
    (forall i b, encoder self !! i = Some b -> encoder_block_of config_deep i b) /\
    bottom_block_of config_deep (bottom_layer self).
Proof.
  destruct (UNet_init_recorded config_deep) as [self|e] eqn:Hinit;
    [|vm_compute in Hinit; discriminate].
  exists self. split; [reflexivity|].
  exact (encoder_blocks_of_last_stage config_deep self Hinit).
Defined.

(** X8.  In every network built there are as many decoder blocks as
    encoder blocks, and the decoder block at position [j] is the block of
    stage [layers - 1 - j]: named [up_(layers-1-j)], with
    [min(nc * 2^(layers-1-j), 512)] channels and the kernel, strides and
    up-sampling factor of that step of the target trajectory.  The block of
    the extra up-sampling stage, present exactly when that stage is
    configured, has the channels of stage 0, kernel (2, 4, 4) and strides
    (1, 2, 2). *)
Theorem decoder_mirrors_schedule (config : Config)
    (self : UNet DownBlock_args UpBlock_args VQBlock_args) :
  UNet_init_recorded config = Ok self ->
  length (decoder self) = length (encoder self) /\
  (forall j b, decoder self !! j = Some b -> decoder_block_of config j b) /\
  (if upsample_layer config
   then exists b, upsample_out self = Some b /\ upsample_block_of config b
   else upsample_out self = None).
Proof.
  intros Hinit.
  destruct (UNet_built config self Hinit)
    as (_ & Hlen & _ & _ & _ & Hdlen & Hblocks & Hup & _).
  split; [congruence|]. split; [intros j b Hj; apply (Hblocks j b Hj)|].
  destruct (upsample_layer config); [|exact Hup].
  destruct Hup as (b & Hb & Hblock & _). exists b. auto.
Qed.

Lemma decoder_mirrors_schedule_witness :
  exists self,
    UNet_init_recorded config_upsample = Ok self /\
    length (decoder self) = length (encoder self) /\
    (forall j b, decoder self !! j = Some b ->
                 decoder_block_of config_upsample j b) /\
    exists b, upsample_out self = Some b /\ upsample_block_of config_upsample b.
Proof.
  destruct (UNet_init_recorded config_upsample) as [self|e] eqn:Hinit;
    [|vm_compute in Hinit; discriminate].
  exists self. split; [reflexivity|].
  exact (decoder_mirrors_schedule config_upsample self Hinit).
Defined.

(** X9.  In every network built, each block stage (encoder, bottom,
    decoder, extra up-sampling) has a quantiser exactly when its name is a
    key of the configured mapping, and then the dictionary handed to its
    constructor holds, under "embeddings", the count configured for that
    very stage, and the commitment weight under "vq_beta". *)
Theorem block_stages_wired (config : Config)
    (self : UNet DownBlock_args UpBlock_args VQBlock_args) :
  UNet_init_recorded config = Ok self ->
  Forall (fun b => wired config (down_name b) (down_use_vq b) (down_vq_config b))
         (encoder self ++ [bottom_layer self]) /\
  Forall (fun b => wired config (up_name b) (up_use_vq b) (up_vq_config b))
         (decoder self ++ option_list (upsample_out self)).
Proof.
  intros Hinit.
  destruct (UNet_built config self Hinit)
    as (_ & _ & Hblocks & (Hbn & _) & Hbw & _ & Hdblocks & Hup & _).
  split; apply Forall_app; split.
  - apply Forall_lookup. intros i b Hi. apply (Hblocks i b Hi).
  - constructor; [|constructor]. rewrite Hbn. exact Hbw.
  - apply Forall_lookup. intros j b Hj. apply (Hdblocks j b Hj).
  - destruct (upsample_layer config).
    + destruct Hup as (b & -> & (Hn & _) & Hw). simpl.
      constructor; [|constructor]. rewrite Hn. exact Hw.
    + rewrite Hup. constructor.
Qed.

Lemma block_stages_wired_witness :
  exists self,
    UNet_init_recorded config_deep = Ok self /\
    Forall (fun b => wired config_deep (down_name b) (down_use_vq b)
                           (down_vq_config b))
           (encoder self ++ [bottom_layer self]) /\
    Forall (fun b => wired config_deep (up_name b) (up_use_vq b) (up_vq_config b))
           (decoder self ++ option_list (upsample_out self)).
Proof.
  destruct (UNet_init_recorded config_deep) as [self|e] eqn:Hinit;
    [|vm_compute in Hinit; discriminate].
  exists self. split; [reflexivity|].
  exact (block_stages_wired config_deep self Hinit).
Defined.

(** X10.  A network built has an output quantiser exactly when "final" is
    a key of the configured mapping; the quantiser has [embedding_dim] 1
    and the configured commitment weight, and its embedding count is the
    count configured for a block stage (an encoder, bottom, decoder or
    up-sampling stage, never the entry of "final" itself). *)
Theorem output_quantiser_count_of_block_stage (config : Config)
    (self : UNet DownBlock_args UpBlock_args VQBlock_args) :
  UNet_init_recorded config = Ok self ->
  (is_Some (output_vq self) <-> "final" ∈ vq_keys config) /\
  (forall v, output_vq self = Some v ->
     vq_embedding_dim v = 1%Z /\
     vq_beta_arg v = Float (vq_beta config) /\
     exists name n, name <> "final" /\ block_stage name /\
                    configured config name = Some n /\
                    vq_num_embeddings v = Int n).
Proof.
  intros Hinit.
  destruct (UNet_built config self Hinit)
    as (_ & _ & _ & _ & _ & _ & _ & _ & Hfinal & _).
  case_bool_decide as Hin.
  - destruct Hfinal as (v & name & n & Hv & Hname & Hn & Hcount & Hdim & Hbeta & _).
    split; [split; [intros _; exact Hin|intros _; rewrite Hv; eauto]|].
    intros v' Hv'. rewrite Hv in Hv'. injection Hv' as <-.
    split; [exact Hdim|]. split; [exact Hbeta|].
    exists name, n. split; [apply block_stage_not_final, Hname|]. auto.
  - rewrite Hfinal. split.
    + split; [intros [v Hv]; discriminate|intros H; contradiction].
    + intros v Hv. discriminate.
Qed.

Lemma output_quantiser_count_of_block_stage_witness :
  exists self,
    UNet_init_recorded config_down_final = Ok self /\
    (is_Some (output_vq self) <-> "final" ∈ vq_keys config_down_final) /\
    (forall v, output_vq self = Some v ->
       vq_embedding_dim v = 1%Z /\
       vq_beta_arg v = Float (Q2Qc 0.25) /\
       exists name n, name <> "final" /\ block_stage name /\
                      configured config_down_final name = Some n /\
                      vq_num_embeddings v = Int n).
Proof.
  destruct (UNet_init_recorded config_down_final) as [self|e] eqn:Hinit;
    [|vm_compute in Hinit; discriminate].
  exists self. split; [reflexivity|].
  exact (output_quantiser_count_of_block_stage config_down_final self Hinit).
Defined.

Lemma depth_check_witness :
  UNet_init_recorded config_too_deep = Raise AssertionError
  <-> (Z.log2 (Z.min 64 64) < 7 \/ 7 < 0)%Z.
Proof.
  apply (depth_check config_too_deep). split; simpl; lia.
Defined.

Section AnyConstructors.

Context {DownBlockT UpBlockT VQBlockT : Type}.
Variable DownBlock : DownBlock_args -> result DownBlockT.
Variable UpBlock : UpBlock_args -> result UpBlockT.
Variable VQBlock : VQBlock_args -> result VQBlockT.

Lemma encoder_loop_state (config : Config) (loc : Locals)
    (vq vq' : option dict) (enc : list DownBlockT) :
  vq_config_state config vq ->
  for_each (range 0 (layers config))
           (encoder_step DownBlock config (vq_keys config) loc) (vq, [])
  = Ok (vq', enc) ->
  vq_config_state config vq' /\ length enc = Z.to_nat (layers config).
Proof.
  intros Hstate Hloop. rewrite <- range_length.
  eapply (for_each_indexed
            (fun n (s : option dict * list DownBlockT) =>
               vq_config_state config s.1 /\ length s.2 = n)
            _ _ (vq, []) (vq', enc)); [| |exact Hloop].
  - split; [exact Hstate|reflexivity].
  - intros n i [vq1 enc1] [vq2 enc2] Hi (Hst & Hlen) Hstep.
    apply encoder_step_inv in Hstep
      as (c & k & s & b & _ & _ & _ & Hvq & _ & ->).
    simpl in Hst, Hlen |- *.
    destruct (stage_wired config vq1 vq2 ("down_" +:+ pretty i)
                ltac:(left; eexists; reflexivity) Hst Hvq) as [Hst' _].
    split; [exact Hst'|]. rewrite length_app. simpl. lia.
Qed.

Lemma decoder_loop_state (config : Config) (cache : Cache)
    (vq vq' : option dict) (dec : list UpBlockT) (ch : option Z) :
  vq_config_state config vq ->
  for_each (range_down (layers config - 1) (-1))
           (decoder_step UpBlock config (vq_keys config) cache) (vq, [], None)
  = Ok (vq', dec, ch) ->
  vq_config_state config vq' /\ length dec = Z.to_nat (layers config).
Proof.
  intros Hstate Hloop. rewrite <- (range_down_length (layers config)).
  eapply (for_each_indexed
            (fun n (s : option dict * list UpBlockT * option Z) =>
               vq_config_state config s.1.1 /\ length s.1.2 = n)
            _ _ (vq, [], None) (vq', dec, ch)); [| |exact Hloop].
  - split; [exact Hstate|reflexivity].
  - intros n i [[vq1 dec1] ch1] [[vq2 dec2] ch2] Hi (Hst & Hlen) Hstep.
    apply decoder_step_inv in Hstep
      as (c & s & k & u & b & _ & _ & _ & _ & Hvq & _ & -> & _).
    simpl in Hst, Hlen |- *.
    destruct (stage_wired config vq1 vq2 ("up_" +:+ pretty i)
                ltac:(right; right; left; eexists; reflexivity) Hst Hvq)
      as [Hst' _].
    split; [exact Hst'|]. rewrite length_app. simpl. lia.
Qed.

(** The shape of a network built with any block constructors. *)
Lemma UNet_shape (config : Config) (self : UNet DownBlockT UpBlockT VQBlockT) :
  UNet_init DownBlock UpBlock VQBlock config = Ok self ->
  (exists bound, max_num_layers (source_dims config) = Ok bound /\
                 (1 <= layers config <= bound)%Z) /\
  length (encoder self) = Z.to_nat (layers config) /\
  length (decoder self) = Z.to_nat (layers config) /\
  _upsample_layer self = upsample_layer config /\
  _residual self = residual config /\
  (is_Some (upsample_out self) <-> upsample_layer config = true) /\
  (is_Some (output_vq self) <-> "final" ∈ vq_keys config) /\
  ("final" ∈ vq_keys config ->
   exists name, block_stage name /\ name ∈ vq_keys config).
Proof.
  intros Hinit.
  apply UNet_init_inv in Hinit
    as (bound & vq1 & cache & Hbound & Hdepth & Henc & Hdec & Hul & Hres & _).
  apply get_encoder_inv in Henc
    as (loc & vq0 & c & k & Hsched & Hloop & Hbvq & Hc & _ & _ & ->).
  apply schedule_loop_scheduled in Hsched.
  destruct Hsched as (_ & _ & _ & _ & _ & _ & Hlast).
  assert (HL : (1 <= layers config)%Z).
  { destruct (Z.to_nat (layers config)) as [|m] eqn:HN; [|lia].
    destruct Hlast as (Hnone & _). congruence. }
  destruct (encoder_loop_state config loc _ vq0 (encoder self)
              (vq_config_state_init config) Hloop) as (Hst0 & Hlen).
  destruct (stage_wired config vq0 vq1 "bottom"
              ltac:(right; left; reflexivity) Hst0 Hbvq) as [Hst1 _].
  apply get_decoder_inv in Hdec as (vq2 & ch & Hdloop & Hup & Hfinal).
  destruct (decoder_loop_state config _ vq1 vq2 (decoder self) ch Hst1 Hdloop)
    as (Hst2 & Hdlen).
  split; [exists bound; split; [exact Hbound|lia]|].
  split; [exact Hlen|]. split; [exact Hdlen|].
  split; [exact Hul|]. split; [exact Hres|].
  assert (Hst3 : vq_config_state config (_vq_config self) /\
                 (is_Some (upsample_out self) <-> upsample_layer config = true)).
  { destruct (upsample_layer config).
    - destruct Hup as (c' & b & Hvq & _ & _ & ->).
      destruct (stage_wired config vq2 (_vq_config self) "upsamp"
                  ltac:(right; right; right; reflexivity) Hst2 Hvq) as [Hst3 _].
      split; [exact Hst3|]. split; [reflexivity|eauto].
    - destruct Hup as [<- ->]. split; [exact Hst2|].
      split; [intros [b Hb]; discriminate|discriminate]. }
  destruct Hst3 as [Hst3 Hupsample]. split; [exact Hupsample|].
  case_bool_decide as Hin.
  - destruct Hfinal as (d & em & be & v & Hvq & Hem & _ & _ & ->).
    split; [split; eauto|]. intros _.
    unfold vq_config_state in Hst3. unfold vq_keys.
    destruct (vq_layers config) as [mp|]; [|congruence].
    destruct Hst3 as (d' & Hd' & _ & _ & Hcount).
    rewrite Hvq in Hd'. injection Hd' as <-.
    destruct (Hcount em Hem) as (name & n & Hname & Hn & _).
    exists name. split; [exact Hname|]. apply elem_of_dom. eauto.
  - rewrite Hfinal. split; [|contradiction].
    split; [intros [v Hv]; discriminate|contradiction].
Qed.

End AnyConstructors.

(** X12.  On every network built by [UNet.__init__], whatever the block
    constructors and whatever the layers compute, [UNet.call] returns: the
    final projection is the final layer applied to the U composition of
    the blocks (through the up-sampling block when there is one), the
    primary output adds the (up-sampled) input exactly when residual
    learning is configured, and there is a secondary output exactly when
    "final" is a key of the configured mapping. *)
Theorem call_on_built_network
    {tensor DownBlockT UpBlockT VQBlockT : Type}
    (DownBlock : DownBlock_args -> result DownBlockT)
    (UpBlock : UpBlock_args -> result UpBlockT)
    (VQBlock : VQBlock_args -> result VQBlockT)
    (t_add : tensor -> tensor -> tensor)
    (call_down : DownBlockT -> tensor -> tensor * tensor)
    (call_up : UpBlockT -> tensor -> tensor -> tensor)
    (call_vq : VQBlockT -> tensor -> tensor)
    (upsample_in final_layer : tensor -> tensor)
    (config : Config) (self : UNet DownBlockT UpBlockT VQBlockT) (x : tensor) :
  UNet_init DownBlock UpBlock VQBlock config = Ok self ->
  exists y secondary,
    final_projection call_down call_up upsample_in final_layer self x = Ok y /\
    y = final_layer
          (let u := u_shape call_down call_up (bottom_layer self)
                            (zip (encoder self) (rev (decoder self))) x in
           match upsample_out self with
           | Some up => call_up up u (upsample_in x)
           | None => u
           end) /\
    unet_py.call t_add call_down call_up call_vq upsample_in final_layer self x
    = Ok (if residual config
          then t_add y (if upsample_layer config then upsample_in x else x)
          else y,
          secondary) /\
    (is_Some secondary <-> "final" ∈ vq_keys config).
Proof.
  intros Hinit.
  destruct (UNet_shape DownBlock UpBlock VQBlock config self Hinit)
    as (_ & Hlen & Hdlen & Hul & Hres & Hup & Hfinal & _).
  pose proof (final_projection_nested call_down call_up upsample_in final_layer
                self x ltac:(congruence)) as Hproj.
  simpl in Hproj. rewrite Hul in Hproj.
  assert (Hy : final_projection call_down call_up upsample_in final_layer self x
               = Ok (final_layer
                       (match upsample_out self with
                        | Some up =>
                            call_up up
                              (u_shape call_down call_up (bottom_layer self)
                                 (zip (encoder self) (rev (decoder self))) x)
                              (upsample_in x)
                        | None =>
                            u_shape call_down call_up (bottom_layer self)
                              (zip (encoder self) (rev (decoder self))) x
                        end))).
  { rewrite Hproj. destruct (upsample_layer config) eqn:Hflag.
    - destruct (proj2 Hup eq_refl) as [up ->]. reflexivity.
    - destruct (upsample_out self) as [up|] eqn:Hout; [|reflexivity].
      assert (false = true) by (apply Hup; eauto). discriminate. }
  unfold unet_py.call. rewrite Hy. simpl. unfold upsampled. rewrite Hul, Hres.
  destruct (output_vq self) as [vq|] eqn:Hvq.
  - destruct (residual config); simpl; eexists _, _;
      (split; [reflexivity|]); (split; [reflexivity|]);
      (split; [reflexivity|]); rewrite <- Hfinal; split; eauto.
  - destruct (residual config); simpl; eexists _, _;
      (split; [reflexivity|]); (split; [reflexivity|]);
      (split; [reflexivity|]); rewrite <- Hfinal;
      (split; [intros [v Hv]; discriminate|intros [v Hv]; discriminate]).
Qed.

Lemma call_on_built_network_witness :
  exists self y secondary,
    UNet_init_recorded config_upsample = Ok self /\
    final_projection (fun b x => (x + down_nc b, x)%Z)
                     (fun b x skip => (x * up_nc b + skip)%Z)
                     (fun x => (2 * x)%Z) (fun x => (x - 1)%Z) self 3%Z = Ok y /\
    y = ((match upsample_out self with
          | Some up =>
              (u_shape (fun b x => (x + down_nc b, x)%Z)
                       (fun b x skip => (x * up_nc b + skip)%Z)
                       (bottom_layer self)
                       (zip (encoder self) (rev (decoder self))) 3
               * up_nc up + 2 * 3)%Z
          | None =>
              u_shape (fun b x => (x + down_nc b, x)%Z)
                      (fun b x skip => (x * up_nc b + skip)%Z)
                      (bottom_layer self)
                      (zip (encoder self) (rev (decoder self))) 3%Z
          end) - 1)%Z /\
    unet_py.call Z.add (fun b x => (x + down_nc b, x)%Z)
                 (fun b x skip => (x * up_nc b + skip)%Z)
                 (fun _ x => (x / 2)%Z) (fun x => (2 * x)%Z) (fun x => (x - 1)%Z)
                 self 3%Z
    = Ok ((y + 2 * 3)%Z, secondary) /\
    (is_Some secondary <-> "final" ∈ vq_keys config_upsample).
Proof.
  destruct (UNet_init_recorded config_upsample) as [self|e] eqn:Hinit;
    [|vm_compute in Hinit; discriminate].
  destruct (call_on_built_network recorded recorded recorded Z.add
              (fun b x => (x + down_nc b, x)%Z)
              (fun b x skip => (x * up_nc b + skip)%Z)
              (fun _ x => (x / 2)%Z) (fun x => (2 * x)%Z) (fun x => (x - 1)%Z)
              config_upsample self 3%Z Hinit)
    as (y & secondary & Hy & Hu & Hcall & Hsec).
  exists self, y, secondary. split; [reflexivity|]. split; [exact Hy|].
  split; [exact Hu|]. split; [exact Hcall|exact Hsec].
Defined.

(** X13.  Whatever the block constructors, for a source at least one
    pixel and less than 2^32 pixels high and wide [UNet.__init__] builds
    a network only for a depth between 1 and
    [floor(log2(min(height, width)))]; the network then has [layers]
    encoder blocks and [layers] decoder blocks; and when "final" is a key
    of the configured mapping, some block stage is a key too: a mapping
    that quantises only the output never gives a network. *)
Theorem built_network_shape
    {DownBlockT UpBlockT VQBlockT : Type}
    (DownBlock : DownBlock_args -> result DownBlockT)
    (UpBlock : UpBlock_args -> result UpBlockT)
    (VQBlock : VQBlock_args -> result VQBlockT)
    (config : Config) (self : UNet DownBlockT UpBlockT VQBlockT) :
  plane_in_range config ->
  UNet_init DownBlock UpBlock VQBlock config = Ok self ->
  (1 <= layers config
   <= Z.log2 (Z.min (source_dims config).1.2 (source_dims config).2))%Z /\
  length (encoder self) = Z.to_nat (layers config) /\
  length (decoder self) = Z.to_nat (layers config) /\
  ("final" ∈ vq_keys config ->
   exists name, block_stage name /\ name <> "final" /\ name ∈ vq_keys config).
Proof.
  intros _ Hinit.
  destruct (UNet_shape DownBlock UpBlock VQBlock config self Hinit)
    as ((bound & Hbound & Hdepth) & Hlen & Hdlen & _ & _ & _ & _ & Hfinal).
  split.
  { unfold max_num_layers in Hbound.
    destruct (_ =? 0)%Z; [discriminate|]. destruct (_ <? 0)%Z; [discriminate|].
    injection Hbound as <-. exact Hdepth. }
  split; [exact Hlen|]. split; [exact Hdlen|].
  intros Hin. destruct (Hfinal Hin) as (name & Hname & Hkey).
  exists name. split; [exact Hname|].
  split; [apply block_stage_not_final, Hname|exact Hkey].
Qed.

Lemma built_network_shape_witness :
  exists self,
    plane_in_range config_down_final /\
    UNet_init_recorded config_down_final = Ok self /\
    (1 <= 1 <= Z.log2 (Z.min 4 4))%Z /\
    length (encoder self) = 1%nat /\
    length (decoder self) = 1%nat /\
    ("final" ∈ vq_keys config_down_final ->
     exists name, block_stage name /\ name <> "final" /\
                  name ∈ vq_keys config_down_final).
Proof.
  destruct (UNet_init_recorded config_down_final) as [self|e] eqn:Hinit;
    [|vm_compute in Hinit; discriminate].
  assert (Hsize : plane_in_range config_down_final) by (split; simpl; lia).
  exists self. split; [exact Hsize|]. split; [reflexivity|].
  exact (built_network_shape recorded recorded recorded
           config_down_final self Hsize Hinit).
Defined.

(** Volumes of at least four slices. *)
Lemma halve_thick (d0 h w : Z) :
  (4 <= d0)%Z ->
  halve (d0, h, w) = ((1, 2, 2), (2, 4, 4), (d0, h / 2, w / 2))%Z.
Proof.
  intros Hd. unfold halve.
  destruct (Z.ltb_spec (d0 / 2) 2) as [Hlt|Hge]; [|reflexivity].
  exfalso. pose proof (Z.div_le_mono 4 d0 2 ltac:(lia) Hd) as Hdiv.
  change (4 / 2)%Z with 2%Z in Hdiv. lia.
Qed.

Lemma dims_after_thick (n : nat) (d0 h w : Z) :
  (4 <= d0)%Z ->
  dims_after n (d0, h, w)
  = (d0, h / 2 ^ Z.of_nat n, w / 2 ^ Z.of_nat n)%Z.
Proof.
  intros Hd. induction n as [|n IH].
  - simpl. rewrite !Z.div_1_r. reflexivity.
  - cbn [dims_after]. rewrite IH, halve_thick by exact Hd. simpl snd.
    rewrite Nat2Z.inj_succ, Z.pow_succ_r by lia.
    rewrite !Z.div_div by lia. rewrite (Z.mul_comm 2). reflexivity.
Qed.

Lemma stage_thick (dims : triple) (i : nat) :
  (4 <= dims.1.1)%Z ->
  in_plane (stage_strides dims i) (stage_kernel dims i) /\
  (dims_after i dims).1.1 = dims.1.1.
Proof.
  destruct dims as [[d0 h] w]. simpl. intros Hd.
  unfold in_plane, stage_strides, stage_kernel.
  rewrite dims_after_thick, halve_thick by exact Hd. auto.
Qed.

(** X14.  For a source and a target of at least four slices the slice axis
    is never down-sampled: in every network built, all encoder and decoder
    blocks have strides (1, 2, 2) and kernel (2, 4, 4), the bottom block
    has that kernel too, and every decoder block has the up-sampling factor
    [target slices // source slices]. *)
Theorem thick_volumes_in_plane (config : Config)
    (self : UNet DownBlock_args UpBlock_args VQBlock_args) :
  (4 <= (source_dims config).1.1)%Z ->
  (4 <= (target_dims config).1.1)%Z ->
  UNet_init_recorded config = Ok self ->
  Forall (fun b => in_plane (down_strides b) (down_weights b)) (encoder self) /\
  down_weights (bottom_layer self) = (2, 4, 4)%Z /\
  Forall (fun b => in_plane (up_strides b) (up_weights b) /\
                   up_upsamp_factor b
                   = ((target_dims config).1.1 / (source_dims config).1.1)%Z)
         (decoder self).
Proof.
  intros Hs Ht Hinit.
  destruct (UNet_built config self Hinit)
    as (_ & _ & Hblocks & (_ & _ & Hbk & _) & _ & _ & Hdblocks & _).
  split; [|split].
  - apply Forall_lookup. intros i b Hi.
    destruct (Hblocks i b Hi) as ((_ & _ & Hk & Hst) & _).
    rewrite Hk, Hst. apply stage_thick, Hs.
  - rewrite Hbk. apply (stage_thick (source_dims config)), Hs.
  - apply Forall_lookup. intros j b Hj.
    destruct (Hdblocks j b Hj) as ((_ & _ & Hk & Hst & Hu) & _).
    rewrite Hk, Hst, Hu. split; [apply stage_thick, Ht|].
    unfold stage_upsamp_factor.
    rewrite (proj2 (stage_thick (source_dims config) _ Hs)).
    rewrite (proj2 (stage_thick (target_dims config) _ Ht)). reflexivity.
Qed.

Lemma thick_volumes_in_plane_witness :
  exists self,
    UNet_init_recorded config_deep = Ok self /\
    Forall (fun b => in_plane (down_strides b) (down_weights b)) (encoder self) /\
    down_weights (bottom_layer self) = (2, 4, 4)%Z /\
    Forall (fun b => in_plane (up_strides b) (up_weights b) /\
                     up_upsamp_factor b = (8 / 8)%Z)
           (decoder self).
Proof.
  destruct (UNet_init_recorded config_deep) as [self|e] eqn:Hinit;
    [|vm_compute in Hinit; discriminate].
  exists self. split; [reflexivity|].
  apply (thick_volumes_in_plane config_deep self); [simpl; lia|simpl; lia|].
  exact Hinit.
Defined.

Lemma range_head (L : Z) :
  (1 <= L)%Z -> exists rest, range 0 L = 0%Z :: rest.
Proof.
  intros HL. unfold range.
  destruct (Z.to_nat (L - 0)) as [|m] eqn:Hm; [lia|]. simpl. eauto.
Qed.

Lemma range_head2 (L : Z) :
  (2 <= L)%Z -> exists rest, range 0 L = 0%Z :: 1%Z :: rest.
Proof.
  intros HL. unfold range.
  destruct (Z.to_nat (L - 0)) as [|[|m]] eqn:Hm; [lia|lia|]. simpl. eauto.
Qed.

(** X15.  For a source at least one pixel and less than 2^32 pixels high
    and wide, of one slice at any valid depth of at least 1 or of two or
    three slices at any valid depth of at least 2, [UNet.__init__] raises
    ZeroDivisionError, whatever the block
    constructors and the rest of the configuration: the slice axis of the
    source trajectory reaches 0 and the up-sampling factor divides by it. *)
Theorem thin_source_divides_by_zero
    {DownBlockT UpBlockT VQBlockT : Type}
    (DownBlock : DownBlock_args -> result DownBlockT)
    (UpBlock : UpBlock_args -> result UpBlockT)
    (VQBlock : VQBlock_args -> result VQBlockT)
    (config : Config) :
  plane_in_range config ->
  (layers config
   <= Z.log2 (Z.min (source_dims config).1.2 (source_dims config).2))%Z ->
  ((source_dims config).1.1 = 1 /\ 1 <= layers config \/
   2 <= (source_dims config).1.1 <= 3 /\ 2 <= layers config)%Z ->
  UNet_init DownBlock UpBlock VQBlock config = Raise ZeroDivisionError.
Proof.
  intros [Hh Hw] Hdepth Hthin.
  assert (Hmin : (0 < Z.min (source_dims config).1.2 (source_dims config).2)%Z)
    by lia.
  unfold UNet_init, max_num_layers.
  destruct (Z.eqb_spec (Z.min (source_dims config).1.2 (source_dims config).2) 0);
    [lia|].
  destruct (Z.ltb_spec (Z.min (source_dims config).1.2 (source_dims config).2) 0);
    [lia|].
  unfold mbind at 1, result_bind at 1.
  replace (layers config <=? _)%Z with true by (symmetry; apply Z.leb_le; lia).
  replace (layers config >=? 0)%Z with true by (symmetry; apply Z.geb_le; lia).
  simpl negb. cbv iota.
  assert (Hloop :
    for_each (range 0 (layers config)) (schedule_step config)
      {| channels := None; source_strides := None; source_kernel := None;
         loc_source_dims := source_dims config;
         loc_target_dims := target_dims config;
         loc_cache := {| cache_channels := []; cache_strides := [];
                         cache_kernels := []; cache_upsamp_factor := [] |} |}
    = Raise ZeroDivisionError).
  { destruct (source_dims config) as [[d0 h] w]. simpl in Hthin.
    destruct Hthin as [[-> HL]|[Hd HL]].
    - destruct (range_head _ HL) as [rest ->]. simpl.
      unfold schedule_step. simpl.
      destruct (halve (target_dims config)) as [[ts tk] td]. reflexivity.
    - destruct (range_head2 _ HL) as [rest ->].
      assert (Hfirst : halve (d0, h, w)
                       = ((2, 2, 2), (4, 4, 4), (1, h / 2, w / 2))%Z).
      { unfold halve. assert (d0 / 2 = 1)%Z as ->
          by (assert (d0 = 2 \/ d0 = 3)%Z as [-> | ->] by lia; reflexivity).
        reflexivity. }
      cbn [for_each]. unfold schedule_step at 1.
      cbn [loc_source_dims loc_target_dims loc_cache]. rewrite Hfirst.
      destruct (halve (target_dims config)) as [[ts tk] td]. simpl.
      unfold schedule_step. simpl.
      destruct (halve td) as [[ts' tk'] td']. reflexivity. }
  unfold get_encoder. rewrite Hloop. reflexivity.
Qed.

Lemma thin_source_divides_by_zero_witness :
  UNet_init_recorded config_one_slice = Raise ZeroDivisionError.
Proof.
  apply (thin_source_divides_by_zero recorded recorded recorded config_one_slice).
  - split; simpl; lia.
  - vm_compute. discriminate.
  - left. simpl. lia.
Defined.

(** Loops whose rounds all succeed. *)
Lemma for_each_ok_indexed {St A} (P : nat -> St -> Prop) (l : list A)
    (body : St -> A -> result St) (s0 : St) :
  P 0%nat s0 ->
  (forall n i s, l !! n = Some i -> P n s ->
                 exists s1, body s i = Ok s1 /\ P (S n) s1) ->
  exists s', for_each l body s0 = Ok s' /\ P (length l) s'.
Proof.
  revert P s0; induction l as [|a l IH]; intros P s0 H0 Hstep; simpl.
  - exists s0. auto.
  - destruct (Hstep 0%nat a s0 eq_refl H0) as (s1 & Hbody & H1).
    rewrite Hbody. apply (IH (fun n => P (S n))); [exact H1|].
    intros n i s Hi. apply (Hstep (S n) i s Hi).
Qed.

Lemma set_embeddings_ok (config : Config) (vq : option dict) (name : string) :
  name ∈ vq_keys config ->
  vq_config_state config vq ->
  exists vq', set_embeddings config vq name = Ok vq' /\ has_embeddings vq'.
Proof.
  unfold vq_keys, vq_config_state, set_embeddings, getitem, has_embeddings.
  destruct (vq_layers config) as [m|]; [|intros H; apply not_elem_of_empty in H; destruct H].
  intros Hin (d & -> & _). apply elem_of_dom in Hin as [n Hn]. rewrite Hn. simpl.
  eexists. split; [reflexivity|]. eexists. split; [reflexivity|].
  rewrite lookup_insert_eq. eauto.
Qed.

Lemma stage_ok (config : Config) (vq : option dict) (name : string) :
  block_stage name ->
  vq_config_state config vq ->
  exists vq',
    (if bool_decide (name ∈ vq_keys config)
     then set_embeddings config vq name else Ok vq) = Ok vq' /\
    vq_config_state config vq' /\
    (has_embeddings vq \/ name ∈ vq_keys config -> has_embeddings vq').
Proof.
  intros Hname Hstate. case_bool_decide as Hin.
  - destruct (set_embeddings_ok config vq name Hin Hstate) as (vq' & Hset & Hemb).
    exists vq'. split; [exact Hset|]. split; [|auto].
    apply (set_embeddings_state config vq vq' name Hname Hstate Hset).
  - exists vq. split; [reflexivity|]. split; [exact Hstate|].
    intros [H|H]; [exact H|contradiction].
Qed.

Lemma schedule_loop_ok (config : Config) :
  (4 <= (source_dims config).1.1)%Z ->
  exists loc,
    for_each (range 0 (layers config)) (schedule_step config)
      {| channels := None; source_strides := None; source_kernel := None;
         loc_source_dims := source_dims config;
         loc_target_dims := target_dims config;
         loc_cache := {| cache_channels := []; cache_strides := [];
                         cache_kernels := []; cache_upsamp_factor := [] |} |}
    = Ok loc /\
    scheduled config (Z.to_nat (layers config)) loc.
Proof.
  intros Hthick. rewrite <- range_length.
  apply (for_each_ok_indexed (scheduled config)); [repeat split|].
  intros n i loc Hi Hn. apply range_lookup_inv in Hi as [-> _].
  assert (Hstep : exists loc', schedule_step config loc (Z.of_nat n) = Ok loc').
  { destruct Hn as (Hs & _). unfold schedule_step. rewrite Hs.
    pose proof (proj2 (stage_thick (source_dims config) (S n) Hthick)) as Hd0.
    cbn [dims_after] in Hd0.
    destruct (halve (dims_after n (source_dims config))) as [[ss sk] sd].
    destruct (halve (loc_target_dims loc)) as [[ts tk] td].
    simpl in Hd0. unfold floordiv.
    destruct (Z.eqb_spec sd.1.1 0) as [Hz|Hnz]; [lia|]. simpl. eauto. }
  destruct Hstep as [loc' Hstep]. exists loc'. split; [exact Hstep|].
  exact (schedule_step_scheduled config n loc loc' Hn Hstep).
Qed.

(** X16.  Construction succeeds (with constructors that record their
    arguments) for every configuration with a source at least one pixel
    and less than 2^32 pixels high and wide, of at least four slices, a
    depth between 1 and
    [floor(log2(min(height, width)))], and a mapping in which "final" is
    quantised only together with "bottom". *)
Theorem construction_succeeds (config : Config) :
  plane_in_range config ->
  (1 <= layers config
   <= Z.log2 (Z.min (source_dims config).1.2 (source_dims config).2))%Z ->
  (4 <= (source_dims config).1.1)%Z ->
  ("final" ∈ vq_keys config -> "bottom" ∈ vq_keys config) ->
  exists self, UNet_init_recorded config = Ok self.
Proof.
  intros [Hh Hw] Hdepth Hthick Hfinal.
  assert (Hmin : (0 < Z.min (source_dims config).1.2 (source_dims config).2)%Z)
    by lia.
  unfold UNet_init_recorded, UNet_init, max_num_layers.
  destruct (Z.eqb_spec (Z.min (source_dims config).1.2 (source_dims config).2) 0);
    [lia|].
  destruct (Z.ltb_spec (Z.min (source_dims config).1.2 (source_dims config).2) 0);
    [lia|].
  unfold mbind at 1, result_bind at 1.
  replace (layers config <=? _)%Z with true by (symmetry; apply Z.leb_le; lia).
  replace (layers config >=? 0)%Z with true by (symmetry; apply Z.geb_le; lia).
  simpl negb. cbv iota. fold (vq_keys config).
  (* get_encoder *)
  destruct (schedule_loop_ok config Hthick) as (loc & Hloc & Hsched).
  pose proof Hsched as (_ & _ & Hcc & Hcs & Hck & Hcu & Hlast).
  destruct (Z.to_nat (layers config)) as [|m] eqn:HN; [lia|].
  destruct Hlast as (Hlc & Hls & Hlk).
  destruct (for_each_ok_indexed
              (fun (n : nat) (s : option dict * list DownBlock_args) =>
                 vq_config_state config s.1)
              (range 0 (layers config))
              (encoder_step recorded config (vq_keys config) loc)
              (match vq_layers config with
               | Some _ => Some {[ "vq_beta" := Float (vq_beta config) ]}
               | None => None
               end, []))
    as ([vq0 enc] & Henc & Hst0).
  { apply vq_config_state_init. }
  { intros k i [vq1 enc1] Hi Hst. simpl in Hst.
    destruct (stage_ok config vq1 ("down_" +:+ pretty i)
                ltac:(left; eexists; reflexivity) Hst) as (vq2 & Hvq & Hst' & _).
    unfold encoder_step. rewrite Hvq, Hlc, Hls, Hlk. simpl.
    eexists. split; [reflexivity|exact Hst']. }
  simpl in Hst0.
  destruct (stage_ok config vq0 "bottom" ltac:(right; left; reflexivity) Hst0)
    as (vq1 & Hbvq & Hst1 & Hemb1).
  unfold get_encoder. rewrite Hloc. simpl. rewrite Henc. simpl.
  rewrite Hbvq, Hlc, Hlk. simpl.
  (* get_decoder *)
  destruct (for_each_ok_indexed
              (fun (n : nat) (s : option dict * list UpBlock_args * option Z) =>
                 vq_config_state config s.1.1 /\
                 (has_embeddings vq1 -> has_embeddings s.1.1) /\
                 ((0 < n)%nat -> is_Some s.2))
              (range_down (layers config - 1) (-1))
              (decoder_step recorded config (vq_keys config) (loc_cache loc))
              (vq1, [], None))
    as ([[vq2 dec] ch] & Hdec & Hst2 & Hemb2 & Hch).
  { simpl. split; [exact Hst1|]. split; [auto|lia]. }
  { intros k i [[vqa deca] cha] Hi (Hst & Hemb & _). simpl in Hst, Hemb.
    apply range_down_lookup_inv in Hi as [-> Hk].
    destruct (stage_ok config vqa
                ("up_" +:+ pretty (layers config - 1 - Z.of_nat k)%Z)
                ltac:(right; right; left; eexists; reflexivity) Hst)
      as (vqb & Hvq & Hst' & Hemb').
    unfold decoder_step, index. rewrite Hcc, Hcs, Hck, Hcu.
    rewrite !map_fmap, !list_lookup_fmap.
    rewrite (lookup_seq_lt 0 (S m) (Z.to_nat (layers config - 1 - Z.of_nat k)))
      by lia.
    simpl. rewrite Hvq. simpl. eexists. split; [reflexivity|].
    simpl. split; [exact Hst'|]. split; [auto|eauto]. }
  simpl in Hst2, Hemb2, Hch. rewrite range_down_length in Hch.
  destruct (Hch ltac:(lia)) as [c ->].
  unfold get_decoder. rewrite Hdec. simpl.
  assert (Hlast : forall vq3 : option dict,
            vq_config_state config vq3 ->
            (has_embeddings vq1 -> has_embeddings vq3) ->
            "final" ∈ vq_keys config ->
            exists d em,
              vq3 = Some d /\ d !! "embeddings" = Some em /\
              d !! "vq_beta" = Some (Float (vq_beta config))).
  { intros vq3 Hst3 Hemb3 Hin.
    destruct (Hemb3 (Hemb1 (or_intror (Hfinal Hin)))) as (d & -> & em & Hem).
    unfold vq_config_state in Hst3.
    destruct (vq_layers config) as [mp|]; [|discriminate].
    destruct Hst3 as (d' & [= <-] & Hbeta & _). eauto. }
  destruct (upsample_layer config).
  - destruct (stage_ok config vq2 "upsamp"
                ltac:(right; right; right; reflexivity) Hst2)
      as (vq3 & Hvq & Hst3 & Hemb3).
    rewrite Hvq. simpl.
    destruct (bool_decide ("final" ∈ vq_keys config)) eqn:Hin;
      [|eexists; reflexivity].
    apply bool_decide_eq_true in Hin.
    destruct (Hlast vq3 Hst3 ltac:(auto) Hin) as (d & em & -> & Hem & Hbeta).
    unfold getitem. rewrite Hem, Hbeta. simpl. eexists. reflexivity.
  - simpl.
    destruct (bool_decide ("final" ∈ vq_keys config)) eqn:Hin;
      [|eexists; reflexivity].
    apply bool_decide_eq_true in Hin.
    destruct (Hlast vq2 Hst2 Hemb2 Hin) as (d & em & -> & Hem & Hbeta).
    unfold getitem. rewrite Hem, Hbeta. simpl. eexists. reflexivity.
Qed.

Lemma construction_succeeds_witness :
  exists self, UNet_init_recorded config_bottom_final = Ok self.
Proof.
  apply (construction_succeeds config_bottom_final).
  - split; simpl; lia.
  - split; [simpl; lia|vm_compute; discriminate].
  - simpl. lia.
  - intros _. vm_compute. reflexivity.
Defined.

(* ===================================================================== *)
(** ** Properties of [layer/layers.py] *)
(* ===================================================================== *)

Import tf vq_layers_py.

(** The quantiser of [layer/layers.py] computes what the one of
    [layers/vq_layers.py] computes, whatever the time value. *)
Lemma layers_call_plain (layer : layers_py.VQBlock) (x : Tensor)
    (t : option Tensor) :
  layers_py.call layer x t = call (to_plain layer) x.
Proof.
  destruct layer as [K D b dict]. unfold layers_py.call, call, quantized, to_plain.
  simpl. destruct (reshape_rows x D) as [flat|]; [|reflexivity]. simpl.
  change (layers_py.get_code_indices
            {| layers_py.num_embeddings := K; layers_py.embedding_dim := D;
               layers_py.beta := b; layers_py.dictionary := dict |} flat)
    with (get_code_indices
            {| num_embeddings := K; embedding_dim := D; beta := b;
               dictionary := dict |} flat).
  destruct (get_code_indices _ flat) as [code_idx|]; [|reflexivity]. simpl.
  change layers_py.WEIGHT_SCALE with WEIGHT_SCALE.
  destruct (if (D =? 1)%nat then _ else _) as [quantized|]; [|reflexivity].
  simpl. destruct (reshape quantized (shape x)) as [q|]; reflexivity.
Qed.

Lemma quantise_time_independent (self : layers_py.Quantiser) (x : Tensor)
    (t t' : option Tensor) :
  layers_py.quantise self x t = layers_py.quantise self x t'.
Proof.
  unfold layers_py.quantise.
  destruct (layers_py.use_vq self && layers_py.is_False (layers_py.vq_time self));
    [reflexivity|].
  destruct (layers_py.use_vq self && layers_py.is_True (layers_py.vq_time self));
    [|reflexivity].
  destruct (layers_py.vq self) as [layer|]; [|reflexivity]. simpl.
  rewrite !layers_call_plain. reflexivity.
Qed.

Lemma with_time_untimed (time_concat : Tensor -> Tensor -> Tensor)
    (self : layers_py.Quantiser) (x : Tensor) (t : option Tensor) :
  layers_py.is_False (layers_py.vq_time self) = false ->
  layers_py.with_time time_concat self x t = x.
Proof.
  intros H. unfold layers_py.with_time. rewrite H. destruct t; reflexivity.
Qed.

(** X17.  In a block whose quantiser is given the time value ([vq_time] is
    True) the time value has no effect at all: it is not concatenated as a
    channel, and the quantiser does not read it, so all four blocks return
    the same result for any two time values, given or not. *)
Theorem timed_quantiser_ignores_time
    (conv1 conv2 tconv conv inst_norm_1 inst_norm_2 inst_norm_t
       : Tensor -> Tensor)
    (concat time_concat : Tensor -> Tensor -> Tensor)
    (self : layers_py.Quantiser) (x skip : Tensor) (t t' : option Tensor) :
  layers_py.vq_time self = py.Bool true ->
  layers_py.DownBlock_call conv1 conv2 inst_norm_1 inst_norm_2 time_concat self x t
  = layers_py.DownBlock_call conv1 conv2 inst_norm_1 inst_norm_2 time_concat
      self x t' /\
  layers_py.BottomBlock_call conv1 conv2 inst_norm_1 inst_norm_2 time_concat
    self x t
  = layers_py.BottomBlock_call conv1 conv2 inst_norm_1 inst_norm_2 time_concat
      self x t' /\
  layers_py.UpBlock_call conv1 conv2 tconv inst_norm_1 inst_norm_2 inst_norm_t
    concat time_concat self x skip t
  = layers_py.UpBlock_call conv1 conv2 tconv inst_norm_1 inst_norm_2 inst_norm_t
      concat time_concat self x skip t' /\
  layers_py.UpBlockNoSkip_call tconv conv inst_norm_1 inst_norm_2 time_concat
    self x t
  = layers_py.UpBlockNoSkip_call tconv conv inst_norm_1 inst_norm_2 time_concat
      self x t'.
Proof.
  intros Htime.
  assert (Hfalse : layers_py.is_False (layers_py.vq_time self) = false)
    by (rewrite Htime; reflexivity).
  unfold layers_py.DownBlock_call, layers_py.BottomBlock_call,
    layers_py.UpBlock_call, layers_py.UpBlockNoSkip_call.
  rewrite !(with_time_untimed time_concat self x _ Hfalse).
  repeat split;
    match goal with
    | |- context [layers_py.quantise self ?y t] =>
        rewrite (quantise_time_independent self y t t'); reflexivity
    end.
Qed.

Lemma timed_quantiser_ignores_time_witness :
  layers_py.DownBlock_call shift_half id id id (fun x _ => x) timed_block
    tensor_2x2 (Some tensor_3)
  = layers_py.DownBlock_call shift_half id id id (fun x _ => x) timed_block
      tensor_2x2 None /\
  layers_py.BottomBlock_call shift_half id id id (fun x _ => x) timed_block
    tensor_2x2 (Some tensor_3)
  = layers_py.BottomBlock_call shift_half id id id (fun x _ => x) timed_block
      tensor_2x2 None /\
  layers_py.UpBlock_call shift_half id id id id id (fun x _ => x) (fun x _ => x)
    timed_block tensor_2x2 tensor_entries (Some tensor_3)
  = layers_py.UpBlock_call shift_half id id id id id (fun x _ => x)
      (fun x _ => x) timed_block tensor_2x2 tensor_entries None /\
  layers_py.UpBlockNoSkip_call id shift_half id id (fun x _ => x) timed_block
    tensor_2x2 (Some tensor_3)
  = layers_py.UpBlockNoSkip_call id shift_half id id (fun x _ => x) timed_block
      tensor_2x2 None.
Proof.
  apply (timed_quantiser_ignores_time shift_half id id shift_half id id id
           (fun x _ => x) (fun x _ => x) timed_block tensor_2x2 tensor_entries
           (Some tensor_3) None).
  reflexivity.
Defined.

Lemma quantise_disabled (self : layers_py.Quantiser) (x : Tensor)
    (t : option Tensor) :
  layers_py.is_False (layers_py.vq_time self) = false ->
  layers_py.is_True (layers_py.vq_time self) = false ->
  layers_py.quantise self x t = Some (x, []).
Proof.
  intros Hf Ht. unfold layers_py.quantise. rewrite Hf, Ht, !andb_false_r.
  reflexivity.
Qed.

(** X18.  A block whose [vq_time] is neither the object False nor the
    object True (a number read from a configuration file, say) applies no
    quantiser and records no loss although [use_vq] may hold, and it never
    concatenates the time value: each of the four blocks returns what its
    convolutions, normalisations and ReLUs give on [x] alone. *)
Theorem untyped_vq_time_disables_quantiser
    (conv1 conv2 tconv conv inst_norm_1 inst_norm_2 inst_norm_t
       : Tensor -> Tensor)
    (concat time_concat : Tensor -> Tensor -> Tensor)
    (self : layers_py.Quantiser) (x skip : Tensor) (t : option Tensor) :
  layers_py.is_False (layers_py.vq_time self) = false ->
  layers_py.is_True (layers_py.vq_time self) = false ->
  layers_py.DownBlock_call conv1 conv2 inst_norm_1 inst_norm_2 time_concat self x t
  = Some (t_relu (inst_norm_2 (conv2 (t_relu (inst_norm_1 (conv1 x))))),
          t_relu (inst_norm_1 (conv1 x)), []) /\
  layers_py.BottomBlock_call conv1 conv2 inst_norm_1 inst_norm_2 time_concat
    self x t
  = Some (t_relu (inst_norm_2 (conv2 (t_relu (inst_norm_1 (conv1 x))))), []) /\
  layers_py.UpBlock_call conv1 conv2 tconv inst_norm_1 inst_norm_2 inst_norm_t
    concat time_concat self x skip t
  = Some (t_relu
            (inst_norm_2
               (conv2
                  (t_relu
                     (inst_norm_1
                        (conv1 (concat (t_relu (inst_norm_t (tconv x)))
                                       skip)))))), []) /\
  layers_py.UpBlockNoSkip_call tconv conv inst_norm_1 inst_norm_2 time_concat
    self x t
  = Some (t_relu (inst_norm_2 (conv (t_relu (inst_norm_1 (tconv x))))), []).
Proof.
  intros Hf Ht.
  unfold layers_py.DownBlock_call, layers_py.BottomBlock_call,
    layers_py.UpBlock_call, layers_py.UpBlockNoSkip_call.
  rewrite !(with_time_untimed time_concat self x _ Hf).
  rewrite !(quantise_disabled self _ t Hf Ht). repeat split.
Qed.

Lemma untyped_vq_time_disables_quantiser_witness :
  layers_py.DownBlock_call shift_half id id id (fun x _ => x) block_vq_time_1
    tensor_2x2 (Some tensor_3)
  = Some (t_relu (shift_half tensor_2x2), t_relu (shift_half tensor_2x2), []) /\
  layers_py.BottomBlock_call shift_half id id id (fun x _ => x) block_vq_time_1
    tensor_2x2 (Some tensor_3)
  = Some (t_relu (shift_half tensor_2x2), []) /\
  layers_py.UpBlock_call shift_half id id id id id (fun x _ => x) (fun x _ => x)
    block_vq_time_1 tensor_2x2 tensor_entries (Some tensor_3)
  = Some (t_relu (shift_half tensor_2x2), []) /\
  layers_py.UpBlockNoSkip_call id shift_half id id (fun x _ => x)
    block_vq_time_1 tensor_2x2 (Some tensor_3)
  = Some (t_relu (shift_half tensor_2x2), []).
Proof.
  destruct (untyped_vq_time_disables_quantiser shift_half id id shift_half
              id id id (fun x _ => x) (fun x _ => x) block_vq_time_1
              tensor_2x2 tensor_entries (Some tensor_3)
              eq_refl eq_refl) as (Hd & Hb & Hu & Hn).
  split; [|split; [|split]].
  - rewrite Hd. vm_compute. reflexivity.
  - rewrite Hb. vm_compute. reflexivity.
  - rewrite Hu. vm_compute. reflexivity.
  - rewrite Hn. vm_compute. reflexivity.
Defined.

(** [tf.nn.relu] *)
Lemma relu_nonneg (a : scalar) : 0 <= value (relu a).
Proof.
  unfold relu. destruct (Qclt_le_dec 0 (value a)) as [Hpos|Hneg].
  - apply Qclt_le_weak, Hpos.
  - apply Qcle_refl.
Qed.

Lemma t_relu_nonnegative (x : Tensor) : nonnegative (t_relu x).
Proof.
  unfold nonnegative, t_relu, t_map. simpl.
  induction (data x) as [|a l IH]; simpl; constructor; [apply relu_nonneg|exact IH].
Qed.

(** The shape and the losses of the quantiser step. *)
Lemma quantise_shape (self : layers_py.Quantiser) (x q : Tensor)
    (t : option Tensor) (losses : list scalar) :
  layers_py.quantise self x t = Some (q, losses) ->
  shape q = shape x /\
  length losses = (if quantiser_runs self then 1 else 0)%nat.
Proof.
  unfold layers_py.quantise, quantiser_runs.
  assert (Hcall : forall layer t0 q0 loss,
            layers_py.call layer x t0 = Some (q0, loss) -> shape q0 = shape x).
  { intros layer t0 q0 loss. rewrite layers_call_plain. unfold call.
    destruct (quantized (to_plain layer) x) as [q1|]; [|discriminate].
    simpl. intros [= <- _]. reflexivity. }
  destruct (layers_py.use_vq self); simpl; [|intros [= <- <-]; auto].
  destruct (layers_py.is_False (layers_py.vq_time self)); simpl.
  - destruct (layers_py.vq self) as [layer|]; [|discriminate]. simpl.
    destruct (layers_py.call layer x None) as [[q0 loss]|] eqn:Hq;
      [|discriminate].
    simpl. intros [= <- <-]. split; [eapply Hcall, Hq|reflexivity].
  - destruct (layers_py.is_True (layers_py.vq_time self)); simpl;
      [|intros [= <- <-]; auto].
    destruct (layers_py.vq self) as [layer|]; [|discriminate]. simpl.
    destruct (layers_py.call layer x t) as [[q0 loss]|] eqn:Hq; [|discriminate].
    simpl. intros [= <- <-]. split; [eapply Hcall, Hq|reflexivity].
Qed.

(** The last two steps of every block's [call]. *)
Lemma quantise_relu (self : layers_py.Quantiser) (y : Tensor)
    (t : option Tensor) (out : Tensor) (losses : list scalar) :
  ('(x, losses) ← layers_py.quantise self y t; Some (t_relu x, losses))
  = Some (out, losses) ->
  nonnegative out /\ shape out = shape y /\
  length losses = (if quantiser_runs self then 1 else 0)%nat.
Proof.
  destruct (layers_py.quantise self y t) as [[q l]|] eqn:Hq; [|discriminate].
  simpl. intros [= <- <-]. destruct (quantise_shape self y q t l Hq) as [Hs Hl].
  split; [apply t_relu_nonnegative|]. split; [exact Hs|exact Hl].
Qed.

(** X19.  Whatever the layers of a block compute, a block that returns
    returns tensors without negative entries (the output, and the skip
    output of [DownBlock]); the quantiser does not change the shape of the
    tensor it is applied to; and the block adds exactly one loss when its
    quantiser runs ([use_vq] with [vq_time] False or True) and none
    otherwise. *)
Theorem block_outputs_nonnegative
    (conv1 conv2 tconv conv inst_norm_1 inst_norm_2 inst_norm_t
       : Tensor -> Tensor)
    (concat time_concat : Tensor -> Tensor -> Tensor)
    (self : layers_py.Quantiser) (x skip : Tensor) (t : option Tensor) :
  (forall out skip_out losses,
     layers_py.DownBlock_call conv1 conv2 inst_norm_1 inst_norm_2 time_concat
       self x t = Some (out, skip_out, losses) ->
     nonnegative out /\ nonnegative skip_out /\
     shape out = shape (inst_norm_2 (conv2 skip_out)) /\
     length losses = (if quantiser_runs self then 1 else 0)%nat) /\
  (forall out losses,
     layers_py.BottomBlock_call conv1 conv2 inst_norm_1 inst_norm_2 time_concat
       self x t = Some (out, losses) ->
     nonnegative out /\
     length losses = (if quantiser_runs self then 1 else 0)%nat) /\
  (forall out losses,
     layers_py.UpBlock_call conv1 conv2 tconv inst_norm_1 inst_norm_2
       inst_norm_t concat time_concat self x skip t = Some (out, losses) ->
     nonnegative out /\
     length losses = (if quantiser_runs self then 1 else 0)%nat) /\
  (forall out losses,
     layers_py.UpBlockNoSkip_call tconv conv inst_norm_1 inst_norm_2
       time_concat self x t = Some (out, losses) ->
     nonnegative out /\
     length losses = (if quantiser_runs self then 1 else 0)%nat).
Proof.
  unfold layers_py.DownBlock_call, layers_py.BottomBlock_call,
    layers_py.UpBlock_call, layers_py.UpBlockNoSkip_call.
  split; [|split; [|split]].
  - intros out skip_out losses.
    destruct (layers_py.quantise self _ t) as [[q l]|] eqn:Hq; [|discriminate].
    simpl. intros [= <- <- <-].
    destruct (quantise_shape self _ q t l Hq) as [Hs Hl].
    split; [apply t_relu_nonnegative|]. split; [apply t_relu_nonnegative|].
    split; [exact Hs|exact Hl].
  - intros out losses Hcall. apply quantise_relu in Hcall as (Hn & _ & Hl). auto.
  - intros out losses Hcall. apply quantise_relu in Hcall as (Hn & _ & Hl). auto.
  - intros out losses Hcall. apply quantise_relu in Hcall as (Hn & _ & Hl). auto.
Qed.

Lemma block_outputs_nonnegative_witness :
  exists out skip_out losses,
    layers_py.DownBlock_call shift_half id id id (fun x _ => x) quantised_block
      tensor_2x2 None = Some (out, skip_out, losses) /\
    nonnegative out /\ nonnegative skip_out /\
    shape out = [1; 2; 2]%nat /\ length losses = 1%nat.
Proof.
  destruct (layers_py.DownBlock_call shift_half id id id (fun x _ => x)
              quantised_block tensor_2x2 None)
    as [[[out skip_out] losses]|] eqn:Hcall; [|vm_compute in Hcall; discriminate].
  exists out, skip_out, losses. split; [reflexivity|].
  destruct (proj1 (block_outputs_nonnegative shift_half id id shift_half
                     id id id (fun x _ => x) (fun x _ => x) quantised_block
                     tensor_2x2 tensor_entries None)
              out skip_out losses Hcall) as (Ho & Hs & Hshape & Hl).
  split; [exact Ho|]. split; [exact Hs|]. split; [|exact Hl].
  rewrite Hshape. vm_compute in Hcall. injection Hcall as <- <- <-. reflexivity.
Defined.

(** [DownBlock] of [layer/layers.py] on a dictionary of [UNet]. *)
Lemma layers_DownBlock_unet_dict (config : Config) (vq : option dict)
    (nc : Z) (weights strides : py.triple) (name : string)
    (b : layers_py.DownBlock) :
  vq_config_state config vq ->
  layers_DownBlock {| down_nc := nc; down_weights := weights;
                      down_strides := strides; down_use_vq := true;
                      down_vq_config := vq; down_name := name |} <> Ok b.
Proof.
  unfold vq_config_state, layers_DownBlock, layers_py.DownBlock_init. simpl.
  intros Hstate.
  assert (Hnone : forall d, vq = Some d -> d !! "vq_time" = None).
  { intros d ->. destruct (vq_layers config) as [m|]; [|discriminate].
    destruct Hstate as (d' & [= <-] & _ & Hkeys & _).
    destruct (d !! "vq_time") as [v|] eqn:Hv; [|reflexivity].
    destruct (Hkeys _ _ Hv); discriminate. }
  destruct vq as [d|]; [|discriminate].
  unfold py.getitem. rewrite (Hnone d eq_refl).
  destruct (d !! "embeddings"); simpl; [|discriminate].
  destruct (d !! "vq_beta"); simpl; discriminate.
Qed.

(** X21.  With [DownBlock] of [layer/layers.py] as the block constructor of
    the encoder, [UNet.__init__] builds a network only for configurations
    that quantise no encoder stage and not the bottom stage: the dictionary
    that [UNet] hands to a quantised block never has the key "vq_time" the
    block reads. *)
Theorem layers_DownBlock_rejects_quantised_encoder
    {UpBlockT VQBlockT : Type}
    (UpBlock : UpBlock_args -> result UpBlockT)
    (VQBlock : VQBlock_args -> result VQBlockT)
    (config : Config) (self : UNet layers_py.DownBlock UpBlockT VQBlockT) :
  UNet_init layers_DownBlock UpBlock VQBlock config = Ok self ->
  (forall i : Z, (0 <= i < layers config)%Z ->
     "down_" +:+ pretty i ∉ vq_keys config) /\
  "bottom" ∉ vq_keys config.
Proof.
  intros Hinit.
  apply UNet_init_inv in Hinit
    as (bound & vq1 & cache & _ & _ & Henc & _).
  apply get_encoder_inv in Henc
    as (loc & vq2 & c & k & _ & Hloop & Hvq & _ & _ & Hbottom & _).
  assert (Hinv : vq_config_state config vq2 /\
                 forall j, (j < length (range 0 (layers config)))%nat ->
                   "down_" +:+ pretty (Z.of_nat j) ∉ vq_keys config).
  { eapply (for_each_indexed
              (fun n (s : option dict * list layers_py.DownBlock) =>
                 vq_config_state config s.1 /\
                 forall j, (j < n)%nat ->
                   "down_" +:+ pretty (Z.of_nat j) ∉ vq_keys config)
              _ _ _ (vq2, encoder self)); [| |exact Hloop].
    - split; [apply vq_config_state_init|]. intros j Hj. lia.
    - intros n i [vqa enca] [vqb encb] Hi [Hst Hprev] Hstep.
      apply range_lookup_inv in Hi as [-> _].
      apply encoder_step_inv in Hstep
        as (c' & k' & s' & blk & _ & _ & _ & Hset & Hblk & _).
      simpl in Hst |- *.
      destruct (stage_wired config vqa vqb ("down_" +:+ pretty (Z.of_nat n))
                  ltac:(left; eexists; reflexivity) Hst Hset) as [Hst' _].
      split; [exact Hst'|]. intros j Hj.
      destruct (decide (j = n)) as [->|Hne]; [|apply Hprev; lia].
      case_bool_decide as Hin; [|exact Hin].
      exfalso. exact (layers_DownBlock_unet_dict config vqb _ _ _ _ blk Hst' Hblk). }
  destruct Hinv as [Hst Hdown]. split.
  - intros i Hi. rewrite range_length in Hdown.
    replace i with (Z.of_nat (Z.to_nat i)) by lia. apply Hdown. lia.
  - destruct (stage_wired config vq2 vq1 "bottom"
                ltac:(right; left; reflexivity) Hst Hvq) as [Hst' _].
    case_bool_decide as Hin; [|exact Hin].
    exfalso.
    exact (layers_DownBlock_unet_dict config vq1 _ _ _ _ _ Hst' Hbottom).
Qed.

Lemma layers_DownBlock_rejects_quantised_encoder_witness :
  exists self,
    UNet_init layers_DownBlock recorded recorded config_upsample = Ok self /\
    (forall i : Z, (0 <= i < 1)%Z ->
       "down_" +:+ pretty i ∉ vq_keys config_upsample) /\
    "bottom" ∉ vq_keys config_upsample.
Proof.
  destruct (UNet_init layers_DownBlock recorded recorded config_upsample)
    as [self|e] eqn:Hinit; [|vm_compute in Hinit; discriminate].
  exists self. split; [reflexivity|].
  exact (layers_DownBlock_rejects_quantised_encoder recorded recorded
           config_upsample self Hinit).
Defined.

(* ===================================================================== *)
(** ** Properties of float32 arithmetic *)
(* ===================================================================== *)

Import f32.

Lemma f32_digits2_pos_xO (p : positive) :
  SpecFloat.digits2_pos p~0 = Pos.succ (SpecFloat.digits2_pos p).
Proof. reflexivity. Qed.

(** Multiplying by 1 is exact. *)
Lemma f32_mul_one_l (a : float32) : is_finite a = true -> mul one a = a.
Proof.
  destruct a as [s|s| |s m e]; try discriminate.
  - intros _. destruct s; reflexivity.
  - unfold is_finite, SpecFloat.bounded, SpecFloat.canonical_mantissa.
    intros Hb. apply andb_true_iff in Hb as [Hc He].
    apply Z.eqb_eq in Hc.
    unfold mul, one, SpecFloat.SFmul, SpecFloat.binary_round_aux,
      SpecFloat.shr_fexp.
    assert (Hd : (SpecFloat.Zdigits2 (Z.pos (8388608 * m)) + (-23 + e)
                  = Z.pos (SpecFloat.digits2_pos m) + e)%Z).
    { unfold SpecFloat.Zdigits2.
      change (8388608 * m)%positive
        with (m~0~0~0~0~0~0~0~0~0~0~0~0~0~0~0~0~0~0~0~0~0~0~0)%positive.
      rewrite !f32_digits2_pos_xO, !Pos2Z.inj_succ. lia. }
    rewrite Hd, Hc.
    replace (e - (-23 + e))%Z with 23%Z by lia.
    change (SpecFloat.shr
              (SpecFloat.shr_record_of_loc (Z.pos (8388608 * m))
                 SpecFloat.loc_Exact) (-23 + e) 23)
      with ({| SpecFloat.shr_m := Z.pos m; SpecFloat.shr_r := false;
               SpecFloat.shr_s := false |}, (-23 + e + 23)%Z).
    replace (-23 + e + 23)%Z with e by lia.
    cbn [SpecFloat.shr_m SpecFloat.loc_of_shr_record
         SpecFloat.round_nearest_even SpecFloat.Zdigits2].
    rewrite Hc, Z.sub_diag. cbn [SpecFloat.shr SpecFloat.shr_record_of_loc SpecFloat.shr_m].
    rewrite He. destruct s; reflexivity.
Qed.

(** Multiplying a finite number by 0 gives a zero. *)
Lemma f32_mul_zero_l (a : float32) :
  is_finite a = true -> is_zero (mul zero a) = true.
Proof. destruct a; try discriminate; reflexivity. Qed.

(** Adding a zero. *)
Lemma f32_add_zero_r (a z : float32) :
  is_zero z = true -> is_zero a = false -> add a z = a.
Proof. destruct z; try discriminate. destruct a; try discriminate; reflexivity. Qed.

Lemma f32_add_zero_l (z a : float32) :
  is_zero z = true -> is_zero a = false -> add z a = a.
Proof. destruct z; try discriminate. destruct a; try discriminate; reflexivity. Qed.

Lemma f32_add_zeros (z z' : float32) :
  is_zero z = true -> is_zero z' = true -> is_zero (add z z') = true.
Proof.
  destruct z as [s| | |]; try discriminate.
  destruct z' as [s'| | |]; try discriminate. destruct s, s'; reflexivity.
Qed.







Import tf32 spec32.


Lemma f32_moderate_finite (a : float32) : moderate a = true -> is_finite a = true.
Proof.
  destruct a as [s|s| |s m e]; try discriminate; [reflexivity|]. simpl.
  intros H. apply andb_true_iff in H as [H _].
  apply andb_true_iff in H as [H _]. exact H.
Qed.

Lemma f32_moderate_row (row : list float32) :
  Forall (fun v => moderate v = true) row ->
  Forall (fun v => is_finite v = true) row.
Proof.
  intros H. eapply Forall_impl; [exact H|]. intros v. apply f32_moderate_finite.
Qed.


(** Adding zeros to an accumulator. *)
Lemma f32_sum_zeros (l : list float32) (acc : float32) :
  Forall (fun t => is_zero t = true) l ->
  (is_zero acc = true -> is_zero (fold_left add l acc) = true) /\
  (is_zero acc = false -> fold_left add l acc = acc).
Proof.
  intros Hl. revert acc. induction Hl as [|t l Ht _ IH]; intros acc; simpl.
  - auto.
  - split; intros Hacc.
    + apply IH. apply f32_add_zeros; assumption.
    + rewrite (f32_add_zero_r acc t Ht Hacc). apply IH, Hacc.
Qed.

(** The products of a one-hot row are zeros away from its index. *)
Lemma f32_one_hot_zero_terms (idx s : nat) (b : list float32) :
  Forall (fun v => is_finite v = true) b ->
  (idx < s)%nat ->
  Forall (fun t => is_zero t = true)
         (zip_with mul
            (map (fun k => if (k =? idx)%nat then one else zero)
                 (seq s (length b))) b).
Proof.
  intros Hb. revert s. induction Hb as [|v b Hv _ IH]; intros s Hs; simpl.
  - constructor.
  - constructor.
    + replace (s =? idx)%nat with false by (symmetry; apply Nat.eqb_neq; lia).
      apply f32_mul_zero_l, Hv.
    + apply IH. lia.
Qed.

Lemma f32_one_hot_sum (idx s : nat) (b : list float32) (acc : float32) :
  Forall (fun v => is_finite v = true) b ->
  (s <= idx < s + length b)%nat ->
  is_zero acc = true ->
  same (fold_left add
          (zip_with mul
             (map (fun k => if (k =? idx)%nat then one else zero)
                  (seq s (length b))) b) acc)
       (nth (idx - s) b zero).
Proof.
  intros Hb. revert s acc.
  induction Hb as [|v b Hv Hb IH]; intros s acc Hidx Hacc; simpl in *; [lia|].
  destruct (Nat.eqb_spec s idx) as [->|Hne].
  - rewrite Nat.sub_diag. cbn [nth]. rewrite (f32_mul_one_l v Hv).
    pose proof (f32_sum_zeros _ (add acc v)
                  (f32_one_hot_zero_terms idx (S idx) b Hb ltac:(lia)))
      as [Hz Hnz].
    destruct (is_zero v) eqn:Hzv.
    + right. split; [|exact Hzv]. apply Hz, f32_add_zeros; assumption.
    + left. rewrite (f32_add_zero_l acc v Hacc Hzv) in *. apply Hnz, Hzv.
  - replace (idx - s)%nat with (S (idx - S s)) by lia.
    apply IH; [lia|]. apply f32_add_zeros; [exact Hacc|].
    apply f32_mul_zero_l, Hv.
Qed.

(** Adding in index order the products of a one-hot row and a row of
    finite numbers gives the entry at its index. *)
Lemma f32_index_order_one_hot (row : list float32) (idx : nat) :
  Forall (fun v => is_finite v = true) row ->
  (idx < length row)%nat ->
  same (fold_left add (zip_with mul (one_hot idx (length row)) row) zero)
       (nth idx row zero).
Proof.
  intros Hrow Hidx. unfold one_hot.
  pose proof (f32_one_hot_sum idx 0 row zero Hrow ltac:(lia) eq_refl) as H.
  rewrite Nat.sub_0_r in H. exact H.
Qed.

Lemma f32_index_order_exact : exact_on_one_hot index_order.
Proof.
  split; [reflexivity|]. intros row idx Hrow Hidx.
  pose proof (f32_index_order_one_hot row idx (f32_moderate_row row Hrow) Hidx).
  split; assumption.
Qed.






(* ===================================================================== *)
(** ** [vq_layers.py] on float32 *)
(* ===================================================================== *)

Import vq_layers_f32.









(** The rows of [distances]. *)
Lemma f32_distances_rows (kernel : Kernels) (self : VQBlock)
    (flattened : matrix) :
  distances kernel self flattened = map (distance_row kernel self) flattened.
Proof.
  unfold distances, matmul, distance_row.
  rewrite zip_with_map_map. apply map_ext. intros a.
  rewrite zip_with_map_map. reflexivity.
Qed.


Lemma f32_get_code_indices_rows (kernel : Kernels) (self : VQBlock)
    (flattened : matrix) :
  (0 < num_embeddings self)%nat ->
  get_code_indices kernel self flattened
  = Some (map (fun a => argmin (distance_row kernel self a)) flattened).
Proof.
  intros HK. unfold get_code_indices.
  replace (num_embeddings self =? 0)%nat with false
    by (symmetry; apply Nat.eqb_neq; lia).
  rewrite f32_distances_rows, map_map. reflexivity.
Qed.



(** The feature vectors of an input [call] applies to. *)
Lemma f32_applicable_rows (self : VQBlock) (x : Tensor) :
  applicable self x ->
  reshape_rows x (embedding_dim self) = Some (feature_vectors self x) /\
  length (data x)
  = (length (data x) / embedding_dim self * embedding_dim self)%nat.
Proof.
  intros (_ & _ & HD & _ & Hmod & _). unfold reshape_rows, feature_vectors.
  replace (embedding_dim self =? 0)%nat with false
    by (symmetry; apply Nat.eqb_neq; lia).
  rewrite Hmod. simpl. split; [reflexivity|].
  pose proof (Nat.div_mod_eq (length (data x)) (embedding_dim self)). lia.
Qed.

(** The quantised tensor for a dictionary that is not scalar: the selected
    columns, one after the other. *)
Lemma f32_quantized_columns (kernel : Kernels) (self : VQBlock)
    (x : Tensor) :
  applicable self x ->
  embedding_dim self <> 1%nat ->
  exists q,
    quantized kernel self x = Some q /\
    shape q = shape x /\
    length (data q) = length (data x) /\
    feature_vectors self q
    = map (fun a =>
             map (fun b => dot kernel
                             (one_hot (argmin (distance_row kernel self a))
                                      (num_embeddings self)) b)
                 (dictionary self))
          (feature_vectors self x).
Proof.
  intros Happ HD1.
  destruct (f32_applicable_rows self x Happ) as [Hflat Hlen].
  destruct Happ as ((Hdict & _) & HK & HD & Hx & _).
  set (rows := map (fun a =>
                      map (fun b => dot kernel
                                      (one_hot
                                         (argmin (distance_row kernel self a))
                                         (num_embeddings self)) b)
                          (dictionary self))
                   (feature_vectors self x)).
  assert (Hrows : Forall (fun r => length r = embedding_dim self) rows).
  { unfold rows. apply Forall_map. apply Forall_forall. intros a _.
    rewrite length_map. exact Hdict. }
  assert (Hcount : length rows = (length (data x) / embedding_dim self)%nat).
  { unfold rows, feature_vectors. rewrite length_map. apply take_rows_length. }
  assert (Hq : length (concat rows) = length (data x)).
  { rewrite (concat_length_rows _ _ Hrows), Hcount. symmetry. exact Hlen. }
  exists {| shape := shape x; data := concat rows |}.
  split; [|split; [reflexivity|split; [exact Hq|]]].
  - unfold quantized. rewrite Hflat. simpl.
    rewrite (f32_get_code_indices_rows kernel _ _ HK). simpl.
    replace (embedding_dim self =? 1)%nat with false
      by (symmetry; apply Nat.eqb_neq; exact HD1).
    simpl. unfold matmul_transpose_b. rewrite !map_map. fold rows.
    unfold reshape. rewrite Hq, Hx, Nat.eqb_refl. reflexivity.
  - unfold feature_vectors at 1. cbn [data]. rewrite Hq, <- Hcount.
    apply take_rows_concat, Hrows.
Qed.

(** The quantised tensor for a scalar dictionary. *)
Lemma f32_quantized_scalars (kernel : Kernels) (self : VQBlock)
    (x : Tensor) :
  applicable self x ->
  embedding_dim self = 1%nat ->
  exists b,
    dictionary self = [b] /\
    quantized kernel self x
    = Some {| shape := shape x;
              data := map (fun a =>
                             mul (reduce_sum kernel
                                    (zip_with mul
                                       (one_hot
                                          (argmin (distance_row kernel self a))
                                          (num_embeddings self)) b))
                                 WEIGHT_SCALE)
                          (feature_vectors self x) |}.
Proof.
  intros Happ HD1.
  destruct (f32_applicable_rows self x Happ) as [Hflat Hlen].
  destruct Happ as ((Hdict & _) & HK & HD & Hx & _).
  rewrite HD1 in Hdict.
  destruct (dictionary self) as [|b [|b' B]] eqn:Hd; try discriminate.
  exists b. split; [reflexivity|].
  unfold quantized. rewrite Hflat. simpl.
  rewrite (f32_get_code_indices_rows kernel _ _ HK). simpl.
  rewrite HD1, Hd. simpl. rewrite !map_map.
  unfold reshape. rewrite length_map.
  unfold feature_vectors. rewrite take_rows_length.
  rewrite HD1, Nat.div_1_r, Hx, Nat.eqb_refl. reflexivity.
Qed.









(** X22.  On a tensor without entries [call] returns the tensor and
    records NaN as the loss, whatever the kernels: both losses are means
    of no entry. *)
Theorem empty_input_loss_nan (kernel : Kernels) (self : VQBlock)
    (x : Tensor) :
  exact_on_one_hot kernel ->
  applicable self x ->
  data x = [] ->
  call kernel self x = Some (x, SpecFloat.S754_nan).
Proof.
  intros [Hnothing _] Happ Hempty.
  assert (Hq : quantized kernel self x = Some x).
  { destruct (Nat.eq_dec (embedding_dim self) 1%nat) as [HD|HD].
    - destruct (f32_quantized_scalars kernel self x Happ HD) as (b & _ & ->).
      unfold feature_vectors. rewrite Hempty, HD. simpl.
      destruct x as [dims entries]. simpl in *. rewrite Hempty. reflexivity.
    - destruct (f32_quantized_columns kernel self x Happ HD)
        as (q & -> & Hshape & Hlen & _).
      destruct x as [dims entries], q as [qdims qentries]. simpl in *.
      subst. destruct qentries; [reflexivity|discriminate]. }
  unfold call. rewrite Hq. destruct x as [dims entries]. simpl in *.
  rewrite Hempty. unfold t_reduce_mean, reduce_mean. simpl.
  rewrite Hnothing. reflexivity.
Qed.

Lemma empty_input_loss_nan_witness :
  call index_order codebook_2d tensor_empty
  = Some (tensor_empty, SpecFloat.S754_nan).
Proof.
  apply (empty_input_loss_nan index_order codebook_2d tensor_empty);
    [apply f32_index_order_exact| |reflexivity].
  repeat split; try (simpl; lia); repeat constructor.
Defined.
